(** * Movie Match: the recommendation pipeline and its text-file store

    A shallow embedding of [code.py]: the persisted lists and preferences
    ([read_watch_later], [append_watch_later], [remove_watch_later],
    [read_preferences], [write_preferences], [read_watched]), the year
    banding ([categorize_year]), the emotion ranking ([analyze_emotions]),
    the matching loop ([recommend_based_on_preferences]) and the genre
    aggregation of [renew_preferences].

    Python values are modelled as follows.
    - [str] is [string]; a character is a code point below 256.
    - [int] is [Z]; [float] is an IEEE-754 binary64 value, [spec_float].
    - a [dict] whose iteration order matters is an association list in
      insertion order.
    - files, console output and the two external services (review page,
      emotion classifier) are an explicit world threaded through a small
      state-and-exception monad. *)

From Stdlib Require Import String Ascii List ZArith Bool Lia.
From Stdlib Require Import Sorted Permutation.
From Stdlib Require Import SpecFloat.
From Stdlib Require Import DecimalString DecimalPos.
Import ListNotations.

Open Scope string_scope.
Open Scope list_scope.
Open Scope Z_scope.

(* ================================================================== *)
(** * Python strings *)
(* ================================================================== *)

Module PyStr.

Definition code (c : ascii) : N := N_of_ascii c.

(** [str.isspace] on one character: U+0009..U+000D, U+001C..U+001F,
    U+0020, U+0085 and U+00A0. *)
Definition is_space (c : ascii) : bool :=
  let n := code c in
  ((9 <=? n) && (n <=? 13) || (28 <=? n) && (n <=? 32)
   || (n =? 133) || (n =? 160))%N.

(** [str.lower] on one character: A..Z and the Latin-1 capitals
    U+00C0..U+00DE (without the multiplication sign U+00D7). *)
Definition lower_char (c : ascii) : ascii :=
  let n := code c in
  if ((65 <=? n) && (n <=? 90)
      || (192 <=? n) && (n <=? 222) && negb (n =? 215))%N
  then ascii_of_N (n + 32)
  else c.

Fixpoint lower (s : string) : string :=
  match s with
  | EmptyString => EmptyString
  | String c s' => String (lower_char c) (lower s')
  end.

Fixpoint lstrip (s : string) : string :=
  match s with
  | String c s' => if is_space c then lstrip s' else s
  | EmptyString => EmptyString
  end.

(** [rstrip] keeps a character when it is not a space or when something
    survives to its right. *)
Fixpoint rstrip (s : string) : string :=
  match s with
  | EmptyString => EmptyString
  | String c s' =>
      match rstrip s' with
      | EmptyString => if is_space c then EmptyString else String c EmptyString
      | r => String c r
      end
  end.

Definition strip (s : string) : string := rstrip (lstrip s).

(** Truth value of a string: non-empty. *)
Definition truthy (s : string) : bool :=
  match s with EmptyString => false | _ => true end.

(** [s.split(sep)] for a one-character separator: never empty. *)
Fixpoint split (sep : ascii) (s : string) : list string :=
  match s with
  | EmptyString => [EmptyString]
  | String c s' =>
      if Ascii.eqb c sep then EmptyString :: split sep s'
      else match split sep s' with
           | x :: xs => String c x :: xs
           | [] => [String c EmptyString]
           end
  end.

(** [s.split(sep, 1)]: cut at the first separator only. *)
Fixpoint split1 (sep : ascii) (s : string) : list string :=
  match s with
  | EmptyString => [EmptyString]
  | String c s' =>
      if Ascii.eqb c sep then [EmptyString; s']
      else match split1 sep s' with
           | x :: xs => String c x :: xs
           | [] => [String c EmptyString]
           end
  end.

(** [sep.join(l)]. *)
Fixpoint join (sep : string) (l : list string) : string :=
  match l with
  | [] => EmptyString
  | [x] => x
  | x :: xs => (x ++ sep ++ join sep xs)%string
  end.

(** [s.startswith(p)]. *)
Fixpoint startswith (s p : string) {struct p} : bool :=
  match p, s with
  | EmptyString, _ => true
  | String a p', String b s' => Ascii.eqb a b && startswith s' p'
  | String _ _, EmptyString => false
  end.

(** [s.replace(old, "")] for a non-empty [old]: every occurrence, found
    left to right without overlap, is deleted.  [skip] counts the
    characters of a match that are still to be dropped. *)
Fixpoint remove_from (skip : nat) (old s : string) : string :=
  match s with
  | EmptyString => EmptyString
  | String c s' =>
      match skip with
      | S k => remove_from k old s'
      | O =>
          if startswith s old
          then remove_from (pred (String.length old)) old s'
          else String c (remove_from O old s')
      end
  end.

Definition remove_all (old s : string) : string := remove_from O old s.

(** [x in l] for a list of strings. *)
Definition mem (x : string) (l : list string) : bool :=
  existsb (String.eqb x) l.

(** A text file read back, newline translation on: CR LF and a lone CR
    become LF. *)
Fixpoint universal_newlines (s : string) : string :=
  match s with
  | EmptyString => EmptyString
  | String c s' =>
      if Ascii.eqb c "013"%char then
        match s' with
        | String d s'' =>
            if Ascii.eqb d "010"%char
            then String "010"%char (universal_newlines s'')
            else String "010"%char (universal_newlines s')
        | EmptyString => String "010"%char EmptyString
        end
      else String c (universal_newlines s')
  end.

(** Iterating a file: the lines, each with its terminator; no empty
    line after a final terminator. *)
Fixpoint lines (s : string) : list string :=
  match s with
  | EmptyString => []
  | String c s' =>
      if Ascii.eqb c "010"%char then String c EmptyString :: lines s'
      else match lines s' with
           | x :: xs => String c x :: xs
           | [] => [String c EmptyString]
           end
  end.

End PyStr.

(* ================================================================== *)
(** * Python numbers: [int(str)] and [float(str)] *)
(* ================================================================== *)

Module PyNum.
Import PyStr.

(** Binary64. *)
Definition prec : Z := 53.
Definition emax : Z := 1024.
Definition float : Type := spec_float.

Definition float_le (x y : float) : bool := SFleb x y.
Definition float_lt (x y : float) : bool := SFltb x y.
Definition float_add (x y : float) : float := SFadd prec emax x y.

(** The white space that the numeric constructors skip at both ends:
    the C-locale blanks and the two Latin-1 Unicode spaces. *)
Definition is_num_space (c : ascii) : bool :=
  let n := code c in
  ((9 <=? n) && (n <=? 13) || (n =? 32) || (n =? 133) || (n =? 160))%N.

Fixpoint num_lstrip (s : string) : string :=
  match s with
  | String c s' => if is_num_space c then num_lstrip s' else s
  | EmptyString => EmptyString
  end.

Fixpoint num_rstrip (s : string) : string :=
  match s with
  | EmptyString => EmptyString
  | String c s' =>
      match num_rstrip s' with
      | EmptyString =>
          if is_num_space c then EmptyString else String c EmptyString
      | r => String c r
      end
  end.

Definition num_strip (s : string) : string := num_rstrip (num_lstrip s).

Definition is_digit (c : ascii) : bool :=
  ((48 <=? code c) && (code c <=? 57))%N.

Definition digit_val (c : ascii) : Z := Z.of_N (code c) - 48.

(** After a digit: the rest of [digit (["_"] digit)*].  Returns the
    value read, the number of digits and the unread text. *)
Fixpoint digits_tail (acc : Z) (n : nat) (s : string) : Z * nat * string :=
  match s with
  | String c s' =>
      if is_digit c then digits_tail (10 * acc + digit_val c) (S n) s'
      else if Ascii.eqb c "_"%char then
        match s' with
        | String d s'' =>
            if is_digit d
            then digits_tail (10 * acc + digit_val d) (S n) s''
            else (acc, n, s)
        | EmptyString => (acc, n, s)
        end
      else (acc, n, s)
  | EmptyString => (acc, n, s)
  end.

Definition digitpart (s : string) : option (Z * nat * string) :=
  match s with
  | String c s' =>
      if is_digit c then Some (digits_tail (digit_val c) 1%nat s') else None
  | EmptyString => None
  end.

(** An optional sign; [true] is minus. *)
Definition sign_of (s : string) : bool * string :=
  match s with
  | String c s' =>
      if Ascii.eqb c "-"%char then (true, s')
      else if Ascii.eqb c "+"%char then (false, s')
      else (false, s)
  | EmptyString => (false, s)
  end.

(** The most digits that [int] reads from a text, as the interpreter
    sets it by default. *)
Definition int_max_str_digits : Z := 4300.

(** [int(s)]: [None] stands for [ValueError], which is also what a text
    of more than [int_max_str_digits] digits gets, leading zeros
    counted. *)
Definition py_int (s : string) : option Z :=
  let '(neg, t) := sign_of (num_strip s) in
  match digitpart t with
  | Some (v, n, EmptyString) =>
      if int_max_str_digits <? Z.of_nat n then None
      else Some (if neg then - v else v)
  | _ => None
  end.

(** The decimal [d * 10^e] rounded to the nearest binary64, ties to
    even; an overflow gives an infinity. *)
Definition round_decimal (neg : bool) (d e : Z) : float :=
  match d with
  | Zpos p =>
      match e with
      | Zneg k =>
          let '(q, e2, l) :=
            SFdiv_core_binary prec emax (Zpos p) 0 (10 ^ Zpos k) 0 in
          binary_round_aux prec emax neg q e2 l
      | _ =>
          match (Zpos p * 10 ^ e) with
          | Zpos m => binary_round prec emax neg m 0
          | _ => S754_zero neg
          end
      end
  | _ => S754_zero neg
  end.

(** An optional exponent part: [("e" | "E") [sign] digitpart]. *)
Definition exponent (s : string) : option (Z * string) :=
  match s with
  | String c s' =>
      if Ascii.eqb (lower_char c) "e"%char then
        let '(neg, t) := sign_of s' in
        match digitpart t with
        | Some (v, _, rest) => Some (if neg then - v else v, rest)
        | None => None
        end
      else Some (0, s)
  | EmptyString => Some (0, s)
  end.

(** [[digitpart] "." digitpart | digitpart ["."]], then the exponent;
    the whole text must be used. *)
Definition floatnumber (neg : bool) (s : string) : option float :=
  let '(vi, ni, r1) :=
    match digitpart s with
    | Some x => x
    | None => (0, O, s)
    end in
  let '(vf, nf, r2) :=
    match r1 with
    | String c r1' =>
        if Ascii.eqb c "."%char then
          match digitpart r1' with
          | Some x => x
          | None => (0, O, r1')
          end
        else (0, O, r1)
    | EmptyString => (0, O, r1)
    end in
  match (ni + nf)%nat with
  | O => None
  | _ =>
      match exponent r2 with
      | Some (ex, EmptyString) =>
          Some (round_decimal neg (vi * 10 ^ Z.of_nat nf + vf)
                              (ex - Z.of_nat nf))
      | _ => None
      end
  end.

(** [float(s)]: [None] stands for [ValueError]. *)
Definition py_float (s : string) : option float :=
  let '(neg, t) := sign_of (num_strip s) in
  let w := lower t in
  if String.eqb w "inf" || String.eqb w "infinity"
  then Some (S754_infinity neg)
  else if String.eqb w "nan" then Some S754_nan
  else floatnumber neg t.

(** A position for every float but NaN, such that [<] on floats is the
    lexicographic order of the positions. *)
Definition float_rank (x : float) : Z * Z * Z :=
  match x with
  | S754_nan => (0, 0, 0)
  | S754_zero _ => (0, 0, 0)
  | S754_infinity true => (-2, 0, 0)
  | S754_infinity false => (2, 0, 0)
  | S754_finite true m e => (-1, - e, - Zpos m)
  | S754_finite false m e => (1, e, Zpos m)
  end.

Definition rank_lt (a b : Z * Z * Z) : Prop :=
  let '(a1, a2, a3) := a in
  let '(b1, b2, b3) := b in
  a1 < b1 \/ (a1 = b1 /\ (a2 < b2 \/ (a2 = b2 /\ a3 < b3))).

Definition is_nan (x : float) : bool :=
  match x with S754_nan => true | _ => false end.

(** The literal [6.5] of the rating gate: 13 * 2^-1. *)
Definition f6_5 : float := S754_finite false 7318349394477056 (-50).

End PyNum.

(* ================================================================== *)
(** * Python dictionaries and [sorted] *)
(* ================================================================== *)

(** A [dict] with string keys, kept in insertion order: assigning to a
    key that is present keeps its place, a new key goes to the end. *)
Module PyDict.

Section Dict.
Context {V : Type}.

Definition dict : Type := list (string * V).

Fixpoint get (d : dict) (k : string) : option V :=
  match d with
  | [] => None
  | (k', v) :: d' => if String.eqb k' k then Some v else get d' k
  end.

Fixpoint set (d : dict) (k : string) (v : V) : dict :=
  match d with
  | [] => [(k, v)]
  | (k', v') :: d' =>
      if String.eqb k' k then (k', v) :: d' else (k', v') :: set d' k v
  end.

(** [d.get(k, default)]. *)
Definition get_default (d : dict) (k : string) (default : V) : V :=
  match get d k with
  | Some v => v
  | None => default
  end.

Definition keys (d : dict) : list string := map fst d.

End Dict.

Arguments dict V : clear implicits.

End PyDict.

(** [sorted(items, key=..., reverse=True)]: the stable sort into
    descending key order; [lt] is the [<] of the keys.  Items whose keys
    tie keep the order they had in the input.  This is the result of
    the interpreter's sort for keys that [<] orders, integers and
    floats that are numbers; with a NaN among the keys the interpreter's
    result depends on the comparisons that its merge sort happens to
    make, and only the lists on which every comparison is false, which
    both leave as they are, are covered. *)
Module PySort.

Section Sort.
Context {A K : Type}.
Variable key : A -> K.
Variable lt : K -> K -> bool.

Fixpoint insert_desc (x : A) (l : list A) : list A :=
  match l with
  | [] => [x]
  | y :: l' =>
      if lt (key x) (key y) then y :: insert_desc x l' else x :: y :: l'
  end.

Definition sorted_reverse (l : list A) : list A :=
  fold_right insert_desc [] l.

End Sort.

(** [a] stands somewhere before [b] in [l]. *)
Definition precedes {A : Type} (a b : A) (l : list A) : Prop :=
  exists l1 l2 l3, l = l1 ++ a :: l2 ++ b :: l3.

End PySort.

(* ================================================================== *)
(** * The world: three text files, the console, the network *)
(* ================================================================== *)

Module Runtime.

Inductive exn : Type :=
| ValueError
| IndexError
| FileNotFoundError.

Inductive result (A : Type) : Type :=
| Ok (a : A)
| Raise (e : exn).
Arguments Ok {A} a.
Arguments Raise {A} e.

(** The three files of the store, by the constant that names them. *)
Inductive file_name : Type :=
| WATCHED_FILE
| PREFERENCES_FILE
| WATCH_LATER_FILE.

(** What the program does to the outside, in order. *)
Inductive event : Type :=
| Print (msg : string)
| PrintRecommended (title year genres : string) (rating : PyNum.float)
| Write (f : file_name) (content : string)
| Fetch (url : string)
| Sleep (seconds : Z).

(** A file is absent ([None]) or holds text. *)
Record files : Type := {
  watched_txt : option string;
  preferences_txt : option string;
  watch_later_txt : option string
}.

Record world : Type := {
  fs : files;
  log : list event
}.

Definition file_get (f : file_name) (s : files) : option string :=
  match f with
  | WATCHED_FILE => watched_txt s
  | PREFERENCES_FILE => preferences_txt s
  | WATCH_LATER_FILE => watch_later_txt s
  end.

Definition file_set (f : file_name) (c : string) (s : files) : files :=
  match f with
  | WATCHED_FILE =>
      {| watched_txt := Some c; preferences_txt := preferences_txt s;
         watch_later_txt := watch_later_txt s |}
  | PREFERENCES_FILE =>
      {| watched_txt := watched_txt s; preferences_txt := Some c;
         watch_later_txt := watch_later_txt s |}
  | WATCH_LATER_FILE =>
      {| watched_txt := watched_txt s; preferences_txt := preferences_txt s;
         watch_later_txt := Some c |}
  end.

(** State and exceptions. *)
Definition M (A : Type) : Type := world -> result A * world.

Definition ret {A : Type} (a : A) : M A := fun w => (Ok a, w).

Definition bind {A B : Type} (m : M A) (k : A -> M B) : M B :=
  fun w =>
    match m w with
    | (Ok a, w') => k a w'
    | (Raise e, w') => (Raise e, w')
    end.

Definition raise {A : Type} (e : exn) : M A := fun w => (Raise e, w).

Definition emit (e : event) : M unit :=
  fun w => (Ok tt, {| fs := fs w; log := log w ++ [e] |}).

(** [os.path.exists(f)]. *)
Definition path_exists (f : file_name) : M bool :=
  fun w =>
    (Ok (match file_get f (fs w) with Some _ => true | None => false end),
     w).

(** [open(f, 'r').read()], newline translation on. *)
Definition read_text (f : file_name) : M string :=
  fun w =>
    match file_get f (fs w) with
    | Some c => (Ok (PyStr.universal_newlines c), w)
    | None => (Raise FileNotFoundError, w)
    end.

(** [open(f, 'w').write(c)]: the file is replaced. *)
Definition write_text (f : file_name) (c : string) : M unit :=
  fun w =>
    (Ok tt, {| fs := file_set f c (fs w); log := log w ++ [Write f c] |}).

Definition print (msg : string) : M unit := emit (Print msg).

Definition sleep (seconds : Z) : M unit := emit (Sleep seconds).

(** [l.pop(i)]: negative indices count from the end. *)
Definition pop {A : Type} (l : list A) (i : Z) : result (A * list A) :=
  let n := Z.of_nat (List.length l) in
  let j := if i <? 0 then i + n else i in
  if (0 <=? j) && (j <? n) then
    match nth_error l (Z.to_nat j) with
    | Some x => Ok (x, firstn (Z.to_nat j) l ++ skipn (S (Z.to_nat j)) l)
    | None => Raise IndexError
    end
  else Raise IndexError.

Definition lift {A : Type} (r : result A) : M A := fun w => (r, w).

End Runtime.

Declare Scope py_scope.
Delimit Scope py_scope with py.
Notation "x <- c ;; k" := (Runtime.bind c (fun x => k))
  (at level 61, c at next level, right associativity) : py_scope.
Notation "c ;;; k" := (Runtime.bind c (fun _ => k))
  (at level 61, right associativity) : py_scope.

(* ================================================================== *)
(** * The store: watched list, watch-later list, preferences *)
(* ================================================================== *)

Module Store.
Import PyStr Runtime.
Local Open Scope py_scope.

Definition LF : string := String "010"%char EmptyString.

Record watched_entry : Type := {
  number : string;
  title : string;
  review : string;
  status : string
}.

Record preferences : Type := {
  Genres : list string;
  Emotions : list string;
  Year : string
}.

(** One line of [watched.txt]: [number.title:review:status]. *)
Definition watched_of_line (raw : string) : list watched_entry :=
  let line := strip raw in
  if truthy line then
    match split ":" line with
    | [p0; p1; p2] =>
        match split1 "." p0 with
        | [n; t] =>
            [{| number := n; title := t; review := p1; status := p2 |}]
        | _ => []
        end
    | _ => []
    end
  else [].

Definition read_watched : M (list watched_entry) :=
  present <- path_exists WATCHED_FILE ;;
  if present : bool then
    text <- read_text WATCHED_FILE ;;
    ret (flat_map watched_of_line (lines text))
  else ret [].

Definition read_watch_later : M (list string) :=
  present <- path_exists WATCH_LATER_FILE ;;
  if present : bool then
    text <- read_text WATCH_LATER_FILE ;;
    let content := strip text in
    if truthy content then
      ret (map strip
             (filter (fun t => truthy (strip t)) (split "," content)))
    else ret []
  else ret [].

(** One line of [preferences.txt] assigned into the dictionary. *)
Definition preferences_line (p : preferences) (raw : string) : preferences :=
  let line := strip raw in
  if startswith line "Genres:" then
    let genres := strip (remove_all "Genres:" line) in
    {| Genres := map strip
                   (filter (fun g => truthy (strip g)) (split "," genres));
       Emotions := Emotions p;
       Year := Year p |}
  else if startswith line "Emotions:" then
    let emotions := strip (remove_all "Emotions:" line) in
    {| Genres := Genres p;
       Emotions := map strip
                     (filter (fun e => truthy (strip e))
                             (split "," emotions));
       Year := Year p |}
  else if startswith line "Year:" then
    {| Genres := Genres p;
       Emotions := Emotions p;
       Year := strip (remove_all "Year:" line) |}
  else p.

Definition read_preferences : M preferences :=
  let empty := {| Genres := []; Emotions := []; Year := "" |} in
  present <- path_exists PREFERENCES_FILE ;;
  if present : bool then
    text <- read_text PREFERENCES_FILE ;;
    ret (fold_left preferences_line (lines text) empty)
  else ret empty.

Definition preferences_text (p : preferences) : string :=
  ("Genres:" ++ join "," (Genres p) ++ LF
   ++ "Emotions:" ++ join "," (Emotions p) ++ LF
   ++ "Year:" ++ Year p ++ LF)%string.

Definition write_preferences (p : preferences) : M unit :=
  write_text PREFERENCES_FILE (preferences_text p).

Definition append_watch_later (t : string) : M unit :=
  watch_later <- read_watch_later ;;
  write_text WATCH_LATER_FILE (join "," (watch_later ++ [t])).

(** Returns the removed title, or [None] after printing a message. *)
Definition remove_watch_later (index : Z) : M (option string) :=
  watch_later <- read_watch_later ;;
  if (0 <=? index) && (index <? Z.of_nat (List.length watch_later)) then
    popped <- lift (pop watch_later index) ;;
    let '(removed, rest) := popped in
    write_text WATCH_LATER_FILE (join "," rest) ;;;
    ret (Some removed)
  else
    print "Invalid index." ;;;
    ret None.

End Store.

(* ================================================================== *)
(** * The matching engine *)
(* ================================================================== *)

Module Engine.
Import PyStr PyNum PyDict PySort Runtime Store.
Local Open Scope py_scope.

(** A row of the title table and a row of the ratings table, as the
    TSV reader hands them over: every field is text.  A line with fewer
    columns than the header, whose missing fields the reader leaves
    without text, is not a row of these types. *)
Record movie : Type := {
  tconst : string;
  originalTitle : string;
  startYear : string;
  genres : string
}.

Record rating : Type := {
  rating_tconst : string;
  averageRating : string;
  numVotes : string
}.

Definition categorize_year (year : string) : option string :=
  match py_int year with
  | Some y =>
      if y <=? 1999 then Some "old"
      else if (2000 <=? y) && (y <=? 2009) then Some "middle"
      else if (2010 <=? y) && (y <=? 2019) then Some "new"
      else if (2020 <=? y) && (y <=? 2024) then Some "very new"
      else None
  | None => None
  end.

(** How many of [items], stripped and lowered, are in [wanted]. *)
Definition count_matches (items wanted : list string) : Z :=
  Z.of_nat
    (List.length (filter (fun x => mem (lower (strip x)) wanted) items)).

(** The rating of a movie passes when the row exists, both fields
    parse, and neither [average_rating <= 6.5] nor [num_votes <= 50000]
    holds.  The result carries the parsed average. *)
Definition rating_gate (ratings_dict : dict rating) (m : movie)
  : option float :=
  match get ratings_dict (tconst m) with
  | None => None
  | Some r =>
      match py_float (averageRating r) with
      | None => None
      | Some average_rating =>
          match py_int (numVotes r) with
          | None => None
          | Some num_votes =>
              if float_le average_rating f6_5 || (num_votes <=? 50000)
              then None
              else Some average_rating
          end
      end
  end.

(** The reviews page of a movie. *)
Definition movie_url (m : movie) : string :=
  ("https://www.imdb.com/title/" ++ tconst m ++ "/reviews")%string.

Section WithServices.

(** The review page: what the most supported review of a URL is, if
    the request succeeds and the page has one.  The call is taken to
    return; the loop with the scraper's own result, which can be an
    [OverflowError], is in [Recommender]. *)
Variable review_page : string -> option string.

(** The classifier: label and score of every class for a text. *)
Variable emotion_classifier : string -> list (string * float).

Definition fetch_most_supported_review (url : string)
  : M (option string) :=
  emit (Fetch url) ;;;
  ret (review_page url).

Definition emotion_counts (results : list (string * float))
  : dict float :=
  fold_left
    (fun d c =>
       let emotion := lower (fst c) in
       set d emotion
           (float_add (get_default d emotion (S754_zero false)) (snd c)))
    results [].

Definition analyze_emotions (text : string) : list string :=
  if negb (truthy (strip text)) then []
  else
    let sorted_emotions :=
      sorted_reverse snd float_lt
                     (emotion_counts (emotion_classifier text)) in
    map fst (firstn 3 sorted_emotions).

Section Run.
Variable prefs : preferences.
Variable watched_titles watch_later_titles : list string.
Variable ratings_dict : dict rating.

Definition preferred_genres_lower : list string :=
  map lower (Genres prefs).
Definition preferred_emotions_lower : list string :=
  map lower (Emotions prefs).
Definition required_genre_matches : Z :=
  if 2 <=? Z.of_nat (List.length (Genres prefs)) then 2 else 1.
Definition required_emotion_matches : Z :=
  if 2 <=? Z.of_nat (List.length (Emotions prefs)) then 2 else 1.

Definition genre_gate (m : movie) : bool :=
  let movie_genres :=
    if truthy (genres m) then split "," (genres m) else [] in
  negb (count_matches movie_genres preferred_genres_lower
        <? required_genre_matches).

Definition year_gate (m : movie) : bool :=
  match categorize_year (startYear m) with
  | None => false
  | Some movie_year_category =>
      negb (truthy (Year prefs)
            && negb (String.eqb movie_year_category (Year prefs)))
  end.

Definition dedup_gate (m : movie) : bool :=
  negb (mem (lower (originalTitle m)) watched_titles
        || mem (lower (originalTitle m)) watch_later_titles).

Definition emotion_gate (review_text : string) : bool :=
  negb (count_matches (analyze_emotions review_text)
                      preferred_emotions_lower
        <? required_emotion_matches).

(** One pass of the loop body; the result is [recommended]. *)
Definition consider (m : movie) (recommended : list string)
  : M (list string) :=
  if negb (genre_gate m) then ret recommended
  else if negb (year_gate m) then ret recommended
  else if negb (dedup_gate m) then ret recommended
  else
    match rating_gate ratings_dict m with
    | None => ret recommended
    | Some average_rating =>
        review <- fetch_most_supported_review (movie_url m) ;;
        match review with
        | None => ret recommended
        | Some review_text =>
            if negb (truthy review_text) then ret recommended
            else if negb (emotion_gate review_text) then ret recommended
            else
              append_watch_later (originalTitle m) ;;;
              emit (PrintRecommended (originalTitle m) (startYear m)
                                     (genres m) average_rating) ;;;
              sleep 1 ;;;
              ret (recommended ++ [originalTitle m])
        end
    end.

Fixpoint loop (full_titles : list movie) (recommended : list string)
  : M (list string) :=
  match full_titles with
  | [] => ret recommended
  | m :: rest =>
      if 3 <=? Z.of_nat (List.length recommended) then ret recommended
      else
        recommended' <- consider m recommended ;;
        loop rest recommended'
  end.

End Run.

Definition ratings_index (ratings : list rating) : dict rating :=
  fold_left (fun d r => set d (rating_tconst r) r) ratings [].

(** The whole function; its result is the local list [recommended],
    which the source only prints about. *)
Definition recommend_based_on_preferences
  (prefs : preferences) (full_titles : list movie)
  (ratings : list rating) : M (list string) :=
  watch_later <- read_watch_later ;;
  watched <- read_watched ;;
  let watched_titles := map (fun w => lower (title w)) watched in
  let watch_later_titles := map lower watch_later in
  recommended <-
    loop prefs watched_titles watch_later_titles (ratings_index ratings)
         full_titles [] ;;
  (match recommended with
   | _ :: _ =>
       print
         (LF ++ "Recommended movies have been added to your watch later list.")%string
   | [] =>
       print
         (LF ++ "No recommendations found based on your current preferences.")%string
   end) ;;;
  ret recommended.

End WithServices.

End Engine.

(* ================================================================== *)
(** * The genre aggregation of the preference renewal *)
(* ================================================================== *)

Module Deriver.
Import PyStr PyDict PySort.

(** An entry of [new_movies]. *)
Record session_entry : Type := {
  originalTitle : string;
  startYear : string;
  genres : string;
  review : string
}.

(** The inner loop: the genres of one movie tallied into [d]. *)
Definition count_movie (d : dict Z) (m : session_entry) : dict Z :=
  if truthy (genres m) then
    fold_left
      (fun d genre =>
         let genre := strip genre in
         if truthy genre then set d genre (get_default d genre 0 + 1)
         else d)
      (split "," (genres m)) d
  else d.

Definition genres_count (new_movies : list session_entry) : dict Z :=
  fold_left count_movie new_movies [].

Definition top_genres (new_movies : list session_entry) : list string :=
  let sorted_genres :=
    sorted_reverse snd Z.ltb (genres_count new_movies) in
  map fst (firstn 3 sorted_genres).

End Deriver.

(* ================================================================== *)
(** * The rules in the words of the specification *)
(* ================================================================== *)

Module Spec.
Import PyStr Store Engine.

(** The genres of a candidate: the comma-separated parts of its genre
    text, none when the text is empty. *)
Definition candidate_genres (m : movie) : list string :=
  if truthy (genres m) then split "," (genres m) else [].

(** Two strings are the same genre when they agree once the candidate's
    is stripped and both are lowered. *)
Definition same_genre (candidate preferred : string) : bool :=
  String.eqb (lower (strip candidate)) (lower preferred).

(** The number of candidate genres that appear among the preferred ones. *)
Definition genre_match_count (prefs : preferences) (m : movie) : Z :=
  Z.of_nat
    (List.length
       (filter (fun g => existsb (same_genre g) (Genres prefs))
               (candidate_genres m))).

(** [c in s] for a character. *)
Fixpoint has_char (c : ascii) (s : string) : bool :=
  match s with
  | EmptyString => false
  | String d s' => Ascii.eqb d c || has_char c s'
  end.

(** [old in s] for a text. *)
Fixpoint contains (s old : string) : bool :=
  startswith s old
  || match s with
     | EmptyString => false
     | String _ s' => contains s' old
     end.

(** What the claim asks of a genre or an emotion: not empty, no comma,
    no white space at either end. *)
Definition claimed_item (g : string) : Prop :=
  truthy g = true /\ has_char "," g = false /\ strip g = g.

(** What the file format needs on top of that: no line break inside,
    and not the label of the line it is written on. *)
Definition storable_item (label g : string) : Prop :=
  claimed_item g
  /\ has_char "010" g = false /\ has_char "013" g = false
  /\ contains g label = false.

(** The bands; the very-new band is the text "very new". *)
Definition valid_band (y : string) : Prop :=
  In y ["old"; "middle"; "new"; "very new"; "unknown"; ""].

(** [savePreferences(p); loadPreferences()]. *)
Definition save_then_load (p : preferences) : Runtime.M preferences :=
  Runtime.bind (write_preferences p) (fun _ => read_preferences).

(** [a] is first seen before [b] in [l]: the first occurrence of [a]
    comes before every occurrence of [b]. *)
Definition first_seen_before (a b : string) (l : list string) : Prop :=
  exists l1 l2, l = l1 ++ a :: l2 /\ ~ In a l1 /\ ~ In b l1.

(** The number of occurrences of [g] in [l]. *)
Definition occurrences (g : string) (l : list string) : Z :=
  Z.of_nat (count_occ string_dec l g).

(** ** Tallies

    The shape shared by the three counting loops of the program: each
    pair adds its value to what the dictionary holds for its key. *)
Section Tally.
Context {V : Type}.
Variable add : V -> V -> V.
Variable zero : V.

Definition tally_step (d : PyDict.dict V) (kv : string * V)
  : PyDict.dict V :=
  PyDict.set d (fst kv)
             (add (PyDict.get_default d (fst kv) zero) (snd kv)).

Definition tally (kvs : list (string * V)) : PyDict.dict V :=
  fold_left tally_step kvs [].

(** What the pairs with key [k] add up to, taken in order. *)
Definition total (k : string) (kvs : list (string * V)) : V :=
  fold_left
    (fun acc kv => if String.eqb (fst kv) k then add acc (snd kv) else acc)
    kvs zero.

End Tally.

(** The genre strings of a session, in the order the loops meet them:
    movie by movie, the parts of the genre text stripped, the empty ones
    left out. *)
Definition genre_occurrences (new_movies : list Deriver.session_entry)
  : list string :=
  flat_map
    (fun m =>
       if truthy (Deriver.genres m)
       then filter truthy (map strip (split "," (Deriver.genres m)))
       else [])
    new_movies.

(** The classifier's labels lowered, each with its score. *)
Definition lowered (results : list (string * PyNum.float))
  : list (string * PyNum.float) :=
  map (fun c => (lower (fst c), snd c)) results.

(** The aggregated score of a label: [0 + s1 + s2 + ...] over the
    classes with that label, in the classifier's order. *)
Definition aggregate (label : string) (results : list (string * PyNum.float))
  : PyNum.float :=
  total PyNum.float_add (S754_zero false) label (lowered results).

(** One occurrence of a genre, as the pair that the tally adds. *)
Definition one (g : string) : string * Z := (g, 1).

(** A score that is a number. *)
Definition not_nan (x : PyNum.float) : Prop := PyNum.is_nan x = false.

(** A genre ranks above another when it occurs more often, or as often
    and was seen first. *)
Definition genre_ranks_above (occs : list string) (g1 g2 : string) : Prop :=
  occurrences g2 occs < occurrences g1 occs
  \/ (occurrences g1 occs = occurrences g2 occs
      /\ first_seen_before g1 g2 occs).

(** An emotion ranks above another when its aggregated score is greater,
    or neither score is below the other and its label came first in the
    classifier's output. *)
Definition emotion_ranks_above (results : list (string * PyNum.float))
  (l1 l2 : string) : Prop :=
  PyNum.float_lt (aggregate l2 results) (aggregate l1 results) = true
  \/ (PyNum.float_lt (aggregate l1 results) (aggregate l2 results) = false
      /\ PyNum.float_lt (aggregate l2 results) (aggregate l1 results) = false
      /\ first_seen_before l1 l2 (map fst (lowered results))).

(** The URLs fetched, in order, among some events. *)
Definition fetches (events : list Runtime.event) : list string :=
  flat_map (fun e => match e with Runtime.Fetch u => [u] | _ => [] end)
           events.

(** Two matches are asked for when two or more are preferred, else one. *)
Definition required_matches (preferred : list string) : Z :=
  if 2 <=? Z.of_nat (List.length preferred) then 2 else 1.

End Spec.

(* ================================================================== *)
(** * Sample data used by the worked instances below *)
(* ================================================================== *)

Module Samples.
Import PyNum Runtime Store Engine.

Definition no_files : files :=
  {| watched_txt := None; preferences_txt := None;
     watch_later_txt := None |}.

Definition fresh : world := {| fs := no_files; log := [] |}.

(** A watch-later file with three titles. *)
Definition three_titles : world :=
  {| fs := {| watched_txt := None; preferences_txt := None;
              watch_later_txt := Some "Alien,Heat,Ran" |};
     log := [] |}.

Definition drama_joy_new : preferences :=
  {| Genres := ["Drama"]; Emotions := ["joy"]; Year := "new" |}.

Definition action_comedy : preferences :=
  {| Genres := ["Action"; "Comedy"]; Emotions := []; Year := "" |}.

Definition film (id t y g : string) : movie :=
  {| tconst := id; originalTitle := t; startYear := y; genres := g |}.

Definition rated (id r v : string) : rating :=
  {| rating_tconst := id; averageRating := r; numVotes := v |}.

(** A score written in decimal. *)
Definition score (s : string) : float :=
  match py_float s with
  | Some x => x
  | None => S754_nan
  end.

(** A review page that always has a review, and a classifier that finds
    mostly joy in any text. *)
Definition any_review (url : string) : option string :=
  Some "A joyful film.".

Definition mostly_joy (text : string) : list (string * float) :=
  [("joy", score "0.9"); ("sadness", score "0.06"); ("anger", score "0.04")].

(** A classifier whose output repeats a label in another case and gives
    two labels the same score. *)
Definition mixed_case (text : string) : list (string * float) :=
  [("Joy", score "0.4"); ("sadness", score "0.3"); ("joy", score "0.2");
   ("anger", score "0.05"); ("fear", score "0.05")].

(** A session of three movies, two genres seen twice and two once. *)
Definition entry (t y g : string) : Deriver.session_entry :=
  {| Deriver.originalTitle := t; Deriver.startYear := y;
     Deriver.genres := g; Deriver.review := "" |}.

Definition session : list Deriver.session_entry :=
  [entry "Heat" "1995" "Crime, Drama";
   entry "Ran" "1985" "Action,Drama";
   entry "Seven" "1995" "Horror,Crime"].

End Samples.

(* ================================================================== *)
(** * The watched list: new entries and their status *)
(* ================================================================== *)

Module Journal.
Import PyStr PyNum Runtime Store.
Local Open Scope py_scope.

(** [str(n)] for an integer. *)
Definition str_of_int (n : Z) : string :=
  NilZero.string_of_int (Z.to_int n).

(** [open(f, 'a').write(c)]: the text goes after what the file holds,
    a missing file is created.  The event carries the text the file
    holds afterwards. *)
Definition append_text (f : file_name) (c : string) : M unit :=
  fun w =>
    let old := match file_get f (fs w) with
               | Some t => t
               | None => EmptyString
               end in
    (Ok tt, {| fs := file_set f (old ++ c)%string (fs w);
               log := log w ++ [Write f (old ++ c)%string] |}).

(** The line [number.title:review:status] with its terminator. *)
Definition watched_line (number : Z) (title review status : string)
  : string :=
  (str_of_int number ++ "." ++ title ++ ":" ++ review ++ ":" ++ status
   ++ LF)%string.

Definition append_watched (title review status : string) : M unit :=
  watched <- read_watched ;;
  let number := Z.of_nat (List.length watched) + 1 in
  append_text WATCHED_FILE (watched_line number title review status).

(** The literal [0.1]. *)
Definition f0_1 : float := S754_finite false 7205759403792794 (-56).

Section Sentiment.

(** The polarity that the sentiment library gives a text. *)
Variable polarity : string -> float.

Definition determine_sentiment (review : string) : string :=
  if float_le f0_1 (polarity review) then "like" else "dislike".

End Sentiment.

End Journal.

(* ================================================================== *)
(** * The review page *)
(* ================================================================== *)

Module Scraper.
Import PyStr PyNum.

(** What the scraper looks up in one review card: the text of each
    element it searches for, [None] when the card has no such element. *)
Record review_container : Type := {
  votes_label : option string;
  rating_star : option string;
  title_heading : option string;
  review_body : option string
}.

Record review_data : Type := {
  rating : string;
  title : string;
  full_review : string;
  helpful_votes : Z
}.

(** A call returns, or fails with the [OverflowError] that no handler
    of the scraper catches. *)
Inductive outcome (A : Type) : Type :=
| Returned (a : A)
| Overflowed.
Arguments Returned {A} a.
Arguments Overflowed {A}.

Inductive int_result : Type :=
| IntOk (n : Z)
| IntValueError
| IntOverflowError.

(** [int(x)] for a float: the integer part; a NaN is a [ValueError],
    an infinity an [OverflowError]. *)
Definition int_of_float (x : float) : int_result :=
  match x with
  | S754_zero _ => IntOk 0
  | S754_finite s m e =>
      let a := match e with
               | Zneg k => Zpos m / 2 ^ Zpos k
               | _ => Zpos m * 2 ^ e
               end in
      IntOk (if s then - a else a)
  | S754_nan => IntValueError
  | S754_infinity _ => IntOverflowError
  end.

(** The float [1000.0]. *)
Definition f1000 : float := S754_finite false 8796093022208000 (-43).

Definition float_mul (x y : float) : float := SFmul prec emax x y.

Definition extract_helpful_votes (review_container : review_container)
  : outcome Z :=
  match votes_label review_container with
  | Some text =>
      let helpful_text := strip text in
      if Spec.has_char "K" helpful_text then
        match py_float (remove_all "K" helpful_text) with
        | Some x =>
            match int_of_float (float_mul x f1000) with
            | IntOk n => Returned n
            | IntValueError => Returned 0
            | IntOverflowError => Overflowed
            end
        | None => Returned 0
        end
      else
        match py_int helpful_text with
        | Some n => Returned n
        | None => Returned 0
        end
  | None => Returned 0
  end.

(** The loop over the cards: the best card so far and its votes. *)
Fixpoint most_supported (review_containers : list review_container)
  (most_supported_review : option review_container)
  (max_helpful_votes : Z)
  : outcome (option review_container * Z) :=
  match review_containers with
  | [] => Returned (most_supported_review, max_helpful_votes)
  | container :: rest =>
      match extract_helpful_votes container with
      | Overflowed => Overflowed
      | Returned helpful_votes =>
          if max_helpful_votes <? helpful_votes
          then most_supported rest (Some container) helpful_votes
          else most_supported rest most_supported_review max_helpful_votes
      end
  end.

Definition text_or (default : string) (element : option string) : string :=
  match element with
  | Some text => strip text
  | None => default
  end.

Definition scrape_most_supported_review
  (review_containers : list review_container)
  : outcome (option review_data) :=
  match review_containers with
  | [] => Returned None
  | _ =>
      match most_supported review_containers None (-1) with
      | Overflowed => Overflowed
      | Returned (None, _) => Returned None
      | Returned (Some c, max_helpful_votes) =>
          Returned
            (Some {| rating := text_or "No rating" (rating_star c);
                     title := text_or "No title" (title_heading c);
                     full_review := text_or "No review text" (review_body c);
                     helpful_votes := max_helpful_votes |})
      end
  end.

Section Http.

(** The request: [None] when it fails, else the status code and the
    review cards of the page that came back. *)
Variable http_get : string -> option (Z * list review_container).

Definition fetch_most_supported_review (movie_url : string)
  : outcome (option string) :=
  match http_get movie_url with
  | None => Returned None
  | Some (status_code, review_containers) =>
      if negb (status_code =? 200) then Returned None
      else
        match scrape_most_supported_review review_containers with
        | Overflowed => Overflowed
        | Returned (Some review_data) =>
            Returned (Some (full_review review_data))
        | Returned None => Returned None
        end
  end.

End Http.

End Scraper.

(* ================================================================== *)
(** * The recommender on the rows and the pages as they come *)
(* ================================================================== *)

Module Recommender.
Import PyStr PyNum Runtime Store Engine.
Local Open Scope py_scope.

(** A row as the TSV reader hands it over: a column that the line
    lacks, being shorter than the header, has no text ([None]). *)
Record title_row : Type := {
  row_tconst : option string;
  row_originalTitle : option string;
  row_startYear : option string;
  row_genres : option string
}.

Record ratings_row : Type := {
  key_tconst : option string;
  row_averageRating : option string;
  row_numVotes : option string
}.

(** The rows of lines that have every column. *)
Definition title_row_of (m : movie) : title_row :=
  {| row_tconst := Some (tconst m);
     row_originalTitle := Some (originalTitle m);
     row_startYear := Some (startYear m);
     row_genres := Some (genres m) |}.

Definition ratings_row_of (r : rating) : ratings_row :=
  {| key_tconst := Some (rating_tconst r);
     row_averageRating := Some (averageRating r);
     row_numVotes := Some (numVotes r) |}.

(** The exceptions that the loop has no handler for. *)
Inductive uncaught : Type :=
| OverflowError
| TypeError
| AttributeError.

(** A call returns, or ends with an exception that nothing catches. *)
Inductive ended (A : Type) : Type :=
| Returned (a : A)
| Uncaught (e : uncaught).
Arguments Returned {A} a.
Arguments Uncaught {A} e.

(** [str(x)] in an f-string, for a text or [None]. *)
Definition str_of_field (x : option string) : string :=
  match x with
  | Some text => text
  | None => "None"
  end.

(** [a == b] for keys that are a text or [None]. *)
Definition same_key (a b : option string) : bool :=
  match a, b with
  | Some x, Some y => String.eqb x y
  | None, None => true
  | _, _ => false
  end.

(** The dictionary of the ratings rows, keyed by what each row has in
    its first column. *)
Definition ratings_table : Type := list (option string * ratings_row).

Fixpoint table_get (d : ratings_table) (k : option string)
  : option ratings_row :=
  match d with
  | [] => None
  | (k', v) :: d' => if same_key k' k then Some v else table_get d' k
  end.

Fixpoint table_set (d : ratings_table) (k : option string) (v : ratings_row)
  : ratings_table :=
  match d with
  | [] => [(k, v)]
  | (k', v') :: d' =>
      if same_key k' k then (k', v) :: d' else (k', v') :: table_set d' k v
  end.

Definition ratings_index (ratings : list ratings_row) : ratings_table :=
  fold_left (fun d r => table_set d (key_tconst r) r) ratings [].

Section WithServices.

(** The request, as the scraper makes it. *)
Variable http_get : string -> option (Z * list Scraper.review_container).

Variable emotion_classifier : string -> list (string * float).

(** The call from the loop: the request is made and the scraper's
    result comes back, its [OverflowError] included. *)
Definition fetch_most_supported_review (url : string)
  : M (ended (option string)) :=
  emit (Fetch url) ;;;
  match Scraper.fetch_most_supported_review http_get url with
  | Scraper.Returned review => ret (Returned review)
  | Scraper.Overflowed => ret (Uncaught OverflowError)
  end.

Section Run.
Variable prefs : preferences.
Variable watched_titles watch_later_titles : list string.
Variable ratings_dict : ratings_table.

(** The end of a pass, from the fetch on, for a candidate that passed
    the gates before it. *)
Definition judge_review (movie : title_row) (title year : string)
  (average_rating : float) (recommended : list string)
  : M (ended (list string)) :=
  let movie_url :=
    ("https://www.imdb.com/title/" ++ str_of_field (row_tconst movie)
     ++ "/reviews")%string in
  fetched <- fetch_most_supported_review movie_url ;;
  match fetched with
  | Uncaught e => ret (Uncaught e)
  | Returned None => ret (Returned recommended)
  | Returned (Some review_text) =>
      if negb (truthy review_text) then ret (Returned recommended)
      else if negb (emotion_gate emotion_classifier prefs review_text)
      then ret (Returned recommended)
      else
        append_watch_later title ;;;
        emit (PrintRecommended title year (str_of_field (row_genres movie))
                               average_rating) ;;;
        sleep 1 ;;;
        ret (Returned (recommended ++ [title]))
  end.

(** The rating gate: [None] when the candidate is skipped.  A field
    without text ends the pass with the [TypeError] of [float(None)] or
    [int(None)]. *)
Definition rate (movie : title_row) : ended (option float) :=
  match table_get ratings_dict (row_tconst movie) with
  | None => Returned None
  | Some rating =>
      match row_averageRating rating with
      | None => Uncaught TypeError
      | Some average_text =>
          match py_float average_text with
          | None => Returned None
          | Some average_rating =>
              match row_numVotes rating with
              | None => Uncaught TypeError
              | Some votes_text =>
                  match py_int votes_text with
                  | None => Returned None
                  | Some num_votes =>
                      if float_le average_rating f6_5
                         || (num_votes <=? 50000)
                      then Returned None
                      else Returned (Some average_rating)
                  end
              end
          end
      end
  end.

(** One pass of the loop body.  The result is [recommended], or the
    exception that ended the pass: the [TypeError] of [int(None)] or
    [float(None)], the [AttributeError] of [None.lower()], the
    [OverflowError] of the fetch. *)
Definition consider (movie : title_row) (recommended : list string)
  : M (ended (list string)) :=
  let movie_genres :=
    match row_genres movie with
    | Some text => if truthy text then split "," text else []
    | None => []
    end in
  let genre_matches :=
    count_matches movie_genres (preferred_genres_lower prefs) in
  if genre_matches <? required_genre_matches prefs
  then ret (Returned recommended)
  else
    match row_startYear movie with
    | None => ret (Uncaught TypeError)
    | Some year =>
        let skipped :=
          match categorize_year year with
          | None => true
          | Some movie_year_category =>
              truthy (Year prefs)
              && negb (String.eqb movie_year_category (Year prefs))
          end in
        if skipped then ret (Returned recommended)
        else
          match row_originalTitle movie with
          | None => ret (Uncaught AttributeError)
          | Some title =>
              if mem (lower title) watched_titles
                 || mem (lower title) watch_later_titles
              then ret (Returned recommended)
              else
                match rate movie with
                | Uncaught e => ret (Uncaught e)
                | Returned None => ret (Returned recommended)
                | Returned (Some average_rating) =>
                    judge_review movie title year average_rating
                                 recommended
                end
          end
    end.

Fixpoint loop (full_titles : list title_row) (recommended : list string)
  : M (ended (list string)) :=
  match full_titles with
  | [] => ret (Returned recommended)
  | movie :: rest =>
      if 3 <=? Z.of_nat (List.length recommended)
      then ret (Returned recommended)
      else
        considered <- consider movie recommended ;;
        match considered with
        | Uncaught e => ret (Uncaught e)
        | Returned recommended' => loop rest recommended'
        end
  end.

End Run.

(** The whole function; its result is the local list [recommended],
    which the source only prints about, or the exception that ended
    the loop. *)
Definition recommend_based_on_preferences
  (prefs : preferences) (full_titles : list title_row)
  (ratings : list ratings_row) : M (ended (list string)) :=
  watch_later <- read_watch_later ;;
  watched <- read_watched ;;
  let watched_titles := map (fun w => lower (title w)) watched in
  let watch_later_titles := map lower watch_later in
  looped <-
    loop prefs watched_titles watch_later_titles (ratings_index ratings)
         full_titles [] ;;
  match looped with
  | Uncaught e => ret (Uncaught e)
  | Returned recommended =>
      (match recommended with
       | _ :: _ =>
           print
             (LF ++ "Recommended movies have been added to your watch later list.")%string
       | [] =>
           print
             (LF ++ "No recommendations found based on your current preferences.")%string
       end) ;;;
      ret (Returned recommended)
  end.

End WithServices.

End Recommender.

(* ================================================================== *)
(** * The year and the emotions of the preference renewal *)
(* ================================================================== *)

Module Renewal.
Import PyStr PyNum PyDict PySort Store Deriver.

(** The years of the session: the [startYear] texts that are not empty
    and read as integers, in order. *)
Definition new_years (new_movies : list session_entry) : list Z :=
  flat_map
    (fun movie =>
       if truthy (startYear movie) then
         match py_int (startYear movie) with
         | Some year => [year]
         | None => []
         end
       else [])
    new_movies.

(** [sum(l)]. *)
Definition sum (l : list Z) : Z := fold_left Z.add l 0.

(** The quotient of two positive integers rounded to the nearest
    binary64, ties to even. *)
Definition round_quotient (neg : bool) (p q : positive) : float :=
  let '(m, e, l) := SFdiv_core_binary prec emax (Zpos p) 0 (Zpos q) 0 in
  binary_round_aux prec emax neg m e l.

(** [a / b] for integers and a positive [b]: [None] stands for the
    [OverflowError] of a quotient too large for a float. *)
Definition true_div (a : Z) (b : positive) : option float :=
  let finite x :=
    match x with
    | S754_infinity _ => None
    | _ => Some x
    end in
  match a with
  | Z0 => Some (S754_zero false)
  | Zpos p => finite (round_quotient false p b)
  | Zneg p => finite (round_quotient true p b)
  end.

(** An integer literal next to a float in a comparison. *)
Definition int_const (n : Z) : float := binary_normalize prec emax n 0 false.

Definition year_category_of (average_year : float) : string :=
  if float_le average_year (int_const 1999) then "old"
  else if float_le (int_const 2000) average_year
          && float_le average_year (int_const 2009) then "middle"
  else if float_le (int_const 2010) average_year
          && float_le average_year (int_const 2019) then "new"
  else if float_le (int_const 2020) average_year
          && float_le average_year (int_const 2024) then "very new"
  else "unknown".

(** The value given to [preferences['Year']]; [None] stands for the
    [OverflowError] of the average. *)
Definition derived_year (new_movies : list session_entry) : option string :=
  match new_years new_movies with
  | [] => Some "new"
  | y :: ys =>
      match true_div (sum (y :: ys)) (Pos.of_succ_nat (List.length ys)) with
      | Some average_year => Some (year_category_of average_year)
      | None => None
      end
  end.

Section Emotions.

Variable emotion_classifier : string -> list (string * float).

(** The inner loop: the emotions of one review tallied into [d]. *)
Definition count_review (d : dict Z) (movie : session_entry) : dict Z :=
  fold_left
    (fun d emotion =>
       let emotion := lower emotion in
       set d emotion (get_default d emotion 0 + 1))
    (Engine.analyze_emotions emotion_classifier (review movie)) d.

Definition emotions_count (new_movies : list session_entry) : dict Z :=
  fold_left count_review new_movies [].

Definition top_emotions (new_movies : list session_entry) : list string :=
  let sorted_emotions :=
    sorted_reverse snd Z.ltb (emotions_count new_movies) in
  map fst (firstn 3 sorted_emotions).

(** The preferences that a session with at least one movie writes;
    [None] when the average year overflows, before anything is written. *)
Definition derived_preferences (new_movies : list session_entry)
  : option preferences :=
  match derived_year new_movies with
  | Some year_category =>
      Some {| Genres := top_genres new_movies;
              Emotions := top_emotions new_movies;
              Year := year_category |}
  | None => None
  end.

End Emotions.

End Renewal.

(* ================================================================== *)
(** * Looking a title up, and the entry points of the menu *)
(* ================================================================== *)

Module Menu.
Import PyStr PyNum PyDict Runtime Store Engine.
Local Open Scope py_scope.

(** The rows of the catalog whose title, lowered, is the text asked
    for. *)
Definition matching_movies (full_titles : list movie) (title_input : string)
  : list movie :=
  filter (fun movie => String.eqb (lower (originalTitle movie)) title_input)
         full_titles.

(** [next((r for r in ratings if r['tconst'] == tconst), None)]. *)
Definition first_rating (ratings : list rating) (tconst : string)
  : option rating :=
  find (fun r => String.eqb (rating_tconst r) tconst) ratings.

(** Truth value of a list: non-empty. *)
Definition any_item {A : Type} (l : list A) : bool :=
  match l with [] => false | _ => true end.

Section WithServices.
Variable review_page : string -> option string.
Variable emotion_classifier : string -> list (string * float).

(** [recommend_movie], the two tables already read. *)
Definition recommend_movie (full_titles : list movie)
  (ratings : list rating) : M unit :=
  preferences <- read_preferences ;;
  if negb (any_item (Genres preferences))
     && negb (any_item (Emotions preferences))
     && negb (truthy (Year preferences))
  then print "Preferences are not set. Please renew preferences first."
  else
    recommend_based_on_preferences review_page emotion_classifier
                                   preferences full_titles ratings ;;;
    ret tt.

End WithServices.

End Menu.

(* ================================================================== *)
(** * The console: lines typed, prompts and messages shown *)
(* ================================================================== *)

Module Console.
Import PyStr Runtime.

(** Why an interactive function stops before its end. *)
Inductive stop : Type :=
| Raised (e : exn)
| EOFError
| OverflowError
| SystemExit
| OutOfFuel.

Inductive outcome (A : Type) : Type :=
| Done (a : A)
| Stopped (s : stop).
Arguments Done {A} a.
Arguments Stopped {A} s.

(** What shows on the screen: an event of the program, or the prompt of
    an [input] call. *)
Inductive shown : Type :=
| Out (e : event)
| Ask (prompt : string).

(** The lines still to be typed, the files, and the screen so far. *)
Record console : Type := {
  stdin : list string;
  disk : files;
  screen : list shown
}.

Definition I (A : Type) : Type := console -> outcome A * console.

Definition ret {A : Type} (a : A) : I A := fun c => (Done a, c).

Definition bind {A B : Type} (m : I A) (k : A -> I B) : I B :=
  fun c =>
    match m c with
    | (Done a, c') => k a c'
    | (Stopped s, c') => (Stopped s, c')
    end.

Definition halt {A : Type} (s : stop) : I A := fun c => (Stopped s, c).

(** A function of the store run at the console. *)
Definition lift {A : Type} (m : M A) : I A :=
  fun c =>
    let '(r, w) := m {| fs := disk c; log := [] |} in
    let c' := {| stdin := stdin c; disk := fs w;
                 screen := screen c ++ map Out (log w) |} in
    match r with
    | Ok a => (Done a, c')
    | Raise e => (Stopped (Raised e), c')
    end.

Definition print (msg : string) : I unit := lift (Runtime.print msg).

(** [input(prompt)]: the next line typed, without its line break;
    [EOFError] when there is none. *)
Definition input (prompt : string) : I string :=
  fun c =>
    let c' := {| stdin := tl (stdin c); disk := disk c;
                 screen := screen c ++ [Ask prompt] |} in
    match stdin c with
    | line :: _ => (Done line, c')
    | [] => (Stopped EOFError, c')
    end.

(** [while True]: the body goes on with a new state ([inl]) or leaves
    the loop with a result ([inr]). *)
Fixpoint while (fuel : nat) {S R : Type} (body : S -> I (S + R)) (s : S)
  : I R :=
  match fuel with
  | O => halt OutOfFuel
  | Datatypes.S fuel' =>
      bind (body s)
           (fun r =>
              match r with
              | inl s' => while fuel' body s'
              | inr x => ret x
              end)
  end.

(** A loop whose every turn reads a line: one turn more than there are
    lines is enough. *)
Definition loop {S R : Type} (body : S -> I (S + R)) (s : S) : I R :=
  fun c => while (Datatypes.S (List.length (stdin c))) body s c.

(** [for x in l: body(x)]. *)
Fixpoint for_each {A : Type} (l : list A) (body : A -> I unit) : I unit :=
  match l with
  | [] => ret tt
  | x :: l' => bind (body x) (fun _ => for_each l' body)
  end.

End Console.

Declare Scope io_scope.
Delimit Scope io_scope with io.
Notation "x <- c ;; k" := (Console.bind c (fun x => k))
  (at level 61, c at next level, right associativity) : io_scope.
Notation "c ;;; k" := (Console.bind c (fun _ => k))
  (at level 61, right associativity) : io_scope.

(* ================================================================== *)
(** * The interactive functions *)
(* ================================================================== *)

Module Shell.
Import PyStr PyNum PyDict Runtime Store Engine Journal Renewal Menu Console.
Local Open Scope io_scope.

(** [str(l)] for a list of integers. *)
Definition repr_list (l : list Z) : string :=
  ("[" ++ join ", " (map str_of_int l) ++ "]")%string.

(** The rows that share a title, shown with their numbers. *)
Fixpoint list_matches (idx : Z) (matching_movies : list movie) : I unit :=
  match matching_movies with
  | [] => ret tt
  | movie :: rest =>
      print (str_of_int idx ++ ". " ++ originalTitle movie
             ++ " (" ++ startYear movie ++ ") | Genres: "
             ++ genres movie)%string ;;;
      list_matches (idx + 1) rest
  end.

(** The loop that asks for the number of one of the rows. *)
Definition select_movie (prompt : string) (matching_movies : list movie)
  : I movie :=
  loop
    (fun _ : unit =>
       line <- input prompt ;;
       match py_int (strip line) with
       | Some selection =>
           if (1 <=? selection)
              && (selection <=? Z.of_nat (List.length matching_movies))
           then
             match nth_error matching_movies (Z.to_nat (selection - 1)) with
             | Some selected_movie => ret (inr selected_movie)
             | None => halt (Raised IndexError)
             end
           else
             print "Invalid selection. Please enter a valid number." ;;;
             ret (inl tt)
       | None =>
           print "Invalid input. Please enter a number." ;;;
           ret (inl tt)
       end)
    tt.

(** The title typed, narrowed down to one row of the catalog. *)
Definition choose_movie (prompt : string) (title_input : string)
  (first : movie) (others : list movie) : I movie :=
  match others with
  | _ :: _ =>
      print ("Multiple movies found with the title '" ++ title_input
             ++ "':")%string ;;;
      list_matches 1 (first :: others) ;;;
      select_movie prompt (first :: others)
  | [] => ret first
  end.

(** The years of the session, with a message for each start year that
    is not an integer. *)
Fixpoint collect_years (new_movies : list Deriver.session_entry)
  (new_years : list Z) : I (list Z) :=
  match new_movies with
  | [] => ret new_years
  | movie :: rest =>
      if truthy (Deriver.startYear movie) then
        match py_int (Deriver.startYear movie) with
        | Some year => collect_years rest (new_years ++ [year])
        | None =>
            print ("Invalid year format for movie '"
                   ++ Deriver.originalTitle movie ++ "': "
                   ++ Deriver.startYear movie)%string ;;;
            collect_years rest new_years
        end
      else collect_years rest new_years
  end.

Section WithServices.
Variable emotion_classifier : string -> list (string * float).

(** The polarity that the sentiment library gives a text. *)
Variable polarity : string -> float.

(** [str(x)] for a float. *)
Variable float_repr : float -> string.

(** One turn of the loop that asks for movies and reviews. *)
Definition ask_movie (full_titles : list movie)
  (new_movies : list Deriver.session_entry)
  : I (list Deriver.session_entry + list Deriver.session_entry) :=
  line <- input
            "Enter your favorite movie title (or type 'stop' to finish): " ;;
  let title_input := strip line in
  if String.eqb (lower title_input) "stop" then ret (inr new_movies)
  else if negb (truthy title_input) then
    print "Title cannot be empty. Please try again." ;;;
    ret (inl new_movies)
  else
    match matching_movies full_titles (lower title_input) with
    | [] =>
        print ("No movies found with the title '" ++ title_input
               ++ "'. Please try again.")%string ;;;
        ret (inl new_movies)
    | first :: others =>
        selected_movie <-
          choose_movie "Enter the number of the movie you have watched: "
                       title_input first others ;;
        line <- input "Enter your review for the movie: " ;;
        let review := strip line in
        if negb (truthy review) then
          print "Review cannot be empty. Please try again." ;;;
          ret (inl new_movies)
        else
          let sentiment := determine_sentiment polarity review in
          lift (append_watched (originalTitle selected_movie) review
                               sentiment) ;;;
          print ("Movie '" ++ originalTitle selected_movie
                 ++ "' has been added to your watched list with a status of '"
                 ++ sentiment ++ "'.")%string ;;;
          ret (inl
                 (new_movies
                  ++ [{| Deriver.originalTitle :=
                           originalTitle selected_movie;
                         Deriver.startYear := startYear selected_movie;
                         Deriver.genres := genres selected_movie;
                         Deriver.review := review |}]))
    end.

(** The year of the new preferences, with the messages on the way. *)
Definition assign_year (new_years : list Z) : I string :=
  match new_years with
  | y :: ys =>
      match true_div (sum new_years) (Pos.of_succ_nat (List.length ys)) with
      | Some average_year =>
          print ("Average Year Calculated from New Movies: "
                 ++ float_repr average_year)%string ;;;
          let year_category := year_category_of average_year in
          print ("Year Category Assigned based on New Movies: "
                 ++ year_category)%string ;;;
          ret year_category
      | None => halt OverflowError
      end
  | [] =>
      print
        "No valid years found in new movies. Defaulting Year Preference to 'new'." ;;;
      ret "new"
  end.

Definition renew_preferences (full_titles : list movie) : I unit :=
  let preferences := {| Genres := []; Emotions := []; Year := "" |} in
  lift (write_preferences preferences) ;;;
  print (LF ++ "Renewing preferences...")%string ;;;
  print
    "Enter your favorite movies and reviews. Type 'stop' when you're done." ;;;
  new_movies <- loop (ask_movie full_titles) [] ;;
  match new_movies with
  | [] => print "No new movies were entered. Preferences remain unchanged."
  | _ :: _ =>
      let top_genres := Deriver.top_genres new_movies in
      new_years <- collect_years new_movies [] ;;
      print ("Collected Years from New Movies: "
             ++ repr_list new_years)%string ;;;
      year_category <- assign_year new_years ;;
      let top_emotions := top_emotions emotion_classifier new_movies in
      let preferences :=
        {| Genres := top_genres; Emotions := top_emotions;
           Year := year_category |} in
      lift (write_preferences preferences) ;;;
      print (LF ++ "Preferences have been updated successfully!")%string ;;;
      print ("Genres: " ++ join ", " (Genres preferences))%string ;;;
      print ("Emotions: " ++ join ", " (Emotions preferences))%string ;;;
      print ("Year: " ++ Year preferences)%string
  end.

(** [read_tsv]: the rows of the table, or none, after a message, when
    the file is missing.  How the rows are cut out of the text is the
    business of the csv reader. *)
Definition read_tsv {A : Type} (file_path : string)
  (table : option (list A)) : I (list A) :=
  match table with
  | Some data => ret data
  | None =>
      print ("File " ++ file_path ++ " not found.")%string ;;;
      ret []
  end.

Definition FULL_TITLE_FILE : string := "full_title.basics.tsv".
Definition TITLE_RATINGS_FILE : string := "title.ratings.tsv".

Definition display_main_menu : I unit :=
  print (LF ++ "Welcome to Movie Match")%string ;;;
  print "1. Recommend a movie" ;;;
  print "2. View a watched list" ;;;
  print "3. View a watch later list" ;;;
  print "4. Search by title" ;;;
  print "5. Quit".

Definition display_recommendation_menu : I unit :=
  print (LF ++ "Recommend a Movie")%string ;;;
  print "1. Recommend based on preferences" ;;;
  print "2. Renew preferences" ;;;
  print "3. Go back to menu".

(** The review page and the two tables on disk. *)
Variable review_page : string -> option string.
Variable titles_table : option (list movie).
Variable ratings_table : option (list rating).

Definition search_by_title (full_titles : list movie)
  (ratings : list rating) : I unit :=
  line <- input "Enter the movie title you want to search for: " ;;
  let title_input := lower (strip line) in
  if negb (truthy title_input) then print "Movie title cannot be empty."
  else
    match matching_movies full_titles title_input with
    | [] =>
        print ("No movies found with the title '" ++ title_input
               ++ "'.")%string
    | first :: others =>
        selected_movie <-
          choose_movie
            "Enter the number of the movie you want details for: "
            title_input first others ;;
        match first_rating ratings (tconst selected_movie) with
        | None =>
            print ("No rating data found for '"
                   ++ originalTitle selected_movie ++ "'.")%string
        | Some rating =>
            match py_float (averageRating rating),
                  py_int (numVotes rating) with
            | Some average_rating, Some num_votes =>
                review <- lift (fetch_most_supported_review
                                  review_page (movie_url selected_movie)) ;;
                match review with
                | Some (String a s as review_text) =>
                    print (LF ++ "--- Movie Information ---")%string ;;;
                    print ("Title: "
                           ++ originalTitle selected_movie)%string ;;;
                    print ("Year: " ++ startYear selected_movie)%string ;;;
                    print ("Genres: " ++ genres selected_movie)%string ;;;
                    print ("Rating: " ++ float_repr average_rating ++ " ("
                           ++ str_of_int num_votes ++ " votes)")%string ;;;
                    print ("Review:" ++ LF ++ review_text ++ LF)%string
                | _ =>
                    print ("No reviews found for '"
                           ++ originalTitle selected_movie ++ "'.")%string
                end
            | _, _ =>
                print ("Invalid rating or vote data for '"
                       ++ originalTitle selected_movie ++ "'.")%string
            end
        end
    end.

Definition search_by_title_option : I unit :=
  full_titles <- read_tsv FULL_TITLE_FILE titles_table ;;
  ratings <- read_tsv TITLE_RATINGS_FILE ratings_table ;;
  search_by_title full_titles ratings.

Definition recommend_movie : I unit :=
  full_titles <- read_tsv FULL_TITLE_FILE titles_table ;;
  ratings <- read_tsv TITLE_RATINGS_FILE ratings_table ;;
  lift (Menu.recommend_movie review_page emotion_classifier
                             full_titles ratings).

Definition renew_preferences_menu : I unit :=
  full_titles <- read_tsv FULL_TITLE_FILE titles_table ;;
  renew_preferences full_titles.

(** One turn of the loop that adds movies to the watched list. *)
Definition add_watched (_ : unit) : I (unit + unit) :=
  line <- input
            "Enter the movie title (or type 'stop' to finish adding): " ;;
  let title := strip line in
  if String.eqb (lower title) "stop" then ret (inr tt)
  else if negb (truthy title) then
    print "Title cannot be empty. Please try again." ;;;
    ret (inl tt)
  else
    line <- input "Enter your review: " ;;
    let review := strip line in
    if negb (truthy review) then
      print "Review cannot be empty. Please try again." ;;;
      ret (inl tt)
    else
      let sentiment := determine_sentiment polarity review in
      lift (append_watched title review sentiment) ;;;
      print ("Movie '" ++ title
             ++ "' has been added to your watched list with a status of '"
             ++ sentiment ++ "'.")%string ;;;
      ret (inl tt).

Definition view_watched_list : I unit :=
  watched <- lift read_watched ;;
  (match watched with
   | [] => print (LF ++ "Your watched list is empty.")%string
   | _ :: _ =>
       print (LF ++ "Watched Movies:")%string ;;;
       for_each watched
         (fun movie =>
            print (number movie ++ ". " ++ title movie ++ ": "
                   ++ review movie ++ " (" ++ status movie
                   ++ ")")%string)
   end) ;;;
  line <- input
            (LF ++ "Do you want to add a movie to your watched list? (yes/no): ")%string ;;
  let choice := lower (strip line) in
  if String.eqb choice "yes" then loop add_watched tt else ret tt.

(** The titles of the watch-later list, numbered from 1. *)
Fixpoint list_titles (idx : Z) (watch_later : list string) : I unit :=
  match watch_later with
  | [] => ret tt
  | title :: rest =>
      print (str_of_int idx ++ ". " ++ title)%string ;;;
      list_titles (idx + 1) rest
  end.

(** One turn of the loop that asks what to do with a removed title. *)
Definition delete_or_move (removed : string) (_ : unit) : I (unit + unit) :=
  line <- input
            "Do you want to delete it or move to watched list? (delete/move): " ;;
  let action := lower (strip line) in
  if String.eqb action "delete" then
    print ("Movie '" ++ removed ++ "' has been deleted.")%string ;;;
    ret (inr tt)
  else if String.eqb action "move" then
    line <- input "Enter your review for the movie: " ;;
    let review := strip line in
    if negb (truthy review) then
      print "Review cannot be empty. Please try again." ;;;
      ret (inl tt)
    else
      let sentiment := determine_sentiment polarity review in
      lift (append_watched removed review sentiment) ;;;
      print ("Movie '" ++ removed
             ++ "' has been moved to your watched list with a status of '"
             ++ sentiment ++ "'.")%string ;;;
      ret (inr tt)
  else
    print "Invalid choice. Please enter 'delete' or 'move'." ;;;
    ret (inl tt).

(** One turn of the loop of options on the watch-later list. *)
Definition manage_watch_later (_ : unit) : I (unit + unit) :=
  print (LF ++ "Options:")%string ;;;
  print "1. Add a new movie" ;;;
  print "2. Remove a movie" ;;;
  print "3. Go back to menu" ;;;
  line <- input "Choose an option: " ;;
  let choice := strip line in
  if String.eqb choice "1" then
    line <- input "Enter the movie title to add: " ;;
    let title := strip line in
    if negb (truthy title) then
      print "Title cannot be empty. Please try again." ;;;
      ret (inl tt)
    else
      lift (append_watch_later title) ;;;
      print ("Movie '" ++ title
             ++ "' has been added to your watch later list.")%string ;;;
      ret (inl tt)
  else if String.eqb choice "2" then
    watch_later <- lift read_watch_later ;;
    match watch_later with
    | [] =>
        print "Watch later list is empty." ;;;
        ret (inl tt)
    | _ :: _ =>
        line <- input "Enter the number of the movie to remove: " ;;
        match py_int (strip line) with
        | Some n =>
            let index := n - 1 in
            if (0 <=? index)
               && (index <? Z.of_nat (List.length watch_later))
            then
              removed <- lift (remove_watch_later index) ;;
              match removed with
              | Some (String a s as removed) =>
                  print ("Movie '" ++ removed
                         ++ "' has been removed from your watch later list.")%string ;;;
                  loop (delete_or_move removed) tt ;;;
                  ret (inl tt)
              | _ => ret (inl tt)
              end
            else
              print "Invalid number." ;;;
              ret (inl tt)
        | None =>
            print "Please enter a valid number." ;;;
            ret (inl tt)
        end
    end
  else if String.eqb choice "3" then ret (inr tt)
  else
    print "Invalid choice. Please select again." ;;;
    ret (inl tt).

Definition view_watch_later_list : I unit :=
  watch_later <- lift read_watch_later ;;
  (match watch_later with
   | [] => print (LF ++ "Your watch later list is empty.")%string
   | _ :: _ =>
       print (LF ++ "Watch Later Movies:")%string ;;;
       list_titles 1 watch_later
   end) ;;;
  loop manage_watch_later tt.

Definition handle_recommendation : I unit :=
  loop
    (fun _ : unit =>
       display_recommendation_menu ;;;
       line <- input "Choose an option: " ;;
       let choice := strip line in
       if String.eqb choice "1" then recommend_movie ;;; ret (inl tt)
       else if String.eqb choice "2" then
         renew_preferences_menu ;;; ret (inl tt)
       else if String.eqb choice "3" then ret (inr tt)
       else
         print "Invalid choice. Please select again." ;;;
         ret (inl tt))
    tt.

(** The program: it ends by [sys.exit()], or for want of input. *)
Definition main : I unit :=
  loop
    (fun _ : unit =>
       display_main_menu ;;;
       line <- input "Choose an option: " ;;
       let choice := strip line in
       if String.eqb choice "1" then handle_recommendation ;;; ret (inl tt)
       else if String.eqb choice "2" then view_watched_list ;;; ret (inl tt)
       else if String.eqb choice "3" then
         view_watch_later_list ;;; ret (inl tt)
       else if String.eqb choice "4" then
         search_by_title_option ;;; ret (inl tt)
       else if String.eqb choice "5" || String.eqb (lower choice) "quit"
       then
         print "Exiting Movie Match. Goodbye!" ;;;
         halt SystemExit
       else
         print "Invalid choice. Please select again." ;;;
         ret (inl tt))
    tt.

End WithServices.

End Shell.

(* ================================================================== *)
(** * Notions used to state what the rest of the program does *)
(* ================================================================== *)

Module Props.
Import PyStr Runtime Store Engine Spec.

(** A title as the watch-later reader hands it over: an item of the
    list, without a carriage return. *)
Definition stored_title (t : string) : Prop :=
  claimed_item t /\ has_char "013" t = false.

(** What [read_watch_later] makes of the text of the file. *)
Definition titles_of_text (text : string) : list string :=
  let content := strip (universal_newlines text) in
  if truthy content then
    map strip (filter (fun t => truthy (strip t)) (split "," content))
  else [].

(** [l1] is [l2] with some elements left out. *)
Inductive subsequence {A : Type} : list A -> list A -> Prop :=
| sub_nil : forall l, subsequence [] l
| sub_take : forall x l1 l2,
    subsequence l1 l2 -> subsequence (x :: l1) (x :: l2)
| sub_skip : forall x l1 l2,
    subsequence l1 l2 -> subsequence l1 (x :: l2).

(** The files written, in order, among some events. *)
Definition writes (events : list event) : list file_name :=
  flat_map (fun e => match e with Write f _ => [f] | _ => [] end) events.

(** The pauses, in order, among some events. *)
Definition sleeps (events : list event) : list Z :=
  flat_map (fun e => match e with Sleep s => [s] | _ => [] end) events.

(** Every character of [s] satisfies [p]. *)
Fixpoint all_chars (p : ascii -> bool) (s : string) : bool :=
  match s with
  | EmptyString => true
  | String c s' => p c && all_chars p s'
  end.

(** How many times [c] occurs in [s]. *)
Fixpoint count_char (c : ascii) (s : string) : nat :=
  match s with
  | EmptyString => O
  | String d s' => ((if Ascii.eqb d c then 1 else 0) + count_char c s')%nat
  end.

(** A text whose last line, if it has one, is closed by a line feed. *)
Definition terminated (text : string) : Prop :=
  text = EmptyString \/ exists body, text = (body ++ LF)%string.

(** The value that the digits of a decimal number add to [acc]. *)
Fixpoint uint_value (acc : Z) (u : Decimal.uint) : Z :=
  match u with
  | Decimal.Nil => acc
  | Decimal.D0 u' => uint_value (10 * acc + 0) u'
  | Decimal.D1 u' => uint_value (10 * acc + 1) u'
  | Decimal.D2 u' => uint_value (10 * acc + 2) u'
  | Decimal.D3 u' => uint_value (10 * acc + 3) u'
  | Decimal.D4 u' => uint_value (10 * acc + 4) u'
  | Decimal.D5 u' => uint_value (10 * acc + 5) u'
  | Decimal.D6 u' => uint_value (10 * acc + 6) u'
  | Decimal.D7 u' => uint_value (10 * acc + 7) u'
  | Decimal.D8 u' => uint_value (10 * acc + 8) u'
  | Decimal.D9 u' => uint_value (10 * acc + 9) u'
  end.

(** The line of a watched entry without its terminator. *)
Definition watched_stem (number title review status : string) : string :=
  (number ++ String "." title
   ++ String ":" review ++ String ":" status)%string.

(** What [read_watched] makes of the text of the file. *)
Definition entries_of_text (text : string) : list watched_entry :=
  flat_map watched_of_line (lines (universal_newlines text)).

(** A field of a watched entry that fits on its line: no colon and no
    line break. *)
Definition plain_field (x : string) : Prop :=
  has_char ":" x = false /\ has_char "010" x = false
  /\ has_char "013" x = false.

(** The helpful votes of a card whose count can be read. *)
Definition votes (c : Scraper.review_container) : Z :=
  match Scraper.extract_helpful_votes c with
  | Scraper.Returned v => v
  | Scraper.Overflowed => 0
  end.

(** [a] outranks [b] among the occurrences [occs]: it occurs more often,
    or as often and was seen first. *)
Definition outranks (occs : list string) (a b : string) : Prop :=
  occurrences b occs < occurrences a occs
  \/ (occurrences a occs = occurrences b occs
      /\ first_seen_before a b occs).

(** The three best of a list of occurrences, by count. *)
Definition top_counted (occs : list string) : list string :=
  map fst
      (firstn 3 (PySort.sorted_reverse snd Z.ltb
                   (tally Z.add 0 (map one occs)))).

(** The emotions of a session, in the order the loops meet them: movie
    by movie, the strongest emotions of its review, lowered. *)
Definition emotion_occurrences
  (emotion_classifier : string -> list (string * PyNum.float))
  (new_movies : list Deriver.session_entry) : list string :=
  flat_map
    (fun m =>
       map lower
           (analyze_emotions emotion_classifier (Deriver.review m)))
    new_movies.

(** The band of a year given as an integer, "unknown" outside every
    band. *)
Definition band_of (year : Z) : string :=
  if year <=? 1999 then "old"
  else if year <=? 2009 then "middle"
  else if year <=? 2019 then "new"
  else if year <=? 2024 then "very new"
  else "unknown".

(** A session entry with a start year and nothing else. *)
Definition of_year (year : Z) : Deriver.session_entry :=
  {| Deriver.originalTitle := EmptyString;
     Deriver.startYear := Journal.str_of_int year;
     Deriver.genres := EmptyString;
     Deriver.review := EmptyString |}.

(** The integers [lo], [lo + 1], ..., [lo + n - 1]. *)
Definition range (lo : Z) (n : nat) : list Z :=
  map (fun k => lo + Z.of_nat k) (seq 0 n).

(** The average of [years], counted [n] + 1, falls in the band [band]. *)
Definition average_in_band (total : Z) (n : nat) (band : string) : bool :=
  match Renewal.true_div total (Pos.of_succ_nat n) with
  | Some average_year =>
      String.eqb (Renewal.year_category_of average_year) band
  | None => false
  end.

(** The band of two consecutive years: their own when they share it,
    "unknown" when they do not. *)
Definition band_of_pair (year : Z) : string :=
  if String.eqb (band_of year) (band_of (year + 1)) then band_of year
  else "unknown".

(** Running [m] at the console [c] ends with the result [a], the files
    [d] and the lines [rest] still to be typed; what was shown is added
    to the screen. *)
Definition yields {A : Type} (m : Console.I A) (c : Console.console)
  (a : A) (d : files) (rest : list string) : Prop :=
  exists shown,
    m c = (Console.Done a,
           {| Console.stdin := rest; Console.disk := d;
              Console.screen := Console.screen c ++ shown |}).

(** An interactive function that gives no line back to the input and
    does not stop for want of fuel. *)
Definition tame {A : Type} (m : Console.I A) : Prop :=
  forall c,
    (List.length (Console.stdin (snd (m c)))
     <= List.length (Console.stdin c))%nat
    /\ fst (m c) <> Console.Stopped Console.OutOfFuel.

(** A loop body that has read a line whenever it asks for another
    turn. *)
Definition reads {S R : Type} (body : Console.I (S + R)) : Prop :=
  forall c s',
    fst (body c) = Console.Done (inl s') ->
    (List.length (Console.stdin (snd (body c)))
     < List.length (Console.stdin c))%nat.

(** The preferences with nothing in them. *)
Definition no_preferences : preferences :=
  {| Genres := []; Emotions := []; Year := EmptyString |}.

(** An interactive function that leaves the three files as they are. *)
Definition keeps_files {A : Type} (m : Console.I A) : Prop :=
  forall c, Console.disk (snd (m c)) = Console.disk c.

(** A function of the store that leaves the three files as they are. *)
Definition reads_only {A : Type} (m : Runtime.M A) : Prop :=
  forall w, fs (snd (m w)) = fs w.

(** The files after the title at [index] has been taken off the
    watch-later list [l] and written at the end of the watched file with
    a review and a status. *)
Definition moved (d : files) (l : list string) (index : nat)
  (entries : list watched_entry) (t review status : string) : files :=
  file_set WATCHED_FILE
    (match watched_txt d with
     | Some text => text
     | None => EmptyString
     end
     ++ Journal.watched_line (Z.of_nat (List.length entries) + 1)
                             t review status)
    (file_set WATCH_LATER_FILE
       (join "," (firstn index l ++ skipn (S index) l)) d).

(** A loop body that never leaves its loop: it asks for another turn,
    or it stops. *)
Definition goes_on {S R : Type} (body : Console.I (S + R)) : Prop :=
  forall c r, fst (body c) <> Console.Done (inr r).

(** The text that a file holds; none when the file is absent. *)
Definition held (o : option string) : string :=
  match o with
  | Some text => text
  | None => EmptyString
  end.

(** The watched file of [d'] holds the text that it holds in [d],
    followed by some more. *)
Definition extends (d d' : files) : Prop :=
  exists suffix,
    held (watched_txt d') = (held (watched_txt d) ++ suffix)%string.

(** An interactive function that only ever adds to the end of the
    watched file. *)
Definition appends_only {A : Type} (m : Console.I A) : Prop :=
  forall c, extends (Console.disk c) (Console.disk (snd (m c))).

(** The same for a function of the store. *)
Definition grows {A : Type} (m : Runtime.M A) : Prop :=
  forall w, extends (fs w) (fs (snd (m w))).




(** The table of ratings rows that have every column, from the
    dictionary of the rows as text. *)
Definition table_of (d : PyDict.dict rating) : Recommender.ratings_table :=
  map (fun kv => (Some (fst kv), Recommender.ratings_row_of (snd kv))) d.

End Props.

(* ================================================================== *)
(** * More sample data *)
(* ================================================================== *)

Module Cases.
Import PyNum Runtime Store Engine.

(** Two dramas of the "new" band, with ratings that pass the gate. *)
Definition two_dramas : list movie :=
  [Samples.film "tt1" "Heat" "2015" "Drama";
   Samples.film "tt2" "Ran" "2016" "Drama"].

Definition good_ratings : list rating :=
  [Samples.rated "tt1" "8.0" "100000"; Samples.rated "tt2" "8.2" "90000"].

(** Preferences with the band that the renewal stores for an average
    year outside every band. *)
Definition off_band : preferences :=
  {| Genres := ["Drama"]; Emotions := ["joy"]; Year := "unknown" |}.

(** A watched list with one entry. *)
Definition one_watched : world :=
  {| fs := {| watched_txt := Some ("1.Heat:Great film:like" ++ LF)%string;
              preferences_txt := None;
              watch_later_txt := None |};
     log := [] |}.

Definition heat_entry : watched_entry :=
  {| number := "1"; title := "Heat"; review := "Great film";
     status := "like" |}.

(** A sentiment library that finds every text rather positive. *)
Definition cheerful (text : string) : float := Samples.score "0.5".

(** A review card with a vote label and a text. *)
Definition card (label text : string) : Scraper.review_container :=
  {| Scraper.votes_label := Some label;
     Scraper.rating_star := None;
     Scraper.title_heading := None;
     Scraper.review_body := Some text |}.

(** A page of three cards, the last two with as many votes. *)
Definition page : list Scraper.review_container :=
  [card "12" "Fine."; card "1.5K" " A joyful film. "; card "1.5K" "Dull."].

(** A classifier that finds sadness in a text with "sad" in it and joy
    in any other. *)
Definition by_mood (text : string) : list (string * float) :=
  if Spec.contains text "sad"
  then [("sadness", Samples.score "0.8"); ("fear", Samples.score "0.2")]
  else [("joy", Samples.score "0.7"); ("surprise", Samples.score "0.2");
        ("fear", Samples.score "0.1")].

(** A session of three movies with their reviews. *)
Definition reviewed (t y g r : string) : Deriver.session_entry :=
  {| Deriver.originalTitle := t; Deriver.startYear := y;
     Deriver.genres := g; Deriver.review := r |}.

Definition moods : list Deriver.session_entry :=
  [reviewed "Up" "2009" "Animation,Comedy" "happy";
   reviewed "Ran" "1985" "Action, Drama" "sad";
   reviewed "Ikiru" "1952" "Drama" "so sad"].

(** A console with lines to type, some files and a blank screen. *)
Definition typed (lines : list string) (d : files) : Console.console :=
  {| Console.stdin := lines; Console.disk := d; Console.screen := [] |}.

(** Files with the preferences for new dramas stored. *)
Definition with_preferences : files :=
  {| watched_txt := None;
     preferences_txt := Some (preferences_text Samples.drama_joy_new);
     watch_later_txt := None |}.

(** Any float shown as a question mark. *)
Definition no_repr (x : float) : string := "?".

(** Files with three titles to watch later, one of them with a colon,
    and one watched movie. *)
Definition shelf : files :=
  {| watched_txt := Some ("1.Heat:Great film:like" ++ LF)%string;
     preferences_txt := None;
     watch_later_txt := Some "Alien,Star Wars: A New Hope,Ran" |}.

(** A classifier that gives one label a score that is not a number. *)
Definition nan_score (text : string) : list (string * float) :=
  [("fear", Samples.score "1.0"); ("joy", Samples.score "nan");
   ("anger", Samples.score "2.0")].

(** Requests that all get the sample page back. *)
Definition pages (url : string)
  : option (Z * list Scraper.review_container) :=
  Some (200, page).

(** Requests that get the sample page back, except for the second
    title, whose page has a card with infinitely many votes. *)
Definition huge_votes (url : string)
  : option (Z * list Scraper.review_container) :=
  if String.eqb url (movie_url (Samples.film "tt2" "Ran" "2016" "Drama"))
  then Some (200, [card "infK" "A joyful film."])
  else Some (200, page).

(** The ratings of the two dramas, the line of the second cut short
    after its average. *)
Definition cut_ratings : list Recommender.ratings_row :=
  [Recommender.ratings_row_of (Samples.rated "tt1" "8.0" "100000");
   {| Recommender.key_tconst := Some "tt2";
      Recommender.row_averageRating := Some "8.2";
      Recommender.row_numVotes := None |}].

End Cases.

(* ================================================================== *)
(** * Year banding and the year gate *)
(* ================================================================== *)

Module YearFacts.
Import PyStr PyNum Store Engine.

Ltac by_cases_leb :=
  repeat match goal with
         | |- context [?a <=? ?b] => destruct (Z.leb_spec a b)
         end;
  simpl; try reflexivity; try lia.

Lemma categorize_year_of_int (s : string) (y : Z) :
  py_int s = Some y ->
  categorize_year s =
    if y <=? 1999 then Some "old"
    else if y <=? 2009 then Some "middle"
    else if y <=? 2019 then Some "new"
    else if y <=? 2024 then Some "very new"
    else None.
Proof.
  intros H. unfold categorize_year. rewrite H. by_cases_leb.
Qed.

(** The year gate lets a movie through exactly when its year has a
    band and the preferred band is empty or that same band. *)
Lemma year_gate_true_iff (prefs : preferences) (m : movie) :
  year_gate prefs m = true <->
  exists band, categorize_year (startYear m) = Some band
               /\ (Year prefs = "" \/ band = Year prefs).
Proof.
  unfold year_gate. destruct (categorize_year (startYear m)) as [band|].
  - split.
    + intros H. exists band. split; [reflexivity|].
      destruct (Year prefs) as [|c y] eqn:Ey; [left; reflexivity|].
      right. simpl in H. apply negb_true_iff, negb_false_iff in H.
      apply String.eqb_eq in H. exact H.
    + intros [b [Hb Hy]]. injection Hb as <-.
      destruct Hy as [Hy|Hy].
      * rewrite Hy. reflexivity.
      * rewrite <- Hy, String.eqb_refl. simpl.
        rewrite andb_false_r. reflexivity.
  - split; [discriminate|]. intros [b [Hb _]]. discriminate.
Qed.

(** C4.  A year text that reads as the integer [y] is banded [old] for
    [y <= 1999], [middle] for 2000..2009, [new] for 2010..2019 and
    very-new (the text "very new") for 2020..2024; any later year and
    any text that is not an integer has no band.  A movie without a band
    is rejected by the year gate, and so is a movie whose band differs
    from a non-empty preferred band. *)
Theorem year_banding (prefs : preferences) (m : movie) :
  (forall y, py_int (startYear m) = Some y ->
     (y <= 1999 -> categorize_year (startYear m) = Some "old")
     /\ (2000 <= y <= 2009 -> categorize_year (startYear m) = Some "middle")
     /\ (2010 <= y <= 2019 -> categorize_year (startYear m) = Some "new")
     /\ (2020 <= y <= 2024 ->
         categorize_year (startYear m) = Some "very new")
     /\ (2025 <= y -> categorize_year (startYear m) = None))
  /\ (py_int (startYear m) = None -> categorize_year (startYear m) = None)
  /\ (categorize_year (startYear m) = None -> year_gate prefs m = false)
  /\ (forall band, categorize_year (startYear m) = Some band ->
        Year prefs <> "" -> band <> Year prefs -> year_gate prefs m = false).
Proof.
  repeat split.
  1-5: intros Hy; rewrite (categorize_year_of_int _ _ H); by_cases_leb.
  - intros H. unfold categorize_year. rewrite H. reflexivity.
  - intros H. unfold year_gate. rewrite H. reflexivity.
  - intros band Hb Hne Hdiff.
    destruct (year_gate prefs m) eqn:G; [|reflexivity].
    apply year_gate_true_iff in G. destruct G as [b [Hb' [Hy|Hy]]].
    + contradiction.
    + rewrite Hb in Hb'. injection Hb' as <-. contradiction.
Qed.

(** The boundary years of the specification, through the banding rule. *)
Lemma year_banding_witness :
  categorize_year "1999" = Some "old"
  /\ categorize_year "2000" = Some "middle"
  /\ categorize_year "2009" = Some "middle"
  /\ categorize_year "2010" = Some "new"
  /\ categorize_year "2019" = Some "new"
  /\ categorize_year "2020" = Some "very new"
  /\ categorize_year "2024" = Some "very new"
  /\ categorize_year "2025" = None
  /\ categorize_year "\N" = None
  /\ year_gate Samples.drama_joy_new
               (Samples.film "tt1" "X" "2025" "Drama") = false
  /\ year_gate Samples.drama_joy_new
               (Samples.film "tt1" "X" "1999" "Drama") = false.
Proof.
  pose (at_year := fun y => year_banding Samples.drama_joy_new
                              (Samples.film "tt1" "X" y "Drama")).
  repeat apply conj.
  - apply (proj1 (proj1 (at_year "1999") 1999 eq_refl)). lia.
  - apply (proj1 (proj2 (proj1 (at_year "2000") 2000 eq_refl))). lia.
  - apply (proj1 (proj2 (proj1 (at_year "2009") 2009 eq_refl))). lia.
  - apply (proj1 (proj2 (proj2 (proj1 (at_year "2010") 2010 eq_refl)))).
    lia.
  - apply (proj1 (proj2 (proj2 (proj1 (at_year "2019") 2019 eq_refl)))).
    lia.
  - apply (proj1 (proj2 (proj2 (proj2
             (proj1 (at_year "2020") 2020 eq_refl))))). lia.
  - apply (proj1 (proj2 (proj2 (proj2
             (proj1 (at_year "2024") 2024 eq_refl))))). lia.
  - apply (proj2 (proj2 (proj2 (proj2
             (proj1 (at_year "2025") 2025 eq_refl))))). lia.
  - apply (proj1 (proj2 (at_year "\N"))). reflexivity.
  - apply (proj1 (proj2 (proj2 (at_year "2025")))). reflexivity.
  - apply (proj2 (proj2 (proj2 (at_year "1999"))) "old").
    + reflexivity.
    + discriminate.
    + discriminate.
Defined.

End YearFacts.

(* ================================================================== *)
(** * Characters: lowering commutes with splitting and stripping *)
(* ================================================================== *)

Module CharFacts.
Import PyStr.

Ltac every_char c :=
  destruct c as [b0 b1 b2 b3 b4 b5 b6 b7];
  destruct b0, b1, b2, b3, b4, b5, b6, b7; vm_compute; reflexivity.

Lemma lower_char_is_comma (c : ascii) :
  Ascii.eqb (lower_char c) ","%char = Ascii.eqb c ","%char.
Proof. every_char c. Qed.

Lemma lower_char_is_space (c : ascii) :
  is_space (lower_char c) = is_space c.
Proof. every_char c. Qed.

Lemma lower_char_idem (c : ascii) :
  lower_char (lower_char c) = lower_char c.
Proof. every_char c. Qed.

Lemma lower_idem (s : string) : lower (lower s) = lower s.
Proof.
  induction s as [|c s IH]; simpl; [reflexivity|].
  rewrite lower_char_idem, IH. reflexivity.
Qed.

Lemma split_lower (s : string) :
  split "," (lower s) = map lower (split "," s).
Proof.
  induction s as [|c s IH]; simpl; [reflexivity|].
  rewrite lower_char_is_comma.
  destruct (Ascii.eqb c ","%char).
  - simpl. rewrite IH. reflexivity.
  - rewrite IH. destruct (split "," s); reflexivity.
Qed.

Lemma lstrip_lower (s : string) : lstrip (lower s) = lower (lstrip s).
Proof.
  induction s as [|c s IH]; simpl; [reflexivity|].
  rewrite lower_char_is_space. destruct (is_space c); [exact IH|reflexivity].
Qed.

Lemma rstrip_lower (s : string) : rstrip (lower s) = lower (rstrip s).
Proof.
  induction s as [|c s IH]; simpl; [reflexivity|].
  rewrite IH, lower_char_is_space.
  destruct (rstrip s); simpl; [destruct (is_space c)|]; reflexivity.
Qed.

Lemma strip_lower (s : string) : strip (lower s) = lower (strip s).
Proof. unfold strip. rewrite lstrip_lower, rstrip_lower. reflexivity. Qed.

Lemma truthy_lower (s : string) : truthy (lower s) = truthy s.
Proof. destruct s; reflexivity. Qed.

End CharFacts.

(* ================================================================== *)
(** * The genre gate *)
(* ================================================================== *)

Module GenreFacts.
Import PyStr Store Engine Spec CharFacts.

Lemma mem_map_lower (x : string) (l : list string) :
  mem x (map lower l) = existsb (fun p => String.eqb x (lower p)) l.
Proof.
  unfold mem. induction l as [|p l IH]; simpl; [reflexivity|].
  rewrite IH. reflexivity.
Qed.

Lemma genre_gate_unfold (prefs : preferences) (m : movie) :
  genre_gate prefs m =
  (required_matches (Genres prefs) <=? genre_match_count prefs m).
Proof.
  unfold genre_gate, required_genre_matches, required_matches,
    genre_match_count, candidate_genres, count_matches,
    preferred_genres_lower, same_genre.
  rewrite (filter_ext _ _ (fun g => mem_map_lower (lower (strip g)) _)).
  symmetry. apply Z.leb_antisym.
Qed.

(** The count depends on the candidate only through the lowered parts. *)
Lemma count_matches_lower (g : string) (wanted : list string) :
  count_matches (split "," (lower g)) wanted
  = count_matches (split "," g) wanted.
Proof.
  unfold count_matches. rewrite split_lower. f_equal.
  induction (split "," g) as [|x l IH]; simpl; [reflexivity|].
  rewrite strip_lower, lower_idem.
  destruct (mem (lower (strip x)) wanted); simpl; rewrite IH; reflexivity.
Qed.

(** C5.  The genre gate passes exactly when the number of candidate
    genres found, without regard to case, among the preferred genres
    reaches the required number: 2 when two or more genres are preferred,
    1 otherwise.  With no preferred genre no candidate passes.  The gate
    sees the preferred genres and the candidate's genre text only up to
    case. *)
Theorem genre_gate_rule (prefs : preferences) (m : movie) :
  (genre_gate prefs m = true <->
   required_matches (Genres prefs) <= genre_match_count prefs m)
  /\ (required_matches (Genres prefs) =
      if 2 <=? Z.of_nat (List.length (Genres prefs)) then 2 else 1)
  /\ (Genres prefs = [] -> genre_gate prefs m = false)
  /\ (forall prefs' m',
        map lower (Genres prefs') = map lower (Genres prefs) ->
        lower (genres m') = lower (genres m) ->
        genre_gate prefs' m' = genre_gate prefs m).
Proof.
  split; [|split; [|split]].
  - rewrite genre_gate_unfold. apply Z.leb_le.
  - reflexivity.
  - intros E. rewrite genre_gate_unfold. unfold genre_match_count.
    rewrite E. simpl.
    replace (filter (fun _ : string => false) (candidate_genres m))
      with (@nil string).
    + reflexivity.
    + induction (candidate_genres m); simpl; [reflexivity|assumption].
  - intros prefs' m' Hp Hm.
    unfold genre_gate, required_genre_matches, preferred_genres_lower.
    rewrite Hp.
    assert (Hlen : List.length (Genres prefs') = List.length (Genres prefs)).
    { rewrite <- (length_map lower (Genres prefs')), Hp. apply length_map. }
    rewrite Hlen.
    rewrite <- (truthy_lower (genres m')), <- (truthy_lower (genres m)), Hm.
    destruct (truthy (lower (genres m))); [|reflexivity].
    rewrite <- (count_matches_lower (genres m')),
            <- (count_matches_lower (genres m)), Hm.
    reflexivity.
Qed.
(** The two candidates of the specification against the preferences
    Action and Comedy, an empty preference list, and a change of case. *)
Lemma genre_gate_rule_witness :
  genre_gate Samples.action_comedy
             (Samples.film "tt1" "A" "2015" "Action") = false
  /\ genre_gate Samples.action_comedy
                (Samples.film "tt2" "B" "2015" "Action,Comedy,Drama") = true
  /\ genre_gate {| Genres := []; Emotions := ["joy"]; Year := "new" |}
                (Samples.film "tt2" "B" "2015" "Action,Comedy,Drama") = false
  /\ genre_gate
       {| Genres := ["ACTION"; "comedy"]; Emotions := []; Year := "" |}
       (Samples.film "tt3" "C" "2015" "action, COMEDY")
     = genre_gate Samples.action_comedy
                  (Samples.film "tt2" "B" "2015" "Action, Comedy").
Proof.
  split; [|split; [|split]].
  - destruct (genre_gate Samples.action_comedy
                (Samples.film "tt1" "A" "2015" "Action")) eqn:G;
      [|reflexivity].
    apply (proj1 (genre_gate_rule _ _)) in G.
    apply Z.leb_le in G. vm_compute in G. discriminate G.
  - apply (proj1 (genre_gate_rule _ _)).
    apply Z.leb_le. vm_compute. reflexivity.
  - apply (proj1 (proj2 (proj2 (genre_gate_rule _ _)))). reflexivity.
  - apply (proj2 (proj2 (proj2 (genre_gate_rule _ _)))); reflexivity.
Defined.

End GenreFacts.

(* ================================================================== *)
(** * The watch-later list *)
(* ================================================================== *)

Module WatchLaterFacts.
Import PyStr Runtime Store.

(** Reading the list never fails and touches nothing. *)
Lemma read_watch_later_pure (w : world) :
  exists l, read_watch_later w = (Ok l, w).
Proof.
  unfold read_watch_later, bind, path_exists, read_text, ret, file_get.
  destruct (watch_later_txt (fs w)) as [c|] eqn:E; cbv beta iota.
  - rewrite E.
    destruct (truthy (strip (universal_newlines c))); eexists; reflexivity.
  - eexists; reflexivity.
Qed.

Lemma read_watch_later_as (w : world) (l : list string) :
  fst (read_watch_later w) = Ok l -> read_watch_later w = (Ok l, w).
Proof.
  destruct (read_watch_later_pure w) as [l' E]. rewrite E. simpl.
  intros H. injection H as ->. reflexivity.
Qed.

Lemma pop_in_range {A : Type} (l : list A) (i : Z) :
  0 <= i < Z.of_nat (List.length l) ->
  exists x, nth_error l (Z.to_nat i) = Some x
            /\ pop l i = Ok (x, firstn (Z.to_nat i) l
                                 ++ skipn (S (Z.to_nat i)) l).
Proof.
  intros H. unfold pop.
  destruct (Z.ltb_spec i 0); [lia|].
  destruct (Z.leb_spec 0 i); [|lia].
  destruct (Z.ltb_spec i (Z.of_nat (List.length l))); [|lia].
  simpl.
  destruct (nth_error l (Z.to_nat i)) as [x|] eqn:E.
  - exists x. split; reflexivity.
  - apply nth_error_None in E. lia.
Qed.

Lemma in_range_test (i : Z) (n : nat) :
  (0 <=? i) && (i <? Z.of_nat n) = true <-> 0 <= i < Z.of_nat n.
Proof.
  rewrite andb_true_iff, Z.leb_le, Z.ltb_lt. reflexivity.
Qed.

(** C6, as the code has it.  With an index inside [0, length) the call
    returns the title at that index; with an index outside it returns
    [None]: no exception is raised. *)
Theorem remove_watch_later_result (index : Z) (w : world) (l : list string) :
  fst (read_watch_later w) = Ok l ->
  (0 <= index < Z.of_nat (List.length l) ->
   exists t, nth_error l (Z.to_nat index) = Some t
             /\ fst (remove_watch_later index w) = Ok (Some t))
  /\ (~ 0 <= index < Z.of_nat (List.length l) ->
      fst (remove_watch_later index w) = Ok None).
Proof.
  intros Hread. apply read_watch_later_as in Hread.
  unfold remove_watch_later, bind. rewrite Hread. split.
  - intros Hin. destruct (pop_in_range l index Hin) as [t [Ht Hpop]].
    exists t. split; [exact Ht|].
    rewrite (proj2 (in_range_test index (List.length l)) Hin).
    unfold lift. rewrite Hpop. reflexivity.
  - intros Hout.
    destruct ((0 <=? index) && (index <? Z.of_nat (List.length l))) eqn:E.
    + apply in_range_test in E. contradiction.
    + reflexivity.
Qed.

Lemma remove_watch_later_result_witness :
  fst (remove_watch_later 1 Samples.three_titles) = Ok (Some "Heat")
  /\ fst (remove_watch_later 3 Samples.three_titles) = Ok None
  /\ fst (remove_watch_later (-1) Samples.three_titles) = Ok None.
Proof.
  pose (at_index := fun i =>
          remove_watch_later_result i Samples.three_titles
            ["Alien"; "Heat"; "Ran"] eq_refl).
  split; [|split].
  - destruct (proj1 (at_index 1)) as [t [Ht E]]; [simpl; lia|].
    injection Ht as <-. exact E.
  - apply (proj2 (at_index 3)). simpl. lia.
  - apply (proj2 (at_index (-1))). lia.
Defined.

(** The claim as written fails: index 3 on a list of three titles
    returns [None] and raises nothing. *)
Lemma remove_watch_later_no_IndexError :
  fst (read_watch_later Samples.three_titles) = Ok ["Alien"; "Heat"; "Ran"]
  /\ ~ 0 <= 3 < Z.of_nat (List.length ["Alien"; "Heat"; "Ran"])
  /\ fst (remove_watch_later 3 Samples.three_titles) = Ok None
  /\ fst (remove_watch_later 3 Samples.three_titles) <> Raise IndexError.
Proof.
  split; [reflexivity|]. split; [simpl; lia|].
  split; [reflexivity|]. discriminate.
Qed.

(** C10.  With an index outside [0, length) the call returns [None],
    the three files are what they were, and the only thing that happened
    is the message on the console: nothing is written. *)
Theorem remove_watch_later_out_of_range
  (index : Z) (w : world) (l : list string) :
  fst (read_watch_later w) = Ok l ->
  ~ 0 <= index < Z.of_nat (List.length l) ->
  remove_watch_later index w
  = (Ok None, {| fs := fs w; log := log w ++ [Print "Invalid index."] |}).
Proof.
  intros Hread Hout. apply read_watch_later_as in Hread.
  unfold remove_watch_later, bind. rewrite Hread.
  destruct ((0 <=? index) && (index <? Z.of_nat (List.length l))) eqn:E.
  - apply in_range_test in E. contradiction.
  - reflexivity.
Qed.

Lemma remove_watch_later_out_of_range_witness :
  remove_watch_later 7 Samples.three_titles
  = (Ok None,
     {| fs := fs Samples.three_titles; log := [Print "Invalid index."] |}).
Proof.
  apply (remove_watch_later_out_of_range 7 Samples.three_titles
           ["Alien"; "Heat"; "Ran"] eq_refl).
  simpl. lia.
Defined.

End WatchLaterFacts.

(* ================================================================== *)
(** * The order of floats *)
(* ================================================================== *)

Module FloatFacts.
Import PyNum.

Lemma pos_compare_cont_eq (p q : positive) :
  Pos.compare_cont Eq p q = (Zpos p ?= Zpos q).
Proof. reflexivity. Qed.

Ltac compare_cases :=
  repeat match goal with
         | |- context [Z.compare ?a ?b] => destruct (Z.compare_spec a b)
         | |- context [Pos.compare_cont Eq ?p ?q] =>
             rewrite (pos_compare_cont_eq p q);
             destruct (Z.compare_spec (Zpos p) (Zpos q))
         end.

(** Away from NaN, [x < y] is the order of the ranks. *)
Lemma float_lt_rank (x y : float) :
  is_nan x = false -> is_nan y = false ->
  (float_lt x y = true <-> rank_lt (float_rank x) (float_rank y)).
Proof.
  unfold float_lt, SFltb.
  destruct x as [sx|sx| |sx mx ex], y as [sy|sy| |sy my ey];
    try discriminate; intros _ _; simpl;
    repeat match goal with s : bool |- _ => destruct s end; simpl;
    compare_cases; simpl; split; intros Hside;
    try discriminate; try reflexivity; try lia.
Qed.

(** Away from NaN, [x <= y] says that [y < x] fails. *)
Lemma float_le_rank (x y : float) :
  is_nan x = false -> is_nan y = false ->
  (float_le x y = true <-> ~ rank_lt (float_rank y) (float_rank x)).
Proof.
  unfold float_le, SFleb.
  destruct x as [sx|sx| |sx mx ex], y as [sy|sy| |sy my ey];
    try discriminate; intros _ _; simpl;
    repeat match goal with s : bool |- _ => destruct s end; simpl;
    compare_cases; simpl; split; intros Hside;
    try discriminate; try reflexivity; try lia.
Qed.

Lemma rank_lt_irrefl (a : Z * Z * Z) : ~ rank_lt a a.
Proof. destruct a as [[a1 a2] a3]. simpl. lia. Qed.

Lemma rank_lt_trans (a b c : Z * Z * Z) :
  rank_lt a b -> rank_lt b c -> rank_lt a c.
Proof.
  destruct a as [[a1 a2] a3], b as [[b1 b2] b3], c as [[c1 c2] c3].
  simpl. lia.
Qed.

Lemma rank_lt_negtrans (a b c : Z * Z * Z) :
  ~ rank_lt a b -> ~ rank_lt b c -> ~ rank_lt a c.
Proof.
  destruct a as [[a1 a2] a3], b as [[b1 b2] b3], c as [[c1 c2] c3].
  simpl. lia.
Qed.

(** Every comparison with NaN is false. *)
Lemma float_le_nan (y : float) : float_le S754_nan y = false.
Proof. reflexivity. Qed.

Lemma float_lt_nan_r (x : float) : float_lt x S754_nan = false.
Proof. destruct x; reflexivity. Qed.

(** Away from NaN, "not [x <= y]" is [y < x]. *)
Lemma float_not_le_iff_gt (x y : float) :
  is_nan x = false -> is_nan y = false ->
  (float_le x y = false <-> float_lt y x = true).
Proof.
  intros Hx Hy. rewrite (float_lt_rank y x Hy Hx).
  destruct (float_le x y) eqn:E.
  - apply (float_le_rank x y Hx Hy) in E. split; [discriminate|].
    intros H. contradiction.
  - split; [|reflexivity]. intros _.
    destruct (float_rank y) as [[a1 a2] a3] eqn:Ry,
             (float_rank x) as [[b1 b2] b3] eqn:Rx.
    assert (N : ~ ~ rank_lt (a1, a2, a3) (b1, b2, b3)).
    { intros C. rewrite <- Ry, <- Rx in C.
      apply (float_le_rank x y Hx Hy) in C. congruence. }
    simpl in *. lia.
Qed.

End FloatFacts.

(* ================================================================== *)
(** * Dictionaries *)
(* ================================================================== *)

Module DictFacts.
Import PyStr PyDict.

Section Facts.
Context {V : Type}.
Implicit Types (d : dict V) (k : string) (v : V).

Lemma get_set d k v k' :
  get (set d k v) k' = if String.eqb k k' then Some v else get d k'.
Proof.
  induction d as [|[k0 v0] d IH]; simpl.
  - reflexivity.
  - destruct (String.eqb_spec k0 k) as [->|Hne]; simpl.
    + destruct (String.eqb k k'); reflexivity.
    + rewrite IH. destruct (String.eqb_spec k0 k') as [->|Hne'].
      * destruct (String.eqb_spec k k') as [->|_]; [contradiction|].
        reflexivity.
      * reflexivity.
Qed.

Lemma get_some_in d k v : get d k = Some v -> In (k, v) d.
Proof.
  induction d as [|[k0 v0] d IH]; simpl; [discriminate|].
  destruct (String.eqb_spec k0 k) as [->|Hne].
  - intros H. injection H as ->. left. reflexivity.
  - intros H. right. apply IH, H.
Qed.

Lemma get_none_iff d k : get d k = None <-> ~ In k (keys d).
Proof.
  unfold keys. induction d as [|[k0 v0] d IH]; simpl.
  - split; [intros _ []|reflexivity].
  - destruct (String.eqb_spec k0 k) as [->|Hne].
    + split; [discriminate|]. intros H. exfalso. apply H. left. reflexivity.
    + rewrite IH. split.
      * intros H [E|I]; [contradiction|]. apply H, I.
      * intros H I. apply H. right. exact I.
Qed.

(** Assigning keeps the key order; a new key goes last. *)
Lemma keys_set d k v :
  keys (set d k v) = if mem k (keys d) then keys d else keys d ++ [k].
Proof.
  unfold keys, mem. induction d as [|[k0 v0] d IH]; simpl; [reflexivity|].
  rewrite (String.eqb_sym k k0).
  destruct (String.eqb k0 k); simpl; [reflexivity|].
  rewrite IH. destruct (existsb (String.eqb k) (map fst d)); reflexivity.
Qed.

Lemma mem_true_iff (x : string) (l : list string) :
  mem x l = true <-> In x l.
Proof.
  unfold mem. rewrite existsb_exists. split.
  - intros [y [Hy E]]. apply String.eqb_eq in E. subst. exact Hy.
  - intros H. exists x. split; [exact H|apply String.eqb_refl].
Qed.

Lemma keys_set_nodup d k v : NoDup (keys d) -> NoDup (keys (set d k v)).
Proof.
  intros H. rewrite keys_set. destruct (mem k (keys d)) eqn:E; [exact H|].
  apply NoDup_app; [exact H|repeat constructor; intros []|].
  intros x Hx [<-|[]].
  apply mem_true_iff in Hx. congruence.
Qed.

End Facts.
End DictFacts.

(* ================================================================== *)
(** * The rating gate *)
(* ================================================================== *)

Module RatingFacts.
Import PyStr PyNum PyDict Store Engine FloatFacts DictFacts.

(** The row that the index holds for an identifier comes from the
    ratings table and carries that identifier. *)
Lemma ratings_index_get (ratings : list rating) (k : string) (r : rating) :
  get (ratings_index ratings) k = Some r ->
  In r ratings /\ rating_tconst r = k.
Proof.
  unfold ratings_index.
  assert (G : forall (d : dict rating),
             (forall r0, get d k = Some r0 ->
                         In r0 ratings /\ rating_tconst r0 = k) ->
             forall rs, incl rs ratings ->
             get (fold_left (fun d r => set d (rating_tconst r) r) rs d) k
             = Some r ->
             In r ratings /\ rating_tconst r = k).
  { intros d Hd rs. revert d Hd.
    induction rs as [|r0 rs IH]; simpl; intros d Hd Hin H.
    - apply Hd, H.
    - apply (IH (set d (rating_tconst r0) r0)); [|
        intros x Hx; apply Hin; right; exact Hx | exact H].
      intros r1. rewrite get_set.
      destruct (String.eqb_spec (rating_tconst r0) k) as [E|_].
      + intros H1. injection H1 as <-. split; [|exact E].
        apply Hin. left. reflexivity.
      + apply Hd. }
  apply (G []); [intros r0 H0; discriminate H0|apply incl_refl].
Qed.

(** What the gate checks, field by field. *)
Lemma rating_gate_iff (d : dict rating) (m : movie) (x : float) :
  rating_gate d m = Some x <->
  exists r n, get d (tconst m) = Some r
              /\ py_float (averageRating r) = Some x
              /\ py_int (numVotes r) = Some n
              /\ float_le x f6_5 = false
              /\ 50000 < n.
Proof.
  unfold rating_gate. split.
  - destruct (get d (tconst m)) as [r|] eqn:Er; [|discriminate].
    destruct (py_float (averageRating r)) as [a|] eqn:Ef; [|discriminate].
    destruct (py_int (numVotes r)) as [n|] eqn:Ei; [|discriminate].
    destruct (float_le a f6_5) eqn:Ea; [discriminate|].
    destruct (Z.leb_spec n 50000) as [|Hn]; [discriminate|]. simpl.
    intros Hx. injection Hx as <-. exists r, n. repeat split; assumption.
  - intros [r [n [-> [-> [-> [-> Hn]]]]]].
    destruct (Z.leb_spec n 50000); [lia|]. reflexivity.
Qed.

(** The rating gate on ratings that are numbers: a candidate passes
    exactly when its row exists in the ratings table, both fields parse,
    the average is above 6.5 and the votes are above 50000; a field that
    does not parse rejects the candidate. *)
Lemma rating_gate_on_numbers (ratings : list rating) (m : movie) :
  (forall x, rating_gate (ratings_index ratings) m = Some x ->
     is_nan x = false ->
     exists r n, In r ratings /\ rating_tconst r = tconst m
                 /\ py_float (averageRating r) = Some x
                 /\ py_int (numVotes r) = Some n
                 /\ float_lt f6_5 x = true /\ 50000 < n)
  /\ (forall r x n, get (ratings_index ratings) (tconst m) = Some r ->
        py_float (averageRating r) = Some x ->
        py_int (numVotes r) = Some n ->
        float_lt f6_5 x = true -> 50000 < n ->
        rating_gate (ratings_index ratings) m = Some x)
  /\ (forall r, get (ratings_index ratings) (tconst m) = Some r ->
        py_float (averageRating r) = None \/ py_int (numVotes r) = None ->
        rating_gate (ratings_index ratings) m = None)
  /\ (get (ratings_index ratings) (tconst m) = None ->
      rating_gate (ratings_index ratings) m = None).
Proof.
  split; [|split; [|split]].
  - intros x H Hx. apply rating_gate_iff in H.
    destruct H as [r [n [Hr [Ha [Hv [Hle Hn]]]]]].
    exists r, n. destruct (ratings_index_get _ _ _ Hr) as [Hin Hk].
    repeat split; try assumption.
    apply (proj1 (float_not_le_iff_gt x f6_5 Hx eq_refl)). exact Hle.
  - intros r x n Hr Ha Hv Hlt Hn. apply rating_gate_iff.
    exists r, n. repeat split; try assumption.
    assert (Hx : is_nan x = false).
    { destruct x; try reflexivity. discriminate Hlt. }
    apply (proj2 (float_not_le_iff_gt x f6_5 Hx eq_refl)). exact Hlt.
  - intros r Hr [Ha|Hv]; unfold rating_gate; rewrite Hr.
    + rewrite Ha. reflexivity.
    + rewrite Hv. destruct (py_float (averageRating r)); reflexivity.
  - intros Hr. unfold rating_gate. rewrite Hr. reflexivity.
Qed.

(** The thresholds of the specification. *)
Lemma rating_gate_boundaries :
  let x := Samples.film "tt1" "X" "2015" "Drama" in
  let gate r v := rating_gate (ratings_index [Samples.rated "tt1" r v]) x in
  py_float "6.5" = Some f6_5
  /\ gate "6.5" "100000" = None
  /\ gate "8.0" "50000" = None
  /\ gate "6.51" "50001" = py_float "6.51"
  /\ gate "\N" "100000" = None
  /\ gate "8.0" "many" = None
  /\ rating_gate (ratings_index [Samples.rated "tt2" "8.0" "100000"]) x
     = None.
Proof. vm_compute. repeat split. Qed.

(** C3, where the code departs from it.  The text "nan" is read by
    [float] as NaN; [nan <= 6.5] is false, so with enough votes the
    candidate passes the rating gate although its rating is not above
    6.5, and the engine goes on to recommend it. *)
Theorem rating_gate_lets_nan_through :
  let x := Samples.film "tt1" "X" "2015" "Drama" in
  let ratings := [Samples.rated "tt1" "nan" "50001"] in
  py_float "nan" = Some S754_nan
  /\ float_le S754_nan f6_5 = false
  /\ float_lt f6_5 S754_nan = false
  /\ rating_gate (ratings_index ratings) x = Some S754_nan
  /\ fst (recommend_based_on_preferences
            Samples.any_review Samples.mostly_joy
            Samples.drama_joy_new [x] ratings Samples.fresh)
     = Runtime.Ok ["X"].
Proof. vm_compute. repeat split. Qed.

End RatingFacts.

(* ================================================================== *)
(** * The matching loop *)
(* ================================================================== *)

Module EngineFacts.
Import PyStr PyNum PyDict Runtime Store Engine Spec.

Lemma world_eta (w : world) : w = {| fs := fs w; log := log w ++ [] |}.
Proof. destruct w. simpl. rewrite app_nil_r. reflexivity. Qed.

Lemma fetches_app (a b : list event) :
  fetches (a ++ b) = fetches a ++ fetches b.
Proof. unfold fetches. apply flat_map_app. Qed.

(** Appending a title writes the file once and does nothing else. *)
Lemma append_watch_later_run (t : string) (w : world) :
  exists c,
    append_watch_later t w
    = (Ok tt, {| fs := file_set WATCH_LATER_FILE c (fs w);
                 log := log w ++ [Write WATCH_LATER_FILE c] |}).
Proof.
  unfold append_watch_later, bind.
  destruct (WatchLaterFacts.read_watch_later_pure w) as [l E]. rewrite E.
  eexists. reflexivity.
Qed.

(** What is read depends on the files only. *)
Lemma read_watch_later_same_files (w1 w2 : world) :
  fs w1 = fs w2 -> fst (read_watch_later w1) = fst (read_watch_later w2).
Proof.
  intros H.
  unfold read_watch_later, bind, path_exists, read_text, ret, file_get.
  rewrite H.
  destruct (watch_later_txt (fs w2)) as [c|] eqn:E; cbv beta iota;
    [|reflexivity].
  rewrite H, E.
  destruct (truthy (strip (universal_newlines c))); reflexivity.
Qed.

Section Run.
Variable review_page : string -> option string.
Variable emotion_classifier : string -> list (string * float).
Variable prefs : preferences.
Variable watched_titles watch_later_titles : list string.
Variable ratings_dict : dict rating.

Let consider' :=
  consider review_page emotion_classifier prefs watched_titles
           watch_later_titles ratings_dict.
Let loop' :=
  loop review_page emotion_classifier prefs watched_titles
       watch_later_titles ratings_dict.

(** A candidate that fails the genre gate leaves everything as it was. *)
Lemma consider_genre_reject (m : movie) (recommended : list string)
  (w : world) :
  genre_gate prefs m = false -> consider' m recommended w = (Ok recommended, w).
Proof.
  intros H. unfold consider', consider. rewrite H. reflexivity.
Qed.

(** One pass never fails; it fetches at most once, the page of its own
    candidate, and only past the genre gate. *)
Lemma consider_run (m : movie) (recommended : list string) (w : world) :
  exists recommended' files' events,
    consider' m recommended w
    = (Ok recommended', {| fs := files'; log := log w ++ events |})
    /\ (fetches events = []
        \/ (fetches events = [movie_url m] /\ genre_gate prefs m = true)).
Proof.
  unfold consider', consider.
  destruct (genre_gate prefs m) eqn:G; simpl;
    [|exists recommended, (fs w), []; split;
      [apply f_equal, world_eta|left; reflexivity]].
  destruct (year_gate prefs m); simpl;
    [|exists recommended, (fs w), []; split;
      [apply f_equal, world_eta|left; reflexivity]].
  destruct (dedup_gate watched_titles watch_later_titles m); simpl;
    [|exists recommended, (fs w), []; split;
      [apply f_equal, world_eta|left; reflexivity]].
  destruct (rating_gate ratings_dict m) as [average_rating|];
    [|exists recommended, (fs w), []; split;
      [apply f_equal, world_eta|left; reflexivity]].
  unfold bind at 1. unfold fetch_most_supported_review, bind, emit, ret.
  simpl.
  destruct (review_page (movie_url m)) as [review_text|];
    [|exists recommended, (fs w), [Fetch (movie_url m)]; split;
      [reflexivity|right; split; reflexivity]].
  destruct (truthy review_text); simpl;
    [|exists recommended, (fs w), [Fetch (movie_url m)]; split;
      [reflexivity|right; split; reflexivity]].
  destruct (emotion_gate emotion_classifier prefs review_text); simpl;
    [|exists recommended, (fs w), [Fetch (movie_url m)]; split;
      [reflexivity|right; split; reflexivity]].
  destruct (append_watch_later_run (originalTitle m)
              {| fs := fs w; log := log w ++ [Fetch (movie_url m)] |})
    as [c E].
  rewrite E. unfold sleep, emit. simpl.
  eexists _, _, [Fetch (movie_url m); Write WATCH_LATER_FILE c; _; _].
  split.
  - repeat rewrite <- app_assoc. simpl. reflexivity.
  - right. split; reflexivity.
Qed.

(** The loop never fails, and every page it fetches belongs to a
    candidate of the catalog that passed the genre gate. *)
Lemma loop_run (full_titles : list movie) :
  forall (recommended : list string) (w : world),
  exists recommended' files' events,
    loop' full_titles recommended w
    = (Ok recommended', {| fs := files'; log := log w ++ events |})
    /\ forall url, In url (fetches events) ->
         exists m, In m full_titles /\ genre_gate prefs m = true
                   /\ url = movie_url m.
Proof.
  unfold loop'.
  induction full_titles as [|m rest IH]; intros recommended w; simpl.
  - exists recommended, (fs w), []. split; [apply f_equal, world_eta|].
    intros url [].
  - destruct (3 <=? Z.of_nat (List.length recommended)).
    + exists recommended, (fs w), []. split; [apply f_equal, world_eta|].
      intros url [].
    + unfold bind.
      destruct (consider_run m recommended w) as [r1 [f1 [e1 [E1 F1]]]].
      unfold consider' in E1. rewrite E1.
      destruct (IH r1 {| fs := f1; log := log w ++ e1 |})
        as [r2 [f2 [e2 [E2 F2]]]].
      rewrite E2. simpl. exists r2, f2, (e1 ++ e2). split.
      * rewrite app_assoc. reflexivity.
      * intros url Hin. rewrite fetches_app in Hin.
        apply in_app_or in Hin. destruct Hin as [Hin|Hin].
        -- destruct F1 as [F1|[F1 G]]; rewrite F1 in Hin; [destruct Hin|].
           destruct Hin as [<-|[]]. exists m. repeat split; [left|]; auto.
        -- destruct (F2 url Hin) as [m' [Hm' [G' U']]].
           exists m'. repeat split; [right|..]; assumption.
Qed.

(** A candidate that passes all six gates is put at the end of the
    result and, before anything else happens, at the end of the
    watch-later file. *)
Lemma consider_accept (m : movie) (recommended l : list string) (w : world)
  (average_rating : float) (review_text : string) :
  genre_gate prefs m = true ->
  year_gate prefs m = true ->
  dedup_gate watched_titles watch_later_titles m = true ->
  rating_gate ratings_dict m = Some average_rating ->
  review_page (movie_url m) = Some review_text ->
  truthy review_text = true ->
  emotion_gate emotion_classifier prefs review_text = true ->
  fst (read_watch_later w) = Ok l ->
  consider' m recommended w
  = (Ok (recommended ++ [originalTitle m]),
     {| fs := file_set WATCH_LATER_FILE
                       (join "," (l ++ [originalTitle m])) (fs w);
        log := log w
               ++ [Fetch (movie_url m);
                   Write WATCH_LATER_FILE (join "," (l ++ [originalTitle m]));
                   PrintRecommended (originalTitle m) (startYear m)
                                    (genres m) average_rating;
                   Sleep 1] |}).
Proof.
  intros G Y D R P T E L.
  unfold consider', consider. rewrite G, Y, D, R. simpl.
  unfold bind at 1. unfold fetch_most_supported_review, bind, emit, ret.
  simpl. rewrite P, T, E. simpl.
  unfold append_watch_later, bind.
  assert (L' : read_watch_later
                 {| fs := fs w; log := log w ++ [Fetch (movie_url m)] |}
               = (Ok l, {| fs := fs w;
                           log := log w ++ [Fetch (movie_url m)] |})).
  { apply WatchLaterFacts.read_watch_later_as.
    rewrite <- L. apply read_watch_later_same_files. reflexivity. }
  rewrite L'. unfold write_text, sleep, emit. simpl.
  repeat rewrite <- app_assoc. reflexivity.
Qed.

End Run.

Lemma read_watched_pure (w : world) :
  exists l, read_watched w = (Ok l, w).
Proof.
  unfold read_watched, bind, path_exists, read_text, ret, file_get.
  destruct (watched_txt (fs w)) as [c|] eqn:E; cbv beta iota.
  - rewrite E. eexists; reflexivity.
  - eexists; reflexivity.
Qed.

(** C2.  A candidate whose genre-match count is below the required
    number is dropped with the world untouched, so no review is fetched
    for it; and in a whole run every fetched page is the page of a
    candidate of the catalog that passed the genre gate. *)
Theorem genre_gate_before_fetch
  (review_page : string -> option string)
  (emotion_classifier : string -> list (string * float))
  (prefs : preferences) (full_titles : list movie)
  (ratings : list rating) (w : world) :
  (forall watched_titles watch_later_titles ratings_dict m recommended w0,
     genre_match_count prefs m < required_matches (Genres prefs) ->
     consider review_page emotion_classifier prefs watched_titles
              watch_later_titles ratings_dict m recommended w0
     = (Ok recommended, w0))
  /\ exists recommended files' events,
       recommend_based_on_preferences review_page emotion_classifier
                                      prefs full_titles ratings w
       = (Ok recommended, {| fs := files'; log := log w ++ events |})
       /\ forall url, In url (fetches events) ->
            exists m, In m full_titles
                      /\ required_matches (Genres prefs)
                         <= genre_match_count prefs m
                      /\ url = movie_url m.
Proof.
  split.
  - intros wt wlt rd m recommended w0 H.
    apply consider_genre_reject.
    rewrite GenreFacts.genre_gate_unfold. apply Z.leb_gt. exact H.
  - unfold recommend_based_on_preferences, bind.
    destruct (WatchLaterFacts.read_watch_later_pure w) as [wl Ewl].
    rewrite Ewl.
    destruct (read_watched_pure w) as [wd Ewd]. rewrite Ewd.
    destruct (loop_run review_page emotion_classifier prefs
                (map (fun x => lower (title x)) wd) (map lower wl)
                (ratings_index ratings) full_titles [] w)
      as [r [f [e [E F]]]].
    rewrite E.
    assert (Hfetch : forall extra url,
               In url (fetches (e ++ [Print extra])) ->
               exists m, In m full_titles
                         /\ required_matches (Genres prefs)
                            <= genre_match_count prefs m
                         /\ url = movie_url m).
    { intros extra url Hin. rewrite fetches_app in Hin. simpl in Hin.
      rewrite app_nil_r in Hin.
      destruct (F url Hin) as [m [Hm [G U]]]. exists m.
      repeat split; try assumption.
      rewrite GenreFacts.genre_gate_unfold in G. apply Z.leb_le, G. }
    destruct r as [|t r]; unfold print, emit, ret; simpl;
      eexists _, _, (e ++ [Print _]); (split;
        [rewrite app_assoc; reflexivity|apply Hfetch]).
Qed.

(** A run over one candidate with the wrong genres and one with the
    right ones: only the second page is fetched. *)
Lemma genre_gate_before_fetch_witness :
  let a := Samples.film "tt1" "A" "2015" "Comedy" in
  let b := Samples.film "tt2" "B" "2015" "Drama" in
  let ratings := [Samples.rated "tt1" "8.0" "100000";
                  Samples.rated "tt2" "8.0" "100000"] in
  consider Samples.any_review Samples.mostly_joy Samples.drama_joy_new
           [] [] (ratings_index ratings) a [] Samples.fresh
  = (Ok [], Samples.fresh)
  /\ fetches (log (snd (recommend_based_on_preferences
                          Samples.any_review Samples.mostly_joy
                          Samples.drama_joy_new [a; b] ratings
                          Samples.fresh)))
     = [movie_url b].
Proof.
  intros a b ratings. split.
  - apply (proj1 (genre_gate_before_fetch
                    Samples.any_review Samples.mostly_joy
                    Samples.drama_joy_new [a; b] ratings Samples.fresh)).
    vm_compute. reflexivity.
  - reflexivity.
Defined.

(** C1, where the code departs from it.  Two rows of the catalog carry
    the same title and both pass every gate.  The first is accepted and
    written to the watch-later file; the dedup gate of the second still
    consults the titles read before the loop, so the second is accepted
    too and the title is stored twice.  Against the file as it stands
    after the first acceptance the dedup gate would have rejected it. *)
Theorem same_title_accepted_twice :
  let first := Samples.film "tt1" "Heat" "2015" "Drama" in
  let second := Samples.film "tt2" "Heat" "2016" "Drama" in
  let ratings := [Samples.rated "tt1" "8.0" "100000";
                  Samples.rated "tt2" "8.0" "100000"] in
  let run := recommend_based_on_preferences
               Samples.any_review Samples.mostly_joy
               Samples.drama_joy_new [first; second] ratings
               Samples.fresh in
  fst run = Ok ["Heat"; "Heat"]
  /\ watch_later_txt (fs (snd run)) = Some "Heat,Heat"
  /\ fetches (log (snd run)) = [movie_url first; movie_url second]
  /\ dedup_gate [] (map lower ["Heat"]) second = false.
Proof. vm_compute. repeat split. Qed.

End EngineFacts.

(* ================================================================== *)
(** * Strings: stripping, splitting, joining, deleting *)
(* ================================================================== *)

Module StrFacts.
Import PyStr Spec.

Local Notation "a +++ b" := (String.append a b)
  (at level 60, right associativity).

Lemma append_nil_r (a : string) : a +++ "" = a.
Proof. induction a as [|c a IH]; simpl; [|rewrite IH]; reflexivity. Qed.

Lemma append_assoc (a b c : string) : (a +++ b) +++ c = a +++ (b +++ c).
Proof. induction a as [|x a IH]; simpl; [|rewrite IH]; reflexivity. Qed.

Lemma has_char_cons (c d : ascii) (s : string) :
  has_char c (String d s) = Ascii.eqb d c || has_char c s.
Proof. reflexivity. Qed.

Lemma has_char_app (c : ascii) (a b : string) :
  has_char c (a +++ b) = has_char c a || has_char c b.
Proof.
  induction a as [|x a IH]; simpl; [reflexivity|].
  rewrite IH, orb_assoc. reflexivity.
Qed.

(** ** Lengths under stripping *)

Lemma lstrip_length (s : string) :
  (String.length (lstrip s) <= String.length s)%nat.
Proof.
  induction s as [|c s IH]; simpl; [lia|].
  destruct (is_space c); simpl; lia.
Qed.

Lemma rstrip_length (s : string) :
  (String.length (rstrip s) <= String.length s)%nat.
Proof.
  induction s as [|c s IH]; simpl; [lia|].
  destruct (rstrip s); [destruct (is_space c)|]; simpl in *; lia.
Qed.

Lemma lstrip_same_length (s : string) :
  String.length (lstrip s) = String.length s -> lstrip s = s.
Proof.
  destruct s as [|c s]; simpl; [reflexivity|].
  destruct (is_space c); [|reflexivity].
  intros H. pose proof (lstrip_length s). lia.
Qed.

Lemma rstrip_same_length (s : string) :
  String.length (rstrip s) = String.length s -> rstrip s = s.
Proof.
  induction s as [|c s IH]; simpl; [reflexivity|].
  pose proof (rstrip_length s) as L.
  destruct (rstrip s) as [|d r] eqn:E.
  - destruct (is_space c); simpl; intros H.
    + lia.
    + simpl in L. destruct s; [reflexivity|]. simpl in H. lia.
  - simpl. intros H. rewrite IH; [reflexivity|]. simpl in *. lia.
Qed.

(** No white space at the ends, seen from each end. *)
Lemma strip_fixed (s : string) :
  strip s = s -> lstrip s = s /\ rstrip s = s.
Proof.
  unfold strip. intros H.
  pose proof (lstrip_length s) as L1.
  pose proof (rstrip_length (lstrip s)) as L2.
  assert (E : lstrip s = s).
  { apply lstrip_same_length. rewrite H in L2. lia. }
  split; [exact E|]. rewrite E in H. exact H.
Qed.

Lemma strip_of_fixed (s : string) :
  lstrip s = s -> rstrip s = s -> strip s = s.
Proof. unfold strip. intros -> ->. reflexivity. Qed.

(** ** Stripping a concatenation *)

Lemma lstrip_app (a b : string) :
  truthy a = true -> lstrip a = a -> lstrip (a +++ b) = a +++ b.
Proof.
  destruct a as [|c a]; [discriminate|]. simpl. intros _.
  destruct (is_space c) eqn:E; [|reflexivity].
  intros H. pose proof (lstrip_length a) as L.
  apply (f_equal String.length) in H. simpl in H. lia.
Qed.

Lemma rstrip_app (a b : string) :
  truthy b = true -> rstrip b = b -> rstrip (a +++ b) = a +++ b.
Proof.
  intros T H. induction a as [|c a IH]; simpl; [exact H|].
  rewrite IH. destruct (a +++ b) eqn:E; [|reflexivity].
  destruct a; [|discriminate]. simpl in E. subst b. discriminate.
Qed.

Lemma rstrip_space_end (a : string) (c : ascii) :
  is_space c = true -> rstrip (a +++ String c "") = rstrip a.
Proof.
  intros Hc. induction a as [|x a IH]; simpl.
  - rewrite Hc. reflexivity.
  - rewrite IH. reflexivity.
Qed.

(** ** Lines *)

Lemma universal_newlines_id (s : string) :
  has_char "013" s = false -> universal_newlines s = s.
Proof.
  induction s as [|c s IH]; simpl; [reflexivity|].
  intros H. apply orb_false_iff in H. destruct H as [Hc Hs].
  rewrite Hc, (IH Hs). reflexivity.
Qed.

Lemma lines_cons (a rest : string) :
  has_char "010" a = false ->
  lines (a +++ String "010" rest) = (a +++ String "010" "") :: lines rest.
Proof.
  induction a as [|c a IH]; simpl; [reflexivity|].
  intros H. apply orb_false_iff in H. destruct H as [Hc Ha].
  rewrite Hc, (IH Ha). reflexivity.
Qed.

(** ** Splitting what was joined *)

Lemma split_plain (a : string) :
  has_char "," a = false -> split "," a = [a].
Proof.
  induction a as [|c a IH]; simpl; [reflexivity|].
  intros H. apply orb_false_iff in H. destruct H as [Hc Ha].
  rewrite Hc, (IH Ha). reflexivity.
Qed.

Lemma split_app_comma (a rest : string) :
  has_char "," a = false ->
  split "," (a +++ String "," rest) = a :: split "," rest.
Proof.
  induction a as [|c a IH]; simpl; [reflexivity|].
  intros H. apply orb_false_iff in H. destruct H as [Hc Ha].
  rewrite Hc, (IH Ha). reflexivity.
Qed.

Lemma join_cons (g : string) (gs : list string) :
  gs <> [] -> join "," (g :: gs) = g +++ String "," (join "," gs).
Proof. destruct gs; [contradiction|reflexivity]. Qed.

Lemma split_join (gs : list string) :
  gs <> [] -> Forall (fun g => has_char "," g = false) gs ->
  split "," (join "," gs) = gs.
Proof.
  induction gs as [|g gs IH]; [contradiction|]. intros _ H.
  inversion H as [|? ? Hg Hgs]; subst.
  destruct gs as [|g' gs'].
  - simpl. apply split_plain, Hg.
  - rewrite join_cons by discriminate.
    rewrite split_app_comma by exact Hg.
    rewrite IH; [reflexivity|discriminate|exact Hgs].
Qed.

Lemma has_char_join (c : ascii) (gs : list string) :
  Ascii.eqb ","%char c = false ->
  Forall (fun g => has_char c g = false) gs ->
  has_char c (join "," gs) = false.
Proof.
  intros Hc. induction gs as [|g gs IH]; intros H; [reflexivity|].
  inversion H as [|? ? Hg Hgs]; subst.
  destruct gs as [|g' gs']; [exact Hg|].
  rewrite join_cons by discriminate.
  rewrite has_char_app, Hg, has_char_cons, Hc. apply IH, Hgs.
Qed.

(** Joined items without white space at their ends have none at the
    ends of the whole. *)
Lemma strip_join (gs : list string) :
  Forall (fun g => truthy g = true /\ strip g = g) gs ->
  strip (join "," gs) = join "," gs.
Proof.
  intros H.
  assert (L : lstrip (join "," gs) = join "," gs).
  { destruct gs as [|g gs]; [reflexivity|].
    inversion H as [|? ? [Tg Sg] _]; subst.
    destruct gs as [|g' gs']; [apply strip_fixed, Sg|].
    rewrite join_cons by discriminate.
    apply lstrip_app; [exact Tg|apply strip_fixed, Sg]. }
  assert (R : rstrip (join "," gs) = join "," gs
              /\ (gs <> [] -> truthy (join "," gs) = true)).
  { induction gs as [|g gs IH]; [split; [reflexivity|contradiction]|].
    inversion H as [|? ? [Tg Sg] Hgs]; subst.
    destruct gs as [|g' gs'].
    - split; [apply strip_fixed, Sg|intros _; exact Tg].
    - rewrite join_cons by discriminate.
      assert (L' : lstrip (join "," (g' :: gs')) = join "," (g' :: gs')).
      { inversion Hgs as [|? ? [Tg' Sg'] _]; subst.
        destruct gs' as [|g'' gs'']; [apply strip_fixed, Sg'|].
        rewrite join_cons by discriminate.
        apply lstrip_app; [exact Tg'|apply strip_fixed, Sg']. }
      destruct (IH Hgs L') as [R' T'].
      split.
      + change (g +++ String "," (join "," (g' :: gs')))
          with (g +++ ("," +++ join "," (g' :: gs'))).
        rewrite <- append_assoc. apply rstrip_app.
        * apply T'. discriminate.
        * exact R'.
      + intros _. destruct g; [discriminate|reflexivity]. }
  apply strip_of_fixed; [exact L|apply R].
Qed.

(** ** Deleting a label *)

Lemma startswith_cons (x o : ascii) (s old : string) :
  startswith (String x s) (String o old)
  = Ascii.eqb o x && startswith s old.
Proof. reflexivity. Qed.

Lemma startswith_app (a b old : string) (c : ascii) :
  startswith (a +++ String c b) old = true ->
  startswith a old = true \/ has_char c old = true.
Proof.
  revert old. induction a as [|x a IH]; intros old.
  - destruct old as [|o old]; [left; reflexivity|].
    change ("" +++ String c b) with (String c b).
    rewrite startswith_cons, has_char_cons.
    intros H. apply andb_true_iff in H. destruct H as [H _].
    right. rewrite H. reflexivity.
  - destruct old as [|o old]; [left; reflexivity|].
    change (String x a +++ String c b) with (String x (a +++ String c b)).
    rewrite !startswith_cons, has_char_cons.
    intros H. apply andb_true_iff in H. destruct H as [Ho H].
    destruct (IH old H) as [H'|H'].
    + left. rewrite Ho, H'. reflexivity.
    + right. rewrite H'. apply orb_true_r.
Qed.

Lemma contains_cons (x : ascii) (s old : string) :
  contains (String x s) old = startswith (String x s) old || contains s old.
Proof. reflexivity. Qed.

Lemma contains_app (a b old : string) (c : ascii) :
  truthy old = true -> has_char c old = false ->
  contains a old = false -> contains b old = false ->
  contains (a +++ String c b) old = false.
Proof.
  intros T Hc Ha Hb. induction a as [|x a IH].
  - change ("" +++ String c b) with (String c b).
    rewrite contains_cons, Hb, orb_false_r.
    destruct old as [|o old]; [discriminate|].
    rewrite startswith_cons. rewrite has_char_cons in Hc.
    apply orb_false_iff in Hc. destruct Hc as [Hc _].
    rewrite Hc. reflexivity.
  - rewrite contains_cons in Ha.
    apply orb_false_iff in Ha. destruct Ha as [Hs Ha].
    change (String x a +++ String c b) with (String x (a +++ String c b)).
    rewrite contains_cons, (IH Ha), orb_false_r.
    destruct (startswith (String x (a +++ String c b)) old) eqn:E;
      [|reflexivity].
    destruct (startswith_app (String x a) b old c E) as [H|H]; congruence.
Qed.

Lemma contains_join (old : string) (gs : list string) :
  truthy old = true -> has_char "," old = false ->
  Forall (fun g => contains g old = false) gs ->
  contains (join "," gs) old = false.
Proof.
  intros T Hc. induction gs as [|g gs IH]; intros H.
  - simpl. destruct old; [discriminate|reflexivity].
  - inversion H as [|? ? Hg Hgs]; subst.
    destruct gs as [|g' gs']; [exact Hg|].
    rewrite join_cons by discriminate.
    apply contains_app; [exact T|exact Hc|exact Hg|apply IH, Hgs].
Qed.

Lemma remove_all_absent (old s : string) :
  contains s old = false -> remove_all old s = s.
Proof.
  unfold remove_all. induction s as [|c s IH]; [reflexivity|].
  intros H. rewrite contains_cons in H.
  apply orb_false_iff in H. destruct H as [Hs Hc].
  change (remove_from 0 old (String c s))
    with (if startswith (String c s) old
          then remove_from (pred (String.length old)) old s
          else String c (remove_from 0 old s)).
  rewrite Hs, (IH Hc). reflexivity.
Qed.

End StrFacts.

(* ================================================================== *)
(** * Preferences written and read back *)
(* ================================================================== *)

Module PreferenceFacts.
Import PyStr Runtime Store Spec StrFacts.

Local Notation "a +++ b" := (String.append a b)
  (at level 60, right associativity).

(** A line of the file without its terminator and outer blanks. *)
Lemma strip_labelled_line (label items : string) :
  truthy label = true -> lstrip label = label -> rstrip label = label ->
  strip items = items ->
  strip ((label +++ items) +++ String "010" "") = label +++ items.
Proof.
  intros T L R S. unfold strip.
  rewrite append_assoc, (lstrip_app label _ T L), <- append_assoc.
  rewrite rstrip_space_end by reflexivity.
  destruct items as [|c items].
  - rewrite append_nil_r. exact R.
  - apply rstrip_app; [reflexivity|apply strip_fixed, S].
Qed.

(** Items that are not empty and have no outer blanks survive the
    filter and the stripping of the reader. *)
Lemma keep_all (gs : list string) :
  Forall (fun g => truthy g = true /\ strip g = g) gs ->
  map strip (filter (fun g => truthy (strip g)) gs) = gs.
Proof.
  induction gs as [|g gs IH]; intros H; [reflexivity|].
  inversion H as [|? ? [Tg Sg] Hgs]; subst.
  simpl. rewrite Sg, Tg. simpl. rewrite Sg, (IH Hgs). reflexivity.
Qed.

(** The items of a line come back from the text after its label. *)
Lemma items_back (label : string) (gs : list string) :
  truthy label = true -> has_char "," label = false ->
  Forall (storable_item label) gs ->
  strip (join "," gs) = join "," gs
  /\ remove_all label (join "," gs) = join "," gs
  /\ map strip (filter (fun g => truthy (strip g)) (split "," (join "," gs)))
     = gs.
Proof.
  intros T C H.
  assert (S : strip (join "," gs) = join "," gs).
  { apply strip_join. eapply Forall_impl; [|exact H].
    intros g [[Tg [_ Sg]] _]. split; assumption. }
  split; [exact S|]. split.
  - apply remove_all_absent, contains_join; [exact T|exact C|].
    eapply Forall_impl; [|exact H]. intros g [_ [_ [_ Hg]]]. exact Hg.
  - destruct gs as [|g gs]; [reflexivity|].
    rewrite split_join; [|discriminate|].
    + apply keep_all. eapply Forall_impl; [|exact H].
      intros g0 [[Tg [_ Sg]] _]. split; assumption.
    + eapply Forall_impl; [|exact H]. intros g0 [[_ [Cg _]] _]. exact Cg.
Qed.

Lemma genres_line (q : preferences) (gs : list string) :
  Forall (storable_item "Genres:") gs ->
  preferences_line q (("Genres:" +++ join "," gs) +++ String "010" "")
  = {| Genres := gs; Emotions := Emotions q; Year := Year q |}.
Proof.
  intros H.
  destruct (items_back "Genres:" gs eq_refl eq_refl H) as [S [R B]].
  unfold preferences_line.
  rewrite (strip_labelled_line "Genres:" _ eq_refl eq_refl eq_refl S).
  change (startswith ("Genres:" +++ join "," gs) "Genres:") with true.
  cbv iota.
  change (remove_all "Genres:" ("Genres:" +++ join "," gs))
    with (remove_all "Genres:" (join "," gs)).
  rewrite R, S, B. reflexivity.
Qed.

Lemma emotions_line (q : preferences) (es : list string) :
  Forall (storable_item "Emotions:") es ->
  preferences_line q (("Emotions:" +++ join "," es) +++ String "010" "")
  = {| Genres := Genres q; Emotions := es; Year := Year q |}.
Proof.
  intros H.
  destruct (items_back "Emotions:" es eq_refl eq_refl H) as [S [R B]].
  unfold preferences_line.
  rewrite (strip_labelled_line "Emotions:" _ eq_refl eq_refl eq_refl S).
  change (startswith ("Emotions:" +++ join "," es) "Genres:") with false.
  change (startswith ("Emotions:" +++ join "," es) "Emotions:") with true.
  cbv iota.
  change (remove_all "Emotions:" ("Emotions:" +++ join "," es))
    with (remove_all "Emotions:" (join "," es)).
  rewrite R, S, B. reflexivity.
Qed.

Lemma year_line (q : preferences) (y : string) :
  valid_band y ->
  preferences_line q (("Year:" +++ y) +++ String "010" "")
  = {| Genres := Genres q; Emotions := Emotions q; Year := y |}.
Proof.
  intros [<-|[<-|[<-|[<-|[<-|[<-|[]]]]]]]; reflexivity.
Qed.

Lemma valid_band_chars (y : string) :
  valid_band y -> has_char "010" y = false /\ has_char "013" y = false.
Proof.
  intros [<-|[<-|[<-|[<-|[<-|[<-|[]]]]]]]; split; reflexivity.
Qed.

(** The file as three lines. *)
Lemma preferences_text_lines (p : preferences) :
  preferences_text p
  = ("Genres:" +++ join "," (Genres p))
    +++ String "010"
          (("Emotions:" +++ join "," (Emotions p))
           +++ String "010" (("Year:" +++ Year p) +++ String "010" "")).
Proof.
  unfold preferences_text, LF. rewrite !append_assoc. reflexivity.
Qed.

Lemma no_char_in_text (c : ascii) (p : preferences) :
  has_char c "Genres:" = false -> has_char c "Emotions:" = false ->
  has_char c "Year:" = false -> Ascii.eqb ","%char c = false ->
  Forall (fun g => has_char c g = false) (Genres p) ->
  Forall (fun g => has_char c g = false) (Emotions p) ->
  has_char c (Year p) = false ->
  has_char c ("Genres:" +++ join "," (Genres p)) = false
  /\ has_char c ("Emotions:" +++ join "," (Emotions p)) = false
  /\ has_char c ("Year:" +++ Year p) = false.
Proof.
  intros Hg He Hy Hc Fg Fe Y.
  rewrite !has_char_app, Hg, He, Hy, Y.
  rewrite (has_char_join c _ Hc Fg), (has_char_join c _ Hc Fe).
  repeat split.
Qed.

(** C7, as the code has it.  Preferences whose genres and emotions are
    non-empty, free of commas, of line breaks and of outer white space,
    with no genre containing the text "Genres:" and no emotion containing
    "Emotions:", and with a valid band, are read back exactly as they
    were written, whatever the number of genres and emotions. *)
Theorem preferences_round_trip (p : preferences) (w : world) :
  Forall (storable_item "Genres:") (Genres p) ->
  Forall (storable_item "Emotions:") (Emotions p) ->
  valid_band (Year p) ->
  fst (save_then_load p w) = Ok p.
Proof.
  intros Hg He Hy.
  destruct (valid_band_chars _ Hy) as [Ylf Ycr].
  assert (LFs : forall label gs, Forall (storable_item label) gs ->
                  Forall (fun g => has_char "010" g = false) gs).
  { intros label gs H. eapply Forall_impl; [|exact H].
    intros g [_ [L _]]. exact L. }
  assert (CRs : forall label gs, Forall (storable_item label) gs ->
                  Forall (fun g => has_char "013" g = false) gs).
  { intros label gs H. eapply Forall_impl; [|exact H].
    intros g [_ [_ [C _]]]. exact C. }
  destruct (no_char_in_text "010" p eq_refl eq_refl eq_refl eq_refl
              (LFs _ _ Hg) (LFs _ _ He) Ylf) as [L1 [L2 L3]].
  destruct (no_char_in_text "013" p eq_refl eq_refl eq_refl eq_refl
              (CRs _ _ Hg) (CRs _ _ He) Ycr) as [C1 [C2 C3]].
  unfold save_then_load, write_preferences, read_preferences, bind,
    write_text, path_exists, read_text, ret, file_get, file_set.
  cbn [fs preferences_txt fst].
  rewrite universal_newlines_id.
  - rewrite preferences_text_lines.
    rewrite (lines_cons _ _ L1), (lines_cons _ _ L2), (lines_cons _ _ L3).
    cbn [fold_left].
    rewrite (genres_line _ _ Hg), (emotions_line _ _ He), (year_line _ _ Hy).
    destruct p. reflexivity.
  - rewrite preferences_text_lines.
    rewrite has_char_app, C1, has_char_cons, has_char_app, C2,
      has_char_cons, has_char_app, C3.
    reflexivity.
Qed.

Lemma preferences_round_trip_witness :
  fst (save_then_load
         {| Genres := ["Drama"; "Sci-Fi"; "Film Noir"];
            Emotions := ["joy"; "sadness"]; Year := "very new" |}
         Samples.fresh)
  = Ok {| Genres := ["Drama"; "Sci-Fi"; "Film Noir"];
          Emotions := ["joy"; "sadness"]; Year := "very new" |}.
Proof.
  apply preferences_round_trip.
  - repeat constructor.
  - repeat constructor.
  - right. right. right. left. reflexivity.
Defined.

(** The claim as written fails.  A genre may hold a line break inside
    and still be non-empty, free of commas and of outer white space; the
    reader then sees two lines and keeps the first part only.  A genre
    that contains the label of its line loses it to [replace]. *)
Lemma preferences_round_trip_fails :
  let broken := ("Film" +++ String "010" "Noir") in
  let p := {| Genres := [broken]; Emotions := ["joy"]; Year := "new" |} in
  let q := {| Genres := ["Genres:Drama"]; Emotions := ["joy"];
              Year := "new" |} in
  (List.length (Genres p) <= 3)%nat /\ (List.length (Emotions p) <= 3)%nat
  /\ Forall claimed_item (Genres p) /\ Forall claimed_item (Emotions p)
  /\ valid_band (Year p)
  /\ fst (save_then_load p Samples.fresh)
     = Ok {| Genres := ["Film"]; Emotions := ["joy"]; Year := "new" |}
  /\ fst (save_then_load p Samples.fresh) <> Ok p
  /\ Forall claimed_item (Genres q)
  /\ fst (save_then_load q Samples.fresh)
     = Ok {| Genres := ["Drama"]; Emotions := ["joy"]; Year := "new" |}.
Proof.
  repeat apply conj; try (simpl; lia); try (repeat constructor; fail).
  vm_compute. discriminate.
Qed.

End PreferenceFacts.

(* ================================================================== *)
(** * One element before another *)
(* ================================================================== *)

Module OrderFacts.
Import PySort.

Section Precedes.
Context {A : Type}.
Implicit Types (a b x : A) (l : list A).

Lemma precedes_nil a b : ~ precedes a b [].
Proof.
  intros [l1 [l2 [l3 E]]]. destruct l1; discriminate E.
Qed.

Lemma precedes_cons a b x l :
  precedes a b (x :: l) <-> (x = a /\ In b l) \/ precedes a b l.
Proof.
  split.
  - intros [l1 [l2 [l3 E]]]. destruct l1 as [|y l1]; simpl in E.
    + injection E as -> ->. left. split; [reflexivity|].
      apply in_or_app. right. left. reflexivity.
    + injection E as -> ->. right. exists l1, l2, l3. reflexivity.
  - intros [[-> H]|[l1 [l2 [l3 ->]]]].
    + destruct (in_split _ _ H) as [l2 [l3 ->]]. exists [], l2, l3.
      reflexivity.
    + exists (x :: l1), l2, l3. reflexivity.
Qed.

Lemma precedes_app a b l1 l2 :
  precedes a b (l1 ++ l2) <->
  precedes a b l1 \/ precedes a b l2 \/ (In a l1 /\ In b l2).
Proof.
  induction l1 as [|x l1 IH]; simpl.
  - split; [intros H; right; left; exact H|].
    intros [H|[H|[[] _]]]; [destruct (precedes_nil _ _ H)|exact H].
  - rewrite !precedes_cons, IH, in_app_iff. intuition (subst; auto).
Qed.

Lemma precedes_in a b l : precedes a b l -> In a l /\ In b l.
Proof.
  intros [l1 [l2 [l3 ->]]]. split.
  - apply in_or_app. right. left. reflexivity.
  - apply in_or_app. right. right. apply in_or_app. right. left.
    reflexivity.
Qed.

Lemma precedes_firstn a b n l : precedes a b (firstn n l) -> precedes a b l.
Proof.
  intros H. rewrite <- (firstn_skipn n l). apply precedes_app. left. exact H.
Qed.

End Precedes.

Lemma precedes_map {A B : Type} (f : A -> B) (a b : A) (l : list A) :
  precedes a b l -> precedes (f a) (f b) (map f l).
Proof.
  intros [l1 [l2 [l3 ->]]]. exists (map f l1), (map f l2), (map f l3).
  rewrite map_app. simpl. rewrite map_app. reflexivity.
Qed.

Lemma precedes_map_inv {A B : Type} (f : A -> B) (x y : B) (l : list A) :
  precedes x y (map f l) ->
  exists a b, f a = x /\ f b = y /\ precedes a b l.
Proof.
  induction l as [|c l IH]; simpl.
  - intros H. destruct (precedes_nil _ _ H).
  - rewrite precedes_cons. intros [[E H]|H].
    + apply in_map_iff in H. destruct H as [b [Eb Hb]].
      exists c, b. repeat split; try assumption.
      apply precedes_cons. left. split; [reflexivity|exact Hb].
    + destruct (IH H) as [a [b [Ea [Eb P]]]]. exists a, b.
      repeat split; try assumption. apply precedes_cons. right. exact P.
Qed.

Lemma Forall_permuted {A : Type} (P : A -> Prop) (l l' : list A) :
  Permutation l l' -> Forall P l -> Forall P l'.
Proof.
  intros Hp H. rewrite Forall_forall in *. intros x Hx. apply H.
  apply (Permutation_in _ (Permutation_sym Hp)), Hx.
Qed.

(** The first occurrence of an element. *)
Lemma in_split_first (x : string) (l : list string) :
  In x l -> exists l1 l2, l = l1 ++ x :: l2 /\ ~ In x l1.
Proof.
  induction l as [|y l IH]; [intros []|].
  destruct (string_dec y x) as [->|Hne].
  - intros _. exists [], l. split; [reflexivity|intros []].
  - intros [E|H]; [contradiction|].
    destruct (IH H) as [l1 [l2 [-> N]]]. exists (y :: l1), l2.
    split; [reflexivity|]. intros [E|I]; [contradiction|]. apply N, I.
Qed.

End OrderFacts.

(* ================================================================== *)
(** * The stable descending sort *)
(* ================================================================== *)

Module SortFacts.
Import PySort OrderFacts.

Section Sort.
Context {A K : Type}.
Variable key : A -> K.
Variable lt : K -> K -> bool.

(** The keys on which [lt] is a strict weak order. *)
Variable ok : K -> Prop.
Hypothesis lt_irrefl : forall a, ok a -> lt a a = false.
Hypothesis lt_trans :
  forall a b c, ok a -> ok b -> ok c ->
                lt a b = true -> lt b c = true -> lt a c = true.
Hypothesis lt_negtrans :
  forall a b c, ok a -> ok b -> ok c ->
                lt a b = false -> lt b c = false -> lt a c = false.

Let insert := insert_desc key lt.
Let sorted := sorted_reverse key lt.
Let not_below (a b : A) : Prop := lt (key a) (key b) = false.
Let all_ok (l : list A) : Prop := Forall (fun x => ok (key x)) l.

Lemma lt_asym (a b : K) : ok a -> ok b -> lt a b = true -> lt b a = false.
Proof.
  intros Ha Hb H. destruct (lt b a) eqn:E; [|reflexivity].
  rewrite <- (lt_irrefl a Ha). symmetry.
  apply (lt_trans a b a); assumption.
Qed.

Lemma insert_desc_perm (x : A) (l : list A) :
  Permutation (insert x l) (x :: l).
Proof.
  unfold insert. induction l as [|y l IH]; simpl; [reflexivity|].
  destruct (lt (key x) (key y)); [|reflexivity].
  rewrite IH. apply perm_swap.
Qed.

Lemma sorted_reverse_perm (l : list A) : Permutation (sorted l) l.
Proof.
  unfold sorted. induction l as [|x l IH]; simpl; [reflexivity|].
  fold insert. rewrite insert_desc_perm, IH. reflexivity.
Qed.

(** Where the new element lands: after the elements above it, before
    the first that is not. *)
Lemma insert_desc_split (x : A) (l : list A) :
  exists l1 l2,
    l = l1 ++ l2 /\ insert x l = l1 ++ x :: l2
    /\ Forall (fun y => lt (key x) (key y) = true) l1
    /\ match l2 with
       | [] => True
       | z :: _ => lt (key x) (key z) = false
       end.
Proof.
  unfold insert. induction l as [|y l IH]; simpl.
  - exists [], []. repeat split. constructor.
  - destruct (lt (key x) (key y)) eqn:E.
    + destruct IH as [l1 [l2 [-> [-> [F T]]]]].
      exists (y :: l1), l2. repeat split; [|exact T].
      constructor; assumption.
    + exists [], (y :: l). repeat split; [constructor|exact E].
Qed.

Lemma sorted_tail (R : A -> A -> Prop) (l1 l2 : list A) (z : A) :
  StronglySorted R (l1 ++ z :: l2) -> Forall (R z) l2.
Proof.
  induction l1 as [|y l1 IH]; simpl; intros H;
    apply StronglySorted_inv in H; destruct H as [H F].
  - exact F.
  - apply IH, H.
Qed.

Lemma insert_desc_sorted (x : A) (l : list A) :
  ok (key x) -> all_ok l ->
  StronglySorted not_below l -> StronglySorted not_below (insert x l).
Proof.
  unfold insert. intros Hx. induction l as [|y l IH]; simpl; intros Hok S.
  - repeat constructor.
  - apply StronglySorted_inv in S. destruct S as [S F].
    inversion Hok as [|? ? Hy Hl]; subst.
    destruct (lt (key x) (key y)) eqn:E.
    + constructor; [apply IH; assumption|].
      apply (Forall_permuted _ (x :: l));
        [symmetry; apply insert_desc_perm|].
      constructor; [|exact F]. apply lt_asym; assumption.
    + constructor; [constructor; assumption|].
      constructor; [exact E|].
      rewrite Forall_forall in *. intros z Hz.
      apply (lt_negtrans _ (key y)); auto.
      apply (F z Hz).
Qed.

Lemma all_ok_sorted (l : list A) : all_ok l -> all_ok (sorted l).
Proof.
  intros H. apply (Forall_permuted _ l); [|exact H].
  symmetry. apply sorted_reverse_perm.
Qed.

Lemma sorted_reverse_sorted (l : list A) :
  all_ok l -> StronglySorted not_below (sorted l).
Proof.
  unfold sorted. induction l as [|x l IH]; simpl; intros H.
  - constructor.
  - inversion H; subst. apply insert_desc_sorted; auto.
    apply all_ok_sorted. assumption.
Qed.

(** Putting [x] in front of the sort of what follows it in the input,
    and which pairs are then in order. *)
Lemma insert_desc_precedes (x : A) (l : list A) (a b : A) :
  ok (key x) -> all_ok l -> StronglySorted not_below l ->
  precedes a b (insert x l) ->
  precedes a b l
  \/ (a = x /\ In b l /\ lt (key x) (key b) = false)
  \/ (b = x /\ In a l /\ lt (key x) (key a) = true).
Proof.
  intros Hx Hok S. unfold all_ok in Hok.
  destruct (insert_desc_split x l) as [l1 [l2 [El [Ei [F T]]]]].
  rewrite Ei, El. rewrite !precedes_app, precedes_cons.
  intros [H|[[[<- H]|H]|[Ha [<-|Hb]]]].
  - left. left. exact H.
  - right. left. split; [reflexivity|]. split;
      [apply in_or_app; right; exact H|].
    destruct l2 as [|z l2]; [destruct H|].
    destruct H as [<-|H]; [exact T|].
    rewrite El in S. apply sorted_tail in S.
    rewrite Forall_forall in S. specialize (S b H).
    subst l. rewrite Forall_forall in Hok.
    apply (lt_negtrans _ (key z)); auto.
    + apply Hok. apply in_or_app. right. left. reflexivity.
    + apply Hok. apply in_or_app. right. right. exact H.
  - left. right. left. exact H.
  - right. right. split; [reflexivity|]. split;
      [apply in_or_app; left; exact Ha|].
    rewrite Forall_forall in F. apply F, Ha.
  - left. right. right. split; assumption.
Qed.

(** Stability: in the output an element stands before another only if
    its key is greater, or the keys tie and it stood before the other in
    the input. *)
Lemma sorted_reverse_stable (l : list A) (a b : A) :
  all_ok l -> precedes a b (sorted l) ->
  lt (key b) (key a) = true
  \/ (lt (key a) (key b) = false /\ lt (key b) (key a) = false
      /\ precedes a b l).
Proof.
  unfold sorted. revert a b.
  induction l as [|x l IH]; simpl; intros a b Hok H.
  - destruct (precedes_nil _ _ H).
  - inversion Hok as [|? ? Hx Hl]; subst.
    apply insert_desc_precedes in H;
      [|exact Hx|apply all_ok_sorted, Hl|apply sorted_reverse_sorted, Hl].
    destruct H as [H|[[-> [Hb E]]|[-> [Ha E]]]].
    + destruct (IH a b Hl H) as [G|[E1 [E2 P]]]; [left; exact G|].
      right. repeat split; try assumption.
      apply precedes_cons. right. exact P.
    + destruct (lt (key b) (key x)) eqn:G; [left; reflexivity|].
      right. repeat split; try assumption.
      apply precedes_cons. left. split; [reflexivity|].
      apply (Permutation_in _ (sorted_reverse_perm l)), Hb.
    + left. exact E.
Qed.

End Sort.
End SortFacts.

(* ================================================================== *)
(** * Tallies: key order and totals *)
(* ================================================================== *)

Module TallyFacts.
Import PyStr PyDict PySort Spec OrderFacts DictFacts.

Section Tally.
Context {V : Type}.
Variable add : V -> V -> V.
Variable zero : V.

Let tally := @tally V add zero.
Let total := @total V add zero.

Lemma tally_snoc (kvs : list (string * V)) (kv : string * V) :
  tally (kvs ++ [kv]) = tally_step add zero (tally kvs) kv.
Proof. unfold tally, Spec.tally. rewrite fold_left_app. reflexivity. Qed.

Lemma total_snoc (k : string) (kvs : list (string * V)) (kv : string * V) :
  total k (kvs ++ [kv])
  = if String.eqb (fst kv) k then add (total k kvs) (snd kv)
    else total k kvs.
Proof. unfold total, Spec.total. rewrite fold_left_app. reflexivity. Qed.

Lemma keys_tally_snoc (kvs : list (string * V)) (kv : string * V) :
  keys (tally (kvs ++ [kv]))
  = if mem (fst kv) (keys (tally kvs)) then keys (tally kvs)
    else keys (tally kvs) ++ [fst kv].
Proof. rewrite tally_snoc. unfold tally_step. apply keys_set. Qed.

Lemma keys_tally_nodup (kvs : list (string * V)) : NoDup (keys (tally kvs)).
Proof.
  induction kvs as [|kv kvs IH] using rev_ind; [constructor|].
  rewrite tally_snoc. unfold tally_step. apply keys_set_nodup, IH.
Qed.

Lemma keys_tally_in (kvs : list (string * V)) (k : string) :
  In k (keys (tally kvs)) <-> In k (map fst kvs).
Proof.
  revert k. induction kvs as [|kv kvs IH] using rev_ind; intros k;
    [reflexivity|].
  rewrite keys_tally_snoc, map_app, in_app_iff. simpl.
  destruct (mem (fst kv) (keys (tally kvs))) eqn:E.
  - apply mem_true_iff, IH in E. rewrite IH.
    split; [intros H; left; exact H|].
    intros [H|[<-|[]]]; assumption.
  - rewrite in_app_iff, IH. simpl. reflexivity.
Qed.

(** The keys stand in the order in which they were first seen. *)
Lemma keys_tally_order (kvs : list (string * V)) (k1 k2 : string) :
  precedes k1 k2 (keys (tally kvs)) ->
  first_seen_before k1 k2 (map fst kvs).
Proof.
  induction kvs as [|kv kvs IH] using rev_ind.
  - intros H. destruct (precedes_nil _ _ H).
  - rewrite keys_tally_snoc, map_app. simpl.
    assert (Extend : first_seen_before k1 k2 (map fst kvs) ->
                     first_seen_before k1 k2 (map fst kvs ++ [fst kv])).
    { intros [l1 [l2 [E [N1 N2]]]]. exists l1, (l2 ++ [fst kv]).
      rewrite E, <- app_assoc. repeat split; assumption. }
    destruct (mem (fst kv) (keys (tally kvs))) eqn:E.
    + intros H. apply Extend, IH, H.
    + rewrite precedes_app.
      intros [H|[H|[H1 [<-|[]]]]].
      * apply Extend, IH, H.
      * apply precedes_cons in H. destruct H as [[_ []]|H].
        destruct (precedes_nil _ _ H).
      * assert (N : ~ In (fst kv) (map fst kvs)).
        { rewrite <- (keys_tally_in kvs). intros C.
          apply mem_true_iff in C. congruence. }
        apply (proj1 (keys_tally_in kvs k1)) in H1.
        destruct (in_split_first _ _ H1) as [l1 [l2 [E1 N1]]].
        exists l1, (l2 ++ [fst kv]). rewrite E1, <- app_assoc.
        repeat split; [exact N1|].
        intros C. apply N. rewrite E1. apply in_or_app. left. exact C.
Qed.

Lemma total_absent (k : string) (kvs : list (string * V)) :
  ~ In k (map fst kvs) -> total k kvs = zero.
Proof.
  induction kvs as [|kv kvs IH] using rev_ind; [reflexivity|].
  rewrite map_app, in_app_iff, total_snoc. simpl. intros N.
  destruct (String.eqb_spec (fst kv) k) as [E|_].
  - exfalso. apply N. right. left. exact E.
  - apply IH. intros C. apply N. left. exact C.
Qed.

(** What the dictionary holds for a key is the total of its pairs. *)
Lemma get_tally (kvs : list (string * V)) (k : string) (v : V) :
  get (tally kvs) k = Some v -> v = total k kvs.
Proof.
  revert v. induction kvs as [|kv kvs IH] using rev_ind; [discriminate|].
  intros v. rewrite tally_snoc, total_snoc. unfold tally_step.
  rewrite get_set. destruct (String.eqb_spec (fst kv) k) as [E|_].
  - intros H. injection H as <-. f_equal. unfold get_default.
    destruct (get (tally kvs) (fst kv)) as [v0|] eqn:G.
    + rewrite E in G. apply IH, G.
    + symmetry. apply total_absent. rewrite <- (keys_tally_in kvs).
      apply get_none_iff. rewrite <- E. exact G.
  - apply IH.
Qed.

End Tally.

(** A fold over a mapped list. *)
Lemma fold_left_mapped {A B C : Type} (f : A -> B -> A) (g : C -> B)
  (l : list C) (a : A) :
  fold_left f (map g l) a = fold_left (fun a x => f a (g x)) l a.
Proof.
  revert a. induction l as [|x l IH]; intros a; simpl; [reflexivity|].
  apply IH.
Qed.

End TallyFacts.

(* ================================================================== *)
(** * The three best of a dictionary *)
(* ================================================================== *)

Module RankingFacts.
Import PyStr PyDict PySort Spec OrderFacts DictFacts SortFacts.

Lemma get_of_in {V : Type} (d : dict V) (k : string) (v : V) :
  NoDup (keys d) -> In (k, v) d -> get d k = Some v.
Proof.
  unfold keys. induction d as [|[k0 v0] d IH]; simpl; [intros _ []|].
  intros N [E|H].
  - injection E as -> ->. rewrite String.eqb_refl. reflexivity.
  - inversion N as [|? ? N0 Nd]; subst.
    destruct (String.eqb_spec k0 k) as [->|_].
    + exfalso. apply N0. apply (in_map fst) in H. exact H.
    + apply IH; assumption.
Qed.

Lemma in_skipn_length {A : Type} (x : A) (n : nat) (l : list A) :
  In x (skipn n l) -> (n < List.length l)%nat.
Proof.
  intros H. destruct (Nat.lt_ge_cases n (List.length l)) as [L|L];
    [exact L|].
  rewrite skipn_all2 in H by exact L. destruct H.
Qed.

Section Ranking.
Context {V : Type}.
Variable lt : V -> V -> bool.
Variable ok : V -> Prop.
Hypothesis lt_irrefl : forall a, ok a -> lt a a = false.
Hypothesis lt_trans :
  forall a b c, ok a -> ok b -> ok c ->
                lt a b = true -> lt b c = true -> lt a c = true.
Hypothesis lt_negtrans :
  forall a b c, ok a -> ok b -> ok c ->
                lt a b = false -> lt b c = false -> lt a c = false.

Variable d : dict V.
Hypothesis d_nodup : NoDup (keys d).
Hypothesis d_ok : Forall (fun kv => ok (snd kv)) d.

Let ranking : list (string * V) := sorted_reverse snd lt d.
Let top : list string := map fst (firstn 3 ranking).

Lemma ranking_perm : Permutation ranking d.
Proof. apply sorted_reverse_perm. Qed.

Lemma top_nodup : NoDup top.
Proof.
  unfold top. rewrite <- firstn_map.
  apply (NoDup_app_remove_r _ (skipn 3 (map fst ranking))).
  rewrite firstn_skipn.
  apply (Permutation_NoDup (l := keys d)); [|exact d_nodup].
  symmetry. apply Permutation_map, ranking_perm.
Qed.

Lemma top_length : (List.length top <= 3)%nat.
Proof. unfold top. rewrite length_map. apply firstn_le_length. Qed.

Lemma top_in_keys (g : string) : In g top -> In g (keys d).
Proof.
  unfold top. intros H. apply in_map_iff in H.
  destruct H as [a [<- Ha]]. apply in_map.
  apply (Permutation_in _ ranking_perm).
  rewrite <- (firstn_skipn 3 ranking). apply in_or_app. left. exact Ha.
Qed.

Lemma ranking_value (a : string * V) :
  In a ranking -> get d (fst a) = Some (snd a).
Proof.
  intros H. apply get_of_in; [exact d_nodup|].
  destruct a as [k v]. apply (Permutation_in _ ranking_perm), H.
Qed.

(** From two items in ranking order to their keys and values. *)
Lemma ranking_order (a b : string * V) :
  precedes a b ranking ->
  lt (snd b) (snd a) = true
  \/ (lt (snd a) (snd b) = false /\ lt (snd b) (snd a) = false
      /\ precedes (fst a) (fst b) (keys d)).
Proof.
  intros H.
  destruct (sorted_reverse_stable snd lt ok lt_irrefl lt_trans lt_negtrans
              d a b d_ok H) as [G|[E1 [E2 P]]].
  - left. exact G.
  - right. repeat split; try assumption. apply precedes_map, P.
Qed.

Lemma top_order (g1 g2 : string) (v1 v2 : V) :
  get d g1 = Some v1 -> get d g2 = Some v2 ->
  precedes g1 g2 top \/ (In g1 top /\ ~ In g2 top) ->
  lt v2 v1 = true
  \/ (lt v1 v2 = false /\ lt v2 v1 = false /\ precedes g1 g2 (keys d)).
Proof.
  intros G1 G2 H.
  assert (P : exists a b, fst a = g1 /\ fst b = g2 /\ precedes a b ranking).
  { destruct H as [H|[H1 H2]].
    - unfold top in H. apply precedes_map_inv in H.
      destruct H as [a [b [Ea [Eb P]]]]. exists a, b.
      repeat split; try assumption. apply (precedes_firstn _ _ 3), P.
    - unfold top in H1. apply in_map_iff in H1.
      destruct H1 as [a [Ea Ha]]. exists a, (g2, v2).
      repeat split; [exact Ea|].
      rewrite <- (firstn_skipn 3 ranking). apply precedes_app.
      right. right. split; [exact Ha|].
      assert (I : In (g2, v2) ranking).
      { apply (Permutation_in _ (Permutation_sym ranking_perm)).
        apply get_some_in, G2. }
      rewrite <- (firstn_skipn 3 ranking) in I. apply in_app_or in I.
      destruct I as [I|I]; [|exact I].
      exfalso. apply H2. unfold top.
      apply (in_map fst) in I. exact I. }
  destruct P as [a [b [Ea [Eb P]]]].
  destruct (precedes_in _ _ _ P) as [Ia Ib].
  apply ranking_value in Ia, Ib. rewrite Ea in Ia. rewrite Eb in Ib.
  assert (Va : snd a = v1) by congruence.
  assert (Vb : snd b = v2) by congruence.
  rewrite <- Va, <- Vb, <- Ea, <- Eb. apply ranking_order, P.
Qed.

Lemma top_full (g : string) :
  In g (keys d) -> ~ In g top -> List.length top = 3%nat.
Proof.
  intros H N. unfold keys in H. apply in_map_iff in H.
  destruct H as [a [Ea Ha]].
  apply (Permutation_in _ (Permutation_sym ranking_perm)) in Ha.
  rewrite <- (firstn_skipn 3 ranking) in Ha. apply in_app_or in Ha.
  destruct Ha as [Ha|Ha].
  - exfalso. apply N. unfold top. rewrite <- Ea. apply in_map, Ha.
  - apply in_skipn_length in Ha. unfold top.
    rewrite length_map, length_firstn. lia.
Qed.

End Ranking.
End RankingFacts.

(* ================================================================== *)
(** * The genre aggregation *)
(* ================================================================== *)

Module DeriverFacts.
Import PyStr PyDict PySort Deriver Spec.
Import OrderFacts DictFacts TallyFacts RankingFacts.

(** The loops of the source are one tally over the genre occurrences. *)
Lemma count_movie_tally (d : dict Z) (m : session_entry) :
  count_movie d m
  = fold_left (tally_step Z.add 0)
              (map one (genre_occurrences [m])) d.
Proof.
  unfold count_movie, genre_occurrences. simpl. rewrite app_nil_r.
  destruct (truthy (genres m)); [|reflexivity].
  revert d. induction (split "," (genres m)) as [|x l IH]; intros d;
    [reflexivity|].
  simpl. destruct (truthy (strip x)); simpl; apply IH.
Qed.

Lemma genre_occurrences_cons (m : session_entry) (ms : list session_entry) :
  genre_occurrences (m :: ms)
  = genre_occurrences [m] ++ genre_occurrences ms.
Proof.
  unfold genre_occurrences. simpl flat_map. rewrite app_nil_r. reflexivity.
Qed.

Lemma genres_count_fold (new_movies : list session_entry) (d : dict Z) :
  fold_left count_movie new_movies d
  = fold_left (tally_step Z.add 0)
              (map one (genre_occurrences new_movies)) d.
Proof.
  revert d. induction new_movies as [|m ms IH]; intros d; [reflexivity|].
  rewrite genre_occurrences_cons, map_app, fold_left_app.
  rewrite <- count_movie_tally. simpl fold_left at 1. apply IH.
Qed.

Lemma genres_count_tally (new_movies : list session_entry) :
  genres_count new_movies
  = tally Z.add 0 (map one (genre_occurrences new_movies)).
Proof. apply genres_count_fold. Qed.

Lemma keys_of_ones (occs : list string) : map fst (map one occs) = occs.
Proof. rewrite map_map. apply map_id. Qed.

Lemma total_of_ones (g : string) (occs : list string) :
  total Z.add 0 g (map one occs) = occurrences g occs.
Proof.
  unfold total, occurrences.
  assert (G : forall acc,
             fold_left
               (fun acc kv => if String.eqb (fst kv) g
                              then acc + snd kv else acc)
               (map one occs) acc
             = acc + Z.of_nat (count_occ string_dec occs g)).
  { induction occs as [|x l IH]; intros acc; simpl; [lia|].
    rewrite IH. destruct (String.eqb_spec x g) as [->|Hne].
    - destruct (string_dec g g); [lia|contradiction].
    - destruct (string_dec x g); [contradiction|lia]. }
  apply G.
Qed.

Lemma ltb_irrefl (a : Z) : True -> (a <? a) = false.
Proof. intros _. apply Z.ltb_irrefl. Qed.

Lemma ltb_trans (a b c : Z) :
  True -> True -> True ->
  (a <? b) = true -> (b <? c) = true -> (a <? c) = true.
Proof.
  intros _ _ _. rewrite !Z.ltb_lt. lia.
Qed.

Lemma ltb_negtrans (a b c : Z) :
  True -> True -> True ->
  (a <? b) = false -> (b <? c) = false -> (a <? c) = false.
Proof.
  intros _ _ _. rewrite !Z.ltb_ge. lia.
Qed.

Lemma all_true {A : Type} (l : list A) : Forall (fun _ => True) l.
Proof. apply Forall_forall. intros; exact I. Qed.

(** C8.  The genre strings of the session are tallied by number of
    occurrences; the result holds at most three genres, all different,
    each one occurring in the session; a genre that stands before
    another in the result, or that is in the result when another genre
    of the session is not, occurs more often than the other, or as often
    and was seen first; and a genre of the session is left out only when
    the result is full. *)
Theorem top_genres_ranked (new_movies : list session_entry) :
  let occs := genre_occurrences new_movies in
  let top := top_genres new_movies in
  (forall g n, get (genres_count new_movies) g = Some n ->
               n = occurrences g occs /\ In g occs)
  /\ NoDup top
  /\ (List.length top <= 3)%nat
  /\ (forall g, In g top -> In g occs)
  /\ (forall g1 g2, precedes g1 g2 top -> genre_ranks_above occs g1 g2)
  /\ (forall g1 g2, In g1 top -> In g2 occs -> ~ In g2 top ->
                    genre_ranks_above occs g1 g2)
  /\ (forall g, In g occs -> ~ In g top -> List.length top = 3%nat).
Proof.
  intros occs top.
  pose proof (genres_count_tally new_movies) as E. fold occs in E.
  assert (N : NoDup (keys (genres_count new_movies))).
  { rewrite E. apply keys_tally_nodup. }
  assert (K : forall g, In g (keys (genres_count new_movies)) <-> In g occs).
  { intros g. rewrite E, keys_tally_in, keys_of_ones. reflexivity. }
  assert (G : forall g n, get (genres_count new_movies) g = Some n ->
                          n = occurrences g occs).
  { intros g n H. rewrite E in H. apply get_tally in H.
    rewrite H. apply total_of_ones. }
  assert (Has : forall g, In g occs ->
                  exists n, get (genres_count new_movies) g = Some n).
  { intros g H. apply K in H.
    destruct (get (genres_count new_movies) g) as [n|] eqn:Eg;
      [exists n; reflexivity|].
    apply get_none_iff in Eg. contradiction. }
  assert (In_top : forall g, In g top -> In g occs).
  { intros g H. apply K. apply (top_in_keys Z.ltb _ g H). }
  assert (Order : forall g1 g2, In g1 occs -> In g2 occs ->
                    precedes g1 g2 top \/ (In g1 top /\ ~ In g2 top) ->
                    genre_ranks_above occs g1 g2).
  { intros g1 g2 H1 H2 H.
    destruct (Has g1 H1) as [n1 E1]. destruct (Has g2 H2) as [n2 E2].
    destruct (top_order Z.ltb (fun _ => True) ltb_irrefl ltb_trans
                ltb_negtrans _ N (all_true _) g1 g2 n1 n2 E1 E2 H)
      as [L|[L1 [L2 P]]].
    - left. rewrite <- (G _ _ E1), <- (G _ _ E2). apply Z.ltb_lt, L.
    - right. split.
      + rewrite <- (G _ _ E1), <- (G _ _ E2).
        apply Z.ltb_ge in L1, L2. lia.
      + rewrite E in P. apply keys_tally_order in P.
        rewrite keys_of_ones in P. exact P. }
  split; [|split; [|split; [|split; [|split; [|split]]]]].
  - intros g n H. split; [apply G, H|].
    apply K. apply get_some_in in H. apply (in_map fst) in H. exact H.
  - apply top_nodup, N.
  - apply top_length.
  - exact In_top.
  - intros g1 g2 H. destruct (precedes_in _ _ _ H) as [H1 H2].
    apply Order; [apply In_top, H1|apply In_top, H2|left; exact H].
  - intros g1 g2 H1 H2 H3.
    apply Order; [apply In_top, H1|exact H2|right; split; assumption].
  - intros g H1 H2. apply (top_full Z.ltb _ g); [apply K, H1|exact H2].
Qed.

(** The sample session: "Crime" and "Drama" are seen twice, "Action" and
    "Horror" once; "Horror" is left out. *)
Lemma top_genres_ranked_witness :
  top_genres Samples.session = ["Crime"; "Drama"; "Action"]
  /\ genre_ranks_above (genre_occurrences Samples.session) "Crime" "Drama"
  /\ genre_ranks_above (genre_occurrences Samples.session) "Action" "Horror"
  /\ List.length (top_genres Samples.session) = 3%nat.
Proof.
  destruct (top_genres_ranked Samples.session)
    as [_ [_ [_ [_ [Before [Kept Full]]]]]].
  assert (E : top_genres Samples.session = ["Crime"; "Drama"; "Action"])
    by (vm_compute; reflexivity).
  assert (O : In "Horror" (genre_occurrences Samples.session))
    by (vm_compute; tauto).
  assert (N : ~ In "Horror" (top_genres Samples.session)).
  { rewrite E. simpl. intros [H|[H|[H|[]]]]; discriminate H. }
  split; [exact E|]. split; [|split].
  - apply Before. rewrite E. exists [], [], ["Action"]. reflexivity.
  - apply Kept; [rewrite E; simpl; tauto|exact O|exact N].
  - apply (Full "Horror" O N).
Defined.

End DeriverFacts.

(* ================================================================== *)
(** * The emotion ranking *)
(* ================================================================== *)

Module EmotionFacts.
Import PyStr PyNum PyDict PySort Engine Spec.
Import OrderFacts DictFacts FloatFacts TallyFacts RankingFacts.

(** The loop of the source is one tally over the lowered labels. *)
Lemma emotion_counts_tally (results : list (string * float)) :
  emotion_counts results
  = tally float_add (S754_zero false) (lowered results).
Proof.
  unfold emotion_counts, tally, lowered. rewrite fold_left_mapped.
  reflexivity.
Qed.

(** [<] on floats that are numbers is a strict weak order. *)
Lemma float_lt_irrefl (a : float) : not_nan a -> float_lt a a = false.
Proof.
  intros Ha. destruct (float_lt a a) eqn:E; [|reflexivity].
  apply (float_lt_rank a a Ha Ha) in E.
  exfalso. exact (rank_lt_irrefl _ E).
Qed.

Lemma float_lt_trans (a b c : float) :
  not_nan a -> not_nan b -> not_nan c ->
  float_lt a b = true -> float_lt b c = true -> float_lt a c = true.
Proof.
  intros Ha Hb Hc H1 H2.
  apply (float_lt_rank a b Ha Hb) in H1.
  apply (float_lt_rank b c Hb Hc) in H2.
  apply (float_lt_rank a c Ha Hc).
  exact (rank_lt_trans _ _ _ H1 H2).
Qed.

Lemma float_lt_false (a b : float) :
  not_nan a -> not_nan b ->
  (float_lt a b = false <-> ~ rank_lt (float_rank a) (float_rank b)).
Proof.
  intros Ha Hb. pose proof (float_lt_rank a b Ha Hb) as R.
  destruct (float_lt a b).
  - split; [discriminate|]. intros N. exfalso. apply N, R. reflexivity.
  - split; [|reflexivity]. intros _ N. apply R in N. discriminate.
Qed.

Lemma float_lt_negtrans (a b c : float) :
  not_nan a -> not_nan b -> not_nan c ->
  float_lt a b = false -> float_lt b c = false -> float_lt a c = false.
Proof.
  intros Ha Hb Hc H1 H2.
  apply (float_lt_false a b Ha Hb) in H1.
  apply (float_lt_false b c Hb Hc) in H2.
  apply (float_lt_false a c Ha Hc).
  exact (rank_lt_negtrans _ _ _ H1 H2).
Qed.

Section Ranked.
Variable emotion_classifier : string -> list (string * float).
Variable text : string.

Let results := emotion_classifier text.
Let labels := map fst (lowered results).
Let top := analyze_emotions emotion_classifier text.

Lemma analyze_emotions_blank : truthy (strip text) = false -> top = [].
Proof.
  intros H. unfold top, analyze_emotions. rewrite H. reflexivity.
Qed.

Lemma analyze_emotions_top :
  truthy (strip text) = true ->
  top = map fst (firstn 3 (sorted_reverse snd float_lt
                             (emotion_counts results))).
Proof.
  intros H. unfold top, analyze_emotions. rewrite H. reflexivity.
Qed.

Lemma emotion_counts_nodup : NoDup (keys (emotion_counts results)).
Proof. rewrite emotion_counts_tally. apply keys_tally_nodup. Qed.

Lemma emotion_counts_keys (l : string) :
  In l (keys (emotion_counts results)) <-> In l labels.
Proof. rewrite emotion_counts_tally. apply keys_tally_in. Qed.

Lemma emotion_counts_value (l : string) (v : float) :
  get (emotion_counts results) l = Some v -> v = aggregate l results.
Proof.
  rewrite emotion_counts_tally. intros H. apply get_tally in H. exact H.
Qed.

Lemma emotion_counts_has (l : string) :
  In l labels -> get (emotion_counts results) l = Some (aggregate l results).
Proof.
  intros H. apply emotion_counts_keys in H.
  destruct (get (emotion_counts results) l) as [v|] eqn:E.
  - rewrite (emotion_counts_value l v E). reflexivity.
  - apply get_none_iff in E. contradiction.
Qed.

Lemma emotion_counts_ok :
  (forall l, In l labels -> not_nan (aggregate l results)) ->
  Forall (fun kv => not_nan (snd kv)) (emotion_counts results).
Proof.
  intros H. apply Forall_forall. intros [k v] Hin. simpl.
  pose proof (get_of_in _ k v emotion_counts_nodup Hin) as G.
  rewrite (emotion_counts_value k v G). apply H.
  apply emotion_counts_keys. apply (in_map fst) in Hin. exact Hin.
Qed.

End Ranked.

(** C9.  A text that is empty after stripping gives the empty list.
    Otherwise the classifier's labels are lowered and the scores of equal
    labels added up; the result holds at most three labels, all
    different, each one a lowered label of the classifier; and, when no
    aggregated score is a NaN, a label that stands before another in the
    result, or that is in the result when another label is not, has the
    greater aggregated score, or neither score is below the other and
    the label came first in the classifier's output; a label is left out
    only when the result is full. *)
Theorem analyze_emotions_ranked
  (emotion_classifier : string -> list (string * float)) (text : string) :
  let results := emotion_classifier text in
  let labels := map fst (lowered results) in
  let top := analyze_emotions emotion_classifier text in
  (truthy (strip text) = false -> top = [])
  /\ NoDup top
  /\ (List.length top <= 3)%nat
  /\ (forall l, In l top -> In l labels)
  /\ (truthy (strip text) = true ->
      (forall l, In l labels -> is_nan (aggregate l results) = false) ->
      (forall l1 l2, precedes l1 l2 top -> emotion_ranks_above results l1 l2)
      /\ (forall l1 l2, In l1 top -> In l2 labels -> ~ In l2 top ->
                        emotion_ranks_above results l1 l2)
      /\ (forall l, In l labels -> ~ In l top -> List.length top = 3%nat)).
Proof.
  intros results labels top.
  pose proof (emotion_counts_nodup emotion_classifier text) as N.
  fold results in N.
  assert (In_top : truthy (strip text) = true ->
                   forall l, In l top -> In l labels).
  { intros T l H. unfold top in H. rewrite (analyze_emotions_top _ _ T) in H.
    apply (emotion_counts_keys emotion_classifier text).
    apply (top_in_keys float_lt _ l H). }
  split; [apply analyze_emotions_blank|].
  destruct (truthy (strip text)) eqn:T.
  2:{ pose proof (analyze_emotions_blank emotion_classifier text T) as E.
      fold top in E. rewrite E.
      split; [constructor|]. split; [simpl; lia|].
      split; [intros l []|]. discriminate. }
  pose proof (analyze_emotions_top emotion_classifier text T) as E.
  fold top results in E.
  split; [rewrite E; apply top_nodup, N|].
  split; [rewrite E; apply top_length|].
  split; [apply In_top; reflexivity|].
  intros _ Hnan.
  pose proof (emotion_counts_ok emotion_classifier text Hnan) as Ok.
  fold results in Ok.
  assert (Order : forall l1 l2, In l1 labels -> In l2 labels ->
                    precedes l1 l2 top \/ (In l1 top /\ ~ In l2 top) ->
                    emotion_ranks_above results l1 l2).
  { intros l1 l2 H1 H2 H. rewrite E in H.
    pose proof (emotion_counts_has emotion_classifier text l1 H1) as G1.
    pose proof (emotion_counts_has emotion_classifier text l2 H2) as G2.
    fold results in G1, G2.
    destruct (top_order float_lt not_nan float_lt_irrefl float_lt_trans
                float_lt_negtrans _ N Ok l1 l2 _ _ G1 G2 H)
      as [L|[L1 [L2 P]]].
    - left. exact L.
    - right. split; [exact L1|]. split; [exact L2|].
      rewrite emotion_counts_tally in P.
      apply keys_tally_order in P. exact P. }
  split; [|split].
  - intros l1 l2 H. destruct (precedes_in _ _ _ H) as [H1 H2].
    apply Order; [apply In_top, H1; reflexivity
                 |apply In_top, H2; reflexivity|left; exact H].
  - intros l1 l2 H1 H2 H3.
    apply Order; [apply In_top, H1; reflexivity|exact H2
                 |right; split; assumption].
  - intros l H1 H2. rewrite E in H2 |- *.
    apply (top_full float_lt _ l);
      [apply (emotion_counts_keys emotion_classifier text), H1|exact H2].
Qed.

(** The sample classifier: "Joy" and "joy" are added up, "anger" and
    "fear" have the same score and "fear" is left out. *)
Lemma analyze_emotions_ranked_witness :
  truthy (strip "A joyful film.") = true
  /\ (forall l,
        In l (map fst (lowered (Samples.mixed_case "A joyful film."))) ->
        is_nan (aggregate l (Samples.mixed_case "A joyful film.")) = false)
  /\ analyze_emotions Samples.mixed_case "A joyful film."
     = ["joy"; "sadness"; "anger"]
  /\ emotion_ranks_above (Samples.mixed_case "A joyful film.")
                         "joy" "sadness"
  /\ emotion_ranks_above (Samples.mixed_case "A joyful film.")
                         "anger" "fear".
Proof.
  assert (T : truthy (strip "A joyful film.") = true) by reflexivity.
  assert (Hn : forall l,
             In l (map fst (lowered (Samples.mixed_case "A joyful film."))) ->
             is_nan (aggregate l (Samples.mixed_case "A joyful film."))
             = false).
  { intros l H. vm_compute in H.
    destruct H as [<-|[<-|[<-|[<-|[<-|[]]]]]]; vm_compute; reflexivity. }
  assert (E : analyze_emotions Samples.mixed_case "A joyful film."
              = ["joy"; "sadness"; "anger"]) by (vm_compute; reflexivity).
  destruct (analyze_emotions_ranked Samples.mixed_case "A joyful film.")
    as [_ [_ [_ [_ H]]]].
  destruct (H T Hn) as [Before [Kept _]].
  split; [exact T|]. split; [exact Hn|]. split; [exact E|]. split.
  - apply Before. rewrite E. exists [], [], ["anger"]. reflexivity.
  - apply Kept.
    + rewrite E. simpl. tauto.
    + vm_compute. tauto.
    + rewrite E. simpl. intros [H0|[H0|[H0|[]]]]; discriminate H0.
Defined.

(** The claim as written fails: a score list may hold a score that is
    not a number.  Every comparison of the sort then has the NaN on one
    side and is false, so the three labels stay in the classifier's
    order: "fear", whose aggregated score is 1.0, stands before "anger",
    whose aggregated score is 2.0. *)
Lemma analyze_emotions_nan_unranked :
  let results := Cases.nan_score "A film." in
  let top := analyze_emotions Cases.nan_score "A film." in
  truthy (strip "A film.") = true
  /\ is_nan (aggregate "joy" results) = true
  /\ top = ["fear"; "joy"; "anger"]
  /\ precedes "fear" "anger" top
  /\ float_lt (aggregate "fear" results) (aggregate "anger" results) = true
  /\ ~ emotion_ranks_above results "fear" "anger".
Proof.
  intros results top.
  split; [reflexivity|]. split; [reflexivity|]. split; [reflexivity|].
  split; [exists [], ["joy"], []; reflexivity|].
  split; [reflexivity|].
  intros [H|[H _]]; vm_compute in H; discriminate H.
Qed.

End EmotionFacts.

(* ================================================================== *)
(** * The watch-later file written and read back *)
(* ================================================================== *)

Module ShelfFacts.
Import PyStr Runtime Store Spec Props StrFacts.

Local Notation "a +++ b" := (String.append a b)
  (at level 60, right associativity).

(** ** Characters that stripping and splitting cannot bring in *)

Lemma has_char_lstrip (c : ascii) (s : string) :
  has_char c s = false -> has_char c (lstrip s) = false.
Proof.
  induction s as [|x s IH]; simpl; [reflexivity|].
  intros H. apply orb_false_iff in H. destruct H as [Hx Hs].
  destruct (is_space x); [apply IH, Hs|].
  simpl. rewrite Hx, Hs. reflexivity.
Qed.

Lemma has_char_rstrip (c : ascii) (s : string) :
  has_char c s = false -> has_char c (rstrip s) = false.
Proof.
  induction s as [|x s IH]; simpl; [reflexivity|].
  intros H. apply orb_false_iff in H. destruct H as [Hx Hs].
  specialize (IH Hs).
  destruct (rstrip s) as [|y r].
  - destruct (is_space x); simpl; [reflexivity|].
    rewrite Hx. reflexivity.
  - rewrite has_char_cons, Hx. exact IH.
Qed.

Lemma has_char_strip (c : ascii) (s : string) :
  has_char c s = false -> has_char c (strip s) = false.
Proof. intros H. apply has_char_rstrip, has_char_lstrip, H. Qed.

Lemma split_parts (sep : ascii) (s : string) :
  split sep s <> []
  /\ Forall (fun p => has_char sep p = false) (split sep s).
Proof.
  induction s as [|x s [N IH]]; simpl.
  - split; [discriminate|]. constructor; [reflexivity|constructor].
  - destruct (Ascii.eqb x sep) eqn:E.
    + split; [discriminate|]. constructor; [reflexivity|exact IH].
    + destruct (split sep s) as [|p ps]; [contradiction|].
      split; [discriminate|].
      inversion IH as [|? ? Hp Hps]; subst.
      constructor; [|exact Hps]. simpl. rewrite E, Hp. reflexivity.
Qed.

Lemma split_parts_keep (c sep : ascii) (s : string) :
  has_char c s = false ->
  Forall (fun p => has_char c p = false) (split sep s).
Proof.
  induction s as [|x s IH]; simpl.
  - intros _. constructor; [reflexivity|constructor].
  - intros H. apply orb_false_iff in H. destruct H as [Hx Hs].
    specialize (IH Hs).
    destruct (Ascii.eqb x sep).
    + constructor; [reflexivity|exact IH].
    + destruct (split sep s) as [|p ps].
      * constructor; [|constructor]. simpl. rewrite Hx. reflexivity.
      * inversion IH as [|? ? Hp Hps]; subst.
        constructor; [|exact Hps]. simpl. rewrite Hx, Hp. reflexivity.
Qed.

(** ** Stripping twice *)

Lemma lstrip_idem (s : string) : lstrip (lstrip s) = lstrip s.
Proof.
  induction s as [|x s IH]; simpl; [reflexivity|].
  destruct (is_space x) eqn:E; [exact IH|]. simpl. rewrite E. reflexivity.
Qed.

Lemma rstrip_idem (s : string) : rstrip (rstrip s) = rstrip s.
Proof.
  induction s as [|x s IH]; simpl; [reflexivity|].
  destruct (rstrip s) as [|y r] eqn:E.
  - destruct (is_space x) eqn:Ex; simpl; [reflexivity|].
    rewrite Ex. reflexivity.
  - change (rstrip (String x (String y r)))
      with (match rstrip (String y r) with
            | EmptyString =>
                if is_space x then EmptyString else String x EmptyString
            | r' => String x r'
            end).
    rewrite IH. reflexivity.
Qed.

(** Stripping the right end keeps a left end that has no blank. *)
Lemma lstrip_rstrip (s : string) :
  lstrip s = s -> lstrip (rstrip s) = rstrip s.
Proof.
  destruct s as [|x s]; [reflexivity|].
  simpl. destruct (is_space x) eqn:E.
  - intros H. pose proof (lstrip_length s) as L.
    apply (f_equal String.length) in H. simpl in H. lia.
  - intros _. destruct (rstrip s); simpl; rewrite E; reflexivity.
Qed.

Lemma strip_idem (s : string) : strip (strip s) = strip s.
Proof.
  unfold strip.
  rewrite (lstrip_rstrip (lstrip s) (lstrip_idem s)).
  apply rstrip_idem.
Qed.

(** ** Newline translation leaves no carriage return *)

Lemma universal_newlines_no_cr (s : string) :
  has_char "013" (universal_newlines s) = false.
Proof.
  assert (G : forall n s, (String.length s <= n)%nat ->
                has_char "013" (universal_newlines s) = false).
  { induction n as [|n IH]; intros [|x t] L; simpl in *;
      try reflexivity; try lia.
    destruct (Ascii.eqb x "013") eqn:E.
    - destruct t as [|y t']; [reflexivity|].
      destruct (Ascii.eqb y "010"); simpl.
      + apply IH. simpl in L. lia.
      + apply (IH (String y t')). lia.
    - simpl. rewrite E. apply IH. lia. }
  apply (G (String.length s)). lia.
Qed.

(** ** The titles of a text *)

Lemma read_watch_later_text (w : world) :
  read_watch_later w
  = (Ok match watch_later_txt (fs w) with
        | Some text => titles_of_text text
        | None => []
        end, w).
Proof.
  unfold read_watch_later, bind, path_exists, read_text, ret, file_get,
    titles_of_text.
  destruct (watch_later_txt (fs w)) as [c|] eqn:E; cbv beta iota;
    [|reflexivity].
  rewrite E.
  destruct (truthy (strip (universal_newlines c))); reflexivity.
Qed.

Lemma kept_titles (c : ascii) (parts : list string) :
  Forall (fun p => has_char "," p = false /\ has_char "013" p = false) parts ->
  Forall stored_title
         (map strip (filter (fun t => truthy (strip t)) parts)).
Proof.
  induction parts as [|p ps IH]; intros H; [constructor|].
  inversion H as [|? ? [Hc Hr] Hps]; subst. simpl.
  destruct (truthy (strip p)) eqn:T; [|apply IH, Hps].
  simpl. constructor; [|apply IH, Hps].
  split; [split; [exact T|split]|].
  - apply has_char_strip, Hc.
  - apply strip_idem.
  - apply has_char_strip, Hr.
Qed.

Lemma titles_of_text_stored (text : string) :
  Forall stored_title (titles_of_text text).
Proof.
  unfold titles_of_text.
  destruct (truthy (strip (universal_newlines text))); [|constructor].
  apply (kept_titles ","%char).
  pose proof (split_parts "," (strip (universal_newlines text))) as [_ C].
  pose proof (split_parts_keep "013" ","
                (strip (universal_newlines text))
                (has_char_strip _ _ (universal_newlines_no_cr text))) as R.
  rewrite Forall_forall in *. intros p Hp. split; [apply C|apply R]; exact Hp.
Qed.

Lemma truthy_join (ts : list string) :
  ts <> [] -> Forall stored_title ts -> truthy (join "," ts) = true.
Proof.
  destruct ts as [|t ts]; [contradiction|]. intros _ H.
  inversion H as [|? ? [[T _] _] _]; subst.
  destruct ts as [|t' ts']; [exact T|].
  rewrite join_cons by discriminate. destruct t; [discriminate|reflexivity].
Qed.

(** Titles joined with commas come back from the text. *)
Lemma titles_of_joined (ts : list string) :
  Forall stored_title ts -> titles_of_text (join "," ts) = ts.
Proof.
  intros H. unfold titles_of_text.
  assert (Hr : has_char "013" (join "," ts) = false).
  { apply has_char_join; [reflexivity|].
    eapply Forall_impl; [|exact H]. intros t [_ R]. exact R. }
  rewrite (universal_newlines_id _ Hr).
  assert (Hs : strip (join "," ts) = join "," ts).
  { apply strip_join. eapply Forall_impl; [|exact H].
    intros t [[T [_ S]] _]. split; assumption. }
  rewrite Hs.
  destruct ts as [|t ts]; [reflexivity|].
  rewrite truthy_join; [|discriminate|exact H].
  rewrite split_join; [|discriminate|].
  - apply PreferenceFacts.keep_all. eapply Forall_impl; [|exact H].
    intros t0 [[T [_ S]] _]. split; assumption.
  - eapply Forall_impl; [|exact H]. intros t0 [[_ [C _]] _]. exact C.
Qed.

Lemma join_app_joined (l ts : list string) :
  ts <> [] -> join "," (l ++ [join "," ts]) = join "," (l ++ ts).
Proof.
  intros N. induction l as [|x l IH]; simpl app.
  - reflexivity.
  - assert (N1 : l ++ [join "," ts] <> []) by (destruct l; discriminate).
    assert (N2 : l ++ ts <> []).
    { destruct l; [exact N|discriminate]. }
    rewrite (join_cons x _ N1), (join_cons x _ N2), IH. reflexivity.
Qed.

(** The world after a write to the watch-later file. *)
Lemma read_after_write (fs0 : files) (events : list event) (ts : list string) :
  Forall stored_title ts ->
  fst (read_watch_later
         {| fs := file_set WATCH_LATER_FILE (join "," ts) fs0;
            log := events |})
  = Ok ts.
Proof.
  intros H. rewrite read_watch_later_text. simpl.
  rewrite (titles_of_joined ts H). reflexivity.
Qed.

Lemma read_watch_later_stored (w : world) (l : list string) :
  fst (read_watch_later w) = Ok l -> Forall stored_title l.
Proof.
  rewrite read_watch_later_text. simpl. intros H. injection H as <-.
  destruct (watch_later_txt (fs w)); [apply titles_of_text_stored|constructor].
Qed.

(** X1.  Reading the watch-later list never fails and changes nothing;
    every title it returns is non-empty, has no comma, no white space at
    either end and no carriage return; without the file the list is
    empty. *)
Theorem read_watch_later_titles (w : world) :
  exists l,
    read_watch_later w = (Ok l, w)
    /\ Forall (fun t => claimed_item t /\ has_char "013" t = false) l
    /\ (watch_later_txt (fs w) = None -> l = []).
Proof.
  eexists. split; [apply read_watch_later_text|]. split.
  - destruct (watch_later_txt (fs w));
      [apply titles_of_text_stored|constructor].
  - intros ->. reflexivity.
Qed.

Lemma read_watch_later_titles_witness :
  watch_later_txt (fs Samples.fresh) = None
  /\ fst (read_watch_later Samples.fresh) = Ok [].
Proof.
  destruct (read_watch_later_titles Samples.fresh) as [l [E [_ N]]].
  split; [reflexivity|]. rewrite E, (N eq_refl). reflexivity.
Defined.

Lemma append_watch_later_world (t : string) (w : world) (l : list string) :
  fst (read_watch_later w) = Ok l ->
  append_watch_later t w
  = (Ok tt,
     {| fs := file_set WATCH_LATER_FILE (join "," (l ++ [t])) (fs w);
        log := log w ++ [Write WATCH_LATER_FILE (join "," (l ++ [t]))] |}).
Proof.
  intros H. apply WatchLaterFacts.read_watch_later_as in H.
  unfold append_watch_later, bind. rewrite H. reflexivity.
Qed.

(** X2.  Appending to the watch-later list and reading it back gives the
    old titles followed by the comma-separated parts of the text that
    was appended: a title without comma comes back as itself, at the
    end of the list.  The parts are taken to be non-empty, without
    white space at their ends and without carriage return.  The two
    other files are left as they were. *)
Theorem append_watch_later_then_read
  (parts : list string) (w : world) (l : list string) :
  fst (read_watch_later w) = Ok l ->
  parts <> [] ->
  Forall (fun t => claimed_item t /\ has_char "013" t = false) parts ->
  exists w',
    append_watch_later (join "," parts) w = (Ok tt, w')
    /\ fst (read_watch_later w') = Ok (l ++ parts)
    /\ watched_txt (fs w') = watched_txt (fs w)
    /\ preferences_txt (fs w') = preferences_txt (fs w).
Proof.
  intros Hl N Hp. eexists. split; [apply append_watch_later_world, Hl|].
  split; [|split; reflexivity].
  rewrite (join_app_joined l parts N). apply read_after_write.
  apply Forall_app. split; [apply (read_watch_later_stored w), Hl|exact Hp].
Qed.

Lemma append_watch_later_then_read_witness :
  fst (read_watch_later
         (snd (append_watch_later "Solaris" Samples.three_titles)))
  = Ok ["Alien"; "Heat"; "Ran"; "Solaris"]
  /\ fst (read_watch_later
            (snd (append_watch_later "Crouching Tiger,Hidden Dragon"
                                     Samples.three_titles)))
     = Ok ["Alien"; "Heat"; "Ran"; "Crouching Tiger"; "Hidden Dragon"].
Proof.
  split.
  - destruct (append_watch_later_then_read ["Solaris"] Samples.three_titles
                ["Alien"; "Heat"; "Ran"] eq_refl) as [w' [E [R _]]].
    + discriminate.
    + repeat constructor.
    + change (join "," ["Solaris"]) with "Solaris" in E.
      rewrite E. exact R.
  - destruct (append_watch_later_then_read
                ["Crouching Tiger"; "Hidden Dragon"] Samples.three_titles
                ["Alien"; "Heat"; "Ran"] eq_refl) as [w' [E [R _]]].
    + discriminate.
    + repeat constructor.
    + change (join "," ["Crouching Tiger"; "Hidden Dragon"])
        with "Crouching Tiger,Hidden Dragon" in E.
      rewrite E. exact R.
Defined.

(** X3.  Removing the title at an index inside the list writes the list
    without that title: reading it back gives the titles before the
    index followed by the titles after it, and the call returns the
    title that stood at the index.  The two other files are left as
    they were. *)
Theorem remove_watch_later_then_read
  (index : Z) (w : world) (l : list string) :
  fst (read_watch_later w) = Ok l ->
  0 <= index < Z.of_nat (List.length l) ->
  exists w' t,
    remove_watch_later index w = (Ok (Some t), w')
    /\ nth_error l (Z.to_nat index) = Some t
    /\ fst (read_watch_later w')
       = Ok (firstn (Z.to_nat index) l ++ skipn (S (Z.to_nat index)) l)
    /\ watched_txt (fs w') = watched_txt (fs w)
    /\ preferences_txt (fs w') = preferences_txt (fs w).
Proof.
  intros Hl Hin.
  pose proof (read_watch_later_stored w l Hl) as St.
  apply WatchLaterFacts.read_watch_later_as in Hl.
  destruct (WatchLaterFacts.pop_in_range l index Hin) as [t [Ht Hpop]].
  unfold remove_watch_later, bind. rewrite Hl.
  rewrite (proj2 (WatchLaterFacts.in_range_test index (List.length l)) Hin).
  unfold lift. rewrite Hpop. unfold write_text, ret. cbv beta iota.
  eexists _, t. split; [reflexivity|]. split; [exact Ht|].
  split; [|split; reflexivity].
  apply read_after_write. apply Forall_app. split.
  - apply Forall_forall. intros x Hx. rewrite Forall_forall in St.
    apply St. rewrite <- (firstn_skipn (Z.to_nat index) l).
    apply in_or_app. left. exact Hx.
  - apply Forall_forall. intros x Hx. rewrite Forall_forall in St.
    apply St. rewrite <- (firstn_skipn (S (Z.to_nat index)) l).
    apply in_or_app. right. exact Hx.
Qed.

Lemma remove_watch_later_then_read_witness :
  exists w',
    remove_watch_later 1 Samples.three_titles = (Ok (Some "Heat"), w')
    /\ fst (read_watch_later w') = Ok ["Alien"; "Ran"].
Proof.
  destruct (remove_watch_later_then_read 1 Samples.three_titles
              ["Alien"; "Heat"; "Ran"] eq_refl)
    as [w' [t [E [Ht [R _]]]]]; [simpl; lia|].
  injection Ht as <-. exists w'. split; [exact E|exact R].
Defined.

End ShelfFacts.

(* ================================================================== *)
(** * A whole run of the matching loop *)
(* ================================================================== *)

Module RunFacts.
Import PyStr PyNum PyDict Runtime Store Engine Spec Props.

Lemma writes_app (a b : list event) : writes (a ++ b) = writes a ++ writes b.
Proof. unfold writes. apply flat_map_app. Qed.

Lemma sleeps_app (a b : list event) : sleeps (a ++ b) = sleeps a ++ sleeps b.
Proof. unfold sleeps. apply flat_map_app. Qed.

Lemma subsequence_refl {A : Type} (l : list A) : subsequence l l.
Proof. induction l; constructor; assumption. Qed.

Lemma subsequence_in {A : Type} (l1 l2 : list A) :
  subsequence l1 l2 -> forall x, In x l1 -> In x l2.
Proof.
  induction 1 as [l|x l1 l2 _ IH|x l1 l2 _ IH]; intros y Hy.
  - destruct Hy.
  - destruct Hy as [->|Hy]; [left; reflexivity|right; apply IH, Hy].
  - right. apply IH, Hy.
Qed.

Lemma subsequence_length {A : Type} (l1 l2 : list A) :
  subsequence l1 l2 -> (List.length l1 <= List.length l2)%nat.
Proof. induction 1; simpl; lia. Qed.

Section Run.
Variable review_page : string -> option string.
Variable emotion_classifier : string -> list (string * float).
Variable prefs : preferences.
Variable watched_titles watch_later_titles : list string.
Variable ratings_dict : dict rating.

Let consider' :=
  consider review_page emotion_classifier prefs watched_titles
           watch_later_titles ratings_dict.
Let loop' :=
  loop review_page emotion_classifier prefs watched_titles
       watch_later_titles ratings_dict.

(** The six gates of a candidate. *)
Let passes (m : movie) : Prop :=
  genre_gate prefs m = true
  /\ year_gate prefs m = true
  /\ dedup_gate watched_titles watch_later_titles m = true
  /\ rating_gate ratings_dict m <> None
  /\ exists review_text,
       review_page (movie_url m) = Some review_text
       /\ truthy review_text = true
       /\ emotion_gate emotion_classifier prefs review_text = true.

(** One pass either drops the candidate, with at most a fetch, or
    accepts it past the six gates. *)
Lemma consider_outcome (m : movie) (recommended l : list string)
  (w : world) :
  fst (read_watch_later w) = Ok l ->
  (exists events,
     consider' m recommended w
     = (Ok recommended, {| fs := fs w; log := log w ++ events |})
     /\ writes events = [] /\ sleeps events = []
     /\ (List.length (fetches events) <= 1)%nat)
  \/ (passes m
      /\ exists average_rating,
           consider' m recommended w
           = (Ok (recommended ++ [originalTitle m]),
              {| fs := file_set WATCH_LATER_FILE
                                (join "," (l ++ [originalTitle m])) (fs w);
                 log := log w
                        ++ [Fetch (movie_url m);
                            Write WATCH_LATER_FILE
                                  (join "," (l ++ [originalTitle m]));
                            PrintRecommended (originalTitle m) (startYear m)
                                             (genres m) average_rating;
                            Sleep 1] |})).
Proof.
  intros Hl.
  assert (Quiet : consider' m recommended w = (Ok recommended, w) ->
            exists events,
              consider' m recommended w
              = (Ok recommended, {| fs := fs w; log := log w ++ events |})
              /\ writes events = [] /\ sleeps events = []
              /\ (List.length (fetches events) <= 1)%nat).
  { intros E. exists []. rewrite E. split.
    - apply f_equal, EngineFacts.world_eta.
    - repeat split. simpl. lia. }
  assert (Fetched : consider' m recommended w
                    = (Ok recommended,
                       {| fs := fs w;
                          log := log w ++ [Fetch (movie_url m)] |}) ->
            exists events,
              consider' m recommended w
              = (Ok recommended, {| fs := fs w; log := log w ++ events |})
              /\ writes events = [] /\ sleeps events = []
              /\ (List.length (fetches events) <= 1)%nat).
  { intros E. exists [Fetch (movie_url m)]. rewrite E.
    repeat split. simpl. lia. }
  destruct (genre_gate prefs m) eqn:G;
    [|left; apply Quiet; unfold consider', consider; rewrite G; reflexivity].
  destruct (year_gate prefs m) eqn:Y;
    [|left; apply Quiet; unfold consider', consider; rewrite G, Y;
      reflexivity].
  destruct (dedup_gate watched_titles watch_later_titles m) eqn:D;
    [|left; apply Quiet; unfold consider', consider; rewrite G, Y, D;
      reflexivity].
  destruct (rating_gate ratings_dict m) as [average_rating|] eqn:R;
    [|left; apply Quiet; unfold consider', consider; rewrite G, Y, D, R;
      reflexivity].
  destruct (review_page (movie_url m)) as [review_text|] eqn:P;
    [|left; apply Fetched; unfold consider', consider;
      rewrite G, Y, D, R; simpl; unfold bind at 1;
      unfold fetch_most_supported_review, bind, emit, ret; simpl;
      rewrite P; reflexivity].
  destruct (truthy review_text) eqn:T;
    [|left; apply Fetched; unfold consider', consider;
      rewrite G, Y, D, R; simpl; unfold bind at 1;
      unfold fetch_most_supported_review, bind, emit, ret; simpl;
      rewrite P, T; reflexivity].
  destruct (emotion_gate emotion_classifier prefs review_text) eqn:E;
    [|left; apply Fetched; unfold consider', consider;
      rewrite G, Y, D, R; simpl; unfold bind at 1;
      unfold fetch_most_supported_review, bind, emit, ret; simpl;
      rewrite P, T, E; reflexivity].
  right. split.
  - unfold passes. rewrite R. repeat split; try assumption;
      [discriminate|].
    exists review_text. repeat split; assumption.
  - exists average_rating.
    apply (EngineFacts.consider_accept review_page emotion_classifier prefs
             watched_titles watch_later_titles ratings_dict m recommended l
             w average_rating review_text); assumption.
Qed.

(** The loop: what it adds, what it does, what it leaves alone. *)
Lemma loop_outcome (full_titles : list movie) :
  forall (recommended : list string) (w : world),
  (List.length recommended <= 3)%nat ->
  exists added files' events,
    loop' full_titles recommended w
    = (Ok (recommended ++ map originalTitle added),
       {| fs := files'; log := log w ++ events |})
    /\ subsequence added full_titles
    /\ Forall passes added
    /\ (List.length (recommended ++ map originalTitle added) <= 3)%nat
    /\ watched_txt files' = watched_txt (fs w)
    /\ preferences_txt files' = preferences_txt (fs w)
    /\ (added = [] -> files' = fs w)
    /\ writes events = repeat WATCH_LATER_FILE (List.length added)
    /\ sleeps events = repeat 1 (List.length added)
    /\ (List.length added <= List.length (fetches events)
        <= List.length full_titles)%nat
    /\ (Forall (fun m => stored_title (originalTitle m)) full_titles ->
        forall l, fst (read_watch_later w) = Ok l ->
          fst (read_watch_later {| fs := files'; log := log w ++ events |})
          = Ok (l ++ map originalTitle added)).
Proof.
  unfold loop'.
  induction full_titles as [|m rest IH]; intros recommended w Hlen.
  - exists [], (fs w), []. simpl. rewrite !app_nil_r.
    split; [apply f_equal; destruct w; reflexivity|].
    split; [constructor|]. split; [constructor|].
    split; [exact Hlen|]. repeat split; try lia.
    intros _ l H. rewrite app_nil_r, <- H.
    apply EngineFacts.read_watch_later_same_files. reflexivity.
  - simpl loop.
    destruct (Z.leb_spec 3 (Z.of_nat (List.length recommended))) as [Full|Room].
    + exists [], (fs w), []. simpl. rewrite !app_nil_r.
      split; [apply f_equal; destruct w; reflexivity|].
      split; [constructor|]. split; [constructor|].
      split; [exact Hlen|]. repeat split; try lia.
      intros _ l H. rewrite app_nil_r, <- H.
      apply EngineFacts.read_watch_later_same_files. reflexivity.
    + destruct (WatchLaterFacts.read_watch_later_pure w) as [l0 El0].
      assert (Hl0 : fst (read_watch_later w) = Ok l0)
        by (rewrite El0; reflexivity).
      unfold bind.
      destruct (consider_outcome m recommended l0 w Hl0)
        as [[e1 [E1 [W1 [S1 F1]]]]|[Pm [average_rating E1]]];
        unfold consider' in E1; rewrite E1.
      * destruct (IH recommended {| fs := fs w; log := log w ++ e1 |} Hlen)
          as [added [f2 [e2 [E2 [Sub [All [Len [Fw [Fp [Same [W2 [S2
               [F2 Keep]]]]]]]]]]]]].
        rewrite E2. exists added, f2, (e1 ++ e2). simpl log in *.
        simpl fs in *.
        split; [rewrite app_assoc; reflexivity|].
        split; [constructor; exact Sub|]. split; [exact All|].
        split; [exact Len|]. split; [exact Fw|]. split; [exact Fp|].
        split; [exact Same|].
        split; [rewrite writes_app, W1; exact W2|].
        split; [rewrite sleeps_app, S1; exact S2|].
        split; [rewrite EngineFacts.fetches_app, length_app; simpl; lia|].
        intros St l H. rewrite app_assoc. apply Keep.
        -- inversion St; assumption.
        -- rewrite <- H.
           apply EngineFacts.read_watch_later_same_files. reflexivity.
      * match type of E1 with
        | _ = (_, ?w1) =>
            destruct (IH (recommended ++ [originalTitle m]) w1)
              as [added [f2 [e2 [E2 [Sub [All [Len [Fw [Fp [Same [W2 [S2
                   [F2 Keep]]]]]]]]]]]]]
        end.
        { rewrite length_app. simpl. lia. }
        rewrite E2. simpl log in *. simpl fs in *.
        exists (m :: added), f2,
          ([Fetch (movie_url m);
            Write WATCH_LATER_FILE (join "," (l0 ++ [originalTitle m]));
            PrintRecommended (originalTitle m) (startYear m)
                             (genres m) average_rating;
            Sleep 1] ++ e2).
        split; [rewrite <- !app_assoc; simpl; reflexivity|].
        split; [constructor; exact Sub|].
        split; [constructor; [exact Pm|exact All]|].
        split; [rewrite <- app_assoc in Len; exact Len|].
        split; [exact Fw|]. split; [exact Fp|].
        split; [discriminate|].
        split; [rewrite writes_app, W2; reflexivity|].
        split; [rewrite sleeps_app, S2; reflexivity|].
        split; [rewrite EngineFacts.fetches_app, length_app; simpl; lia|].
        intros St l H. inversion St as [|? ? Hm Hrest]; subst.
        assert (El : l = l0) by congruence. subst l0.
        rewrite app_assoc.
        rewrite (Keep Hrest (l ++ [originalTitle m])).
        -- simpl. rewrite <- app_assoc. reflexivity.
        -- apply ShelfFacts.read_after_write.
           apply Forall_app. split.
           ++ apply (ShelfFacts.read_watch_later_stored w), H.
           ++ constructor; [exact Hm|constructor].
Qed.

End Run.

(** The bands that [categorize_year] can give. *)
Lemma categorize_year_bands (year band : string) :
  categorize_year year = Some band ->
  In band ["old"; "middle"; "new"; "very new"].
Proof.
  unfold categorize_year. destruct (py_int year) as [y|]; [|discriminate].
  destruct (y <=? 1999); [intros H; injection H as <-; simpl; tauto|].
  destruct ((2000 <=? y) && (y <=? 2009));
    [intros H; injection H as <-; simpl; tauto|].
  destruct ((2010 <=? y) && (y <=? 2019));
    [intros H; injection H as <-; simpl; tauto|].
  destruct ((2020 <=? y) && (y <=? 2024));
    [intros H; injection H as <-; simpl; tauto|discriminate].
Qed.

Lemma year_gate_off_band (prefs : preferences) (m : movie) :
  truthy (Year prefs) = true ->
  ~ In (Year prefs) ["old"; "middle"; "new"; "very new"] ->
  year_gate prefs m = false.
Proof.
  intros T N. unfold year_gate.
  destruct (categorize_year (startYear m)) as [band|] eqn:E; [|reflexivity].
  rewrite T. destruct (String.eqb_spec band (Year prefs)) as [Eb|_];
    [|reflexivity].
  exfalso. apply N. rewrite <- Eb. apply (categorize_year_bands _ _ E).
Qed.

(** The whole function, from what the loop does. *)
Lemma run_outcome
  (review_page : string -> option string)
  (emotion_classifier : string -> list (string * float))
  (prefs : preferences) (full_titles : list movie)
  (ratings : list rating) (w : world) :
  exists wl wd added files' events,
    fst (read_watch_later w) = Ok wl
    /\ fst (read_watched w) = Ok wd
    /\ recommend_based_on_preferences review_page emotion_classifier
                                      prefs full_titles ratings w
       = (Ok (map originalTitle added),
          {| fs := files'; log := log w ++ events |})
    /\ subsequence added full_titles
    /\ Forall (fun m =>
                 genre_gate prefs m = true
                 /\ year_gate prefs m = true
                 /\ dedup_gate (map (fun x => lower (Store.title x)) wd)
                               (map lower wl) m = true
                 /\ rating_gate (ratings_index ratings) m <> None
                 /\ exists review_text,
                      review_page (movie_url m) = Some review_text
                      /\ truthy review_text = true
                      /\ emotion_gate emotion_classifier prefs review_text
                         = true)
              added
    /\ (List.length added <= 3)%nat
    /\ watched_txt files' = watched_txt (fs w)
    /\ preferences_txt files' = preferences_txt (fs w)
    /\ (added = [] -> files' = fs w)
    /\ writes events = repeat WATCH_LATER_FILE (List.length added)
    /\ sleeps events = repeat 1 (List.length added)
    /\ (List.length added <= List.length (fetches events)
        <= List.length full_titles)%nat
    /\ (Forall (fun m => stored_title (originalTitle m)) full_titles ->
        fst (read_watch_later {| fs := files'; log := log w ++ events |})
        = Ok (wl ++ map originalTitle added)).
Proof.
  destruct (WatchLaterFacts.read_watch_later_pure w) as [wl Ewl].
  destruct (EngineFacts.read_watched_pure w) as [wd Ewd].
  destruct (loop_outcome review_page emotion_classifier prefs
              (map (fun x => lower (Store.title x)) wd) (map lower wl)
              (ratings_index ratings) full_titles [] w)
    as [added [f [e [E [Sub [All [Len [Fw [Fp [Same [W [S [F Keep]]]]]]]]]]]]];
    [simpl; lia|].
  simpl app in E, Len. rewrite length_map in Len.
  assert (Hwl : fst (read_watch_later w) = Ok wl) by (rewrite Ewl; reflexivity).
  assert (Last : exists msg,
            (match map originalTitle added with
             | _ :: _ =>
                 print
                   (LF ++ "Recommended movies have been added to your watch later list.")%string
             | [] =>
                 print
                   (LF ++ "No recommendations found based on your current preferences.")%string
             end) {| fs := f; log := log w ++ e |}
            = (Ok tt, {| fs := f; log := (log w ++ e) ++ [Print msg] |})).
  { destruct (map originalTitle added); eexists; reflexivity. }
  destruct Last as [msg Emsg].
  exists wl, wd, added, f, (e ++ [Print msg]).
  split; [exact Hwl|]. split; [rewrite Ewd; reflexivity|].
  split.
  { unfold recommend_based_on_preferences, bind.
    rewrite Ewl, Ewd, E, Emsg. unfold ret. rewrite app_assoc. reflexivity. }
  split; [exact Sub|]. split; [exact All|].
  split; [exact Len|]. split; [exact Fw|]. split; [exact Fp|].
  split; [exact Same|].
  split; [rewrite writes_app, W; simpl; apply app_nil_r|].
  split; [rewrite sleeps_app, S; simpl; apply app_nil_r|].
  split; [rewrite EngineFacts.fetches_app; simpl; rewrite app_nil_r;
          exact F|].
  intros St. rewrite <- (Keep St wl Hwl).
  apply EngineFacts.read_watch_later_same_files. reflexivity.
Qed.

(** ** The recommender on rows that have every column *)



Lemma table_set_of (d : dict rating) (k : string) (r : rating) :
  Recommender.table_set (table_of d) (Some k) (Recommender.ratings_row_of r)
  = table_of (set d k r).
Proof.
  induction d as [|[k' v'] d IH]; simpl; [reflexivity|].
  destruct (String.eqb k' k); simpl; [reflexivity|].
  rewrite IH. reflexivity.
Qed.

Lemma ratings_index_of (ratings : list rating) :
  Recommender.ratings_index (map Recommender.ratings_row_of ratings)
  = table_of (ratings_index ratings).
Proof.
  unfold Recommender.ratings_index, ratings_index.
  change (@nil (option string * Recommender.ratings_row))
    with (table_of []).
  generalize (@nil (string * rating)).
  induction ratings as [|r ratings IH]; intros d; simpl; [reflexivity|].
  rewrite table_set_of. apply IH.
Qed.

Lemma table_get_of (d : dict rating) (k : string) :
  Recommender.table_get (table_of d) (Some k)
  = option_map Recommender.ratings_row_of (get d k).
Proof.
  induction d as [|[k' v'] d IH]; simpl; [reflexivity|].
  destruct (String.eqb k' k); [reflexivity|exact IH].
Qed.

Lemma rate_of (d : dict rating) (m : movie) :
  Recommender.rate (table_of d) (Recommender.title_row_of m)
  = Recommender.Returned (rating_gate d m).
Proof.
  unfold Recommender.rate, rating_gate. cbn [Recommender.title_row_of
    Recommender.row_tconst]. rewrite table_get_of.
  destruct (get d (tconst m)) as [r|]; [|reflexivity].
  cbn [option_map Recommender.ratings_row_of Recommender.row_averageRating
       Recommender.row_numVotes].
  destruct (py_float (averageRating r)) as [average_rating|]; [|reflexivity].
  destruct (py_int (numVotes r)) as [num_votes|]; [|reflexivity].
  destruct (float_le average_rating f6_5 || (num_votes <=? 50000));
    reflexivity.
Qed.

Section Simulation.
Variable http_get : string -> option (Z * list Scraper.review_container).
Variable emotion_classifier : string -> list (string * float).
Variable prefs : preferences.




(** When no candidate passes the year gate the loop does nothing. *)
Lemma loop_year_rejects
  (watched_titles watch_later_titles : list string)
  (ratings_dict : Recommender.ratings_table) (full_titles : list movie) :
  (forall m, year_gate prefs m = false) ->
  forall recommended w,
    Recommender.loop http_get emotion_classifier prefs watched_titles
      watch_later_titles ratings_dict
      (map Recommender.title_row_of full_titles) recommended w
    = (Ok (Recommender.Returned recommended), w).
Proof.
  intros Hy. induction full_titles as [|m rest IH]; intros recommended w;
    simpl; [reflexivity|].
  destruct (3 <=? Z.of_nat (List.length recommended)); [reflexivity|].
  unfold bind, Recommender.consider.
  cbn [Recommender.title_row_of Recommender.row_genres
       Recommender.row_startYear].
  specialize (Hy m). unfold year_gate in Hy.
  match goal with
  | |- context [if ?b then _ else _] => destruct b
  end; [apply IH|].
  destruct (categorize_year (startYear m)) as [band|]; [|apply IH].
  apply negb_false_iff in Hy. rewrite Hy. apply IH.
Qed.


End Simulation.







(** X7.  With a preferred year band that is not empty and is none of
    the four bands of the year classification (the renewal can store
    "unknown"), a run over a catalog whose rows have every column
    recommends nothing, fetches nothing and writes nothing, whatever the
    ratings table holds: it only prints, after an empty line, that there
    is no recommendation. *)
Theorem recommend_off_band
  (http_get : string -> option (Z * list Scraper.review_container))
  (emotion_classifier : string -> list (string * float))
  (prefs : preferences) (full_titles : list movie)
  (ratings : list Recommender.ratings_row) (w : world) :
  truthy (Year prefs) = true ->
  ~ In (Year prefs) ["old"; "middle"; "new"; "very new"] ->
  Recommender.recommend_based_on_preferences http_get emotion_classifier
    prefs (map Recommender.title_row_of full_titles) ratings w
  = (Ok (Recommender.Returned []),
     {| fs := fs w;
        log := log w
               ++ [Print
                     (LF ++ "No recommendations found based on your current preferences.")%string]
     |}).
Proof.
  intros T N.
  destruct (WatchLaterFacts.read_watch_later_pure w) as [wl Ewl].
  destruct (EngineFacts.read_watched_pure w) as [wd Ewd].
  unfold Recommender.recommend_based_on_preferences, bind.
  rewrite Ewl, Ewd.
  rewrite loop_year_rejects; [reflexivity|].
  intros m. apply year_gate_off_band; assumption.
Qed.

Lemma recommend_off_band_witness :
  Recommender.recommend_based_on_preferences Cases.pages Samples.mostly_joy
    Cases.off_band (map Recommender.title_row_of Cases.two_dramas)
    Cases.cut_ratings Samples.fresh
  = (Ok (Recommender.Returned []),
     {| fs := Samples.no_files;
        log := [Print
                  (LF ++ "No recommendations found based on your current preferences.")%string]
     |}).
Proof.
  apply (recommend_off_band Cases.pages Samples.mostly_joy
           Cases.off_band Cases.two_dramas Cases.cut_ratings Samples.fresh).
  - reflexivity.
  - simpl. intros [H|[H|[H|[H|[]]]]]; discriminate H.
Defined.

(** ** Exceptions that end the run *)

Section Uncaught.
Variable http_get : string -> option (Z * list Scraper.review_container).
Variable emotion_classifier : string -> list (string * float).
Variable prefs : preferences.

Lemma loop_full
  (watched_titles watch_later_titles : list string)
  (ratings_dict : Recommender.ratings_table)
  (full_titles : list Recommender.title_row) (recommended : list string)
  (w : world) :
  (3 <=? Z.of_nat (List.length recommended)) = true ->
  Recommender.loop http_get emotion_classifier prefs watched_titles
                   watch_later_titles ratings_dict full_titles recommended w
  = (Ok (Recommender.Returned recommended), w).
Proof.
  intros H. destruct full_titles; simpl; [reflexivity|].
  rewrite H. reflexivity.
Qed.

(** The loop over a catalog in two parts. *)
Lemma loop_app
  (watched_titles watch_later_titles : list string)
  (ratings_dict : Recommender.ratings_table)
  (before after : list Recommender.title_row) :
  forall recommended w,
    Recommender.loop http_get emotion_classifier prefs watched_titles
                     watch_later_titles ratings_dict (before ++ after)
                     recommended w
    = match Recommender.loop http_get emotion_classifier prefs
                             watched_titles watch_later_titles ratings_dict
                             before recommended w with
      | (Ok (Recommender.Returned recommended'), w') =>
          Recommender.loop http_get emotion_classifier prefs watched_titles
                           watch_later_titles ratings_dict after
                           recommended' w'
      | other => other
      end.
Proof.
  induction before as [|m before IH]; intros recommended w;
    [reflexivity|].
  cbn [app Recommender.loop].
  destruct (3 <=? Z.of_nat (List.length recommended)) eqn:Full.
  - cbn [ret]. symmetry. apply loop_full, Full.
  - unfold bind.
    destruct (Recommender.consider http_get emotion_classifier prefs
                watched_titles watch_later_titles ratings_dict m
                recommended w) as [[[recommended'|e]|e] w'];
      [apply IH|reflexivity|reflexivity].
Qed.

(** A pass that ends with an exception ends the run, with the world as
    that pass left it. *)
Lemma run_uncaught
  (before : list Recommender.title_row) (movie : Recommender.title_row)
  (rest : list Recommender.title_row)
  (ratings : list Recommender.ratings_row) (w : world)
  (wl : list string) (wd : list watched_entry)
  (recommended : list string) (w1 w2 : world) (e : Recommender.uncaught) :
  fst (read_watch_later w) = Ok wl ->
  fst (read_watched w) = Ok wd ->
  Recommender.loop http_get emotion_classifier prefs
    (map (fun x => lower (Store.title x)) wd) (map lower wl)
    (Recommender.ratings_index ratings) before [] w
  = (Ok (Recommender.Returned recommended), w1) ->
  (List.length recommended < 3)%nat ->
  Recommender.consider http_get emotion_classifier prefs
    (map (fun x => lower (Store.title x)) wd) (map lower wl)
    (Recommender.ratings_index ratings) movie recommended w1
  = (Ok (Recommender.Uncaught e), w2) ->
  Recommender.recommend_based_on_preferences http_get emotion_classifier
    prefs (before ++ movie :: rest) ratings w
  = (Ok (Recommender.Uncaught e), w2).
Proof.
  intros Hwl Hwd Hb L C.
  apply WatchLaterFacts.read_watch_later_as in Hwl.
  destruct (EngineFacts.read_watched_pure w) as [wd' Ewd].
  rewrite Ewd in Hwd. injection Hwd as ->.
  unfold Recommender.recommend_based_on_preferences, bind.
  rewrite Hwl, Ewd, loop_app, Hb. cbn [Recommender.loop].
  destruct (Z.leb_spec 3 (Z.of_nat (List.length recommended))); [lia|].
  unfold bind. rewrite C. reflexivity.
Qed.

(** The first gates of a pass, for a row that has every column. *)
Lemma consider_rated
  (watched_titles watch_later_titles : list string)
  (ratings_dict : Recommender.ratings_table) (m : movie)
  (recommended : list string) (w : world) :
  genre_gate prefs m = true ->
  year_gate prefs m = true ->
  dedup_gate watched_titles watch_later_titles m = true ->
  Recommender.consider http_get emotion_classifier prefs watched_titles
    watch_later_titles ratings_dict (Recommender.title_row_of m)
    recommended w
  = match Recommender.rate ratings_dict (Recommender.title_row_of m) with
    | Recommender.Uncaught e => (Ok (Recommender.Uncaught e), w)
    | Recommender.Returned None => (Ok (Recommender.Returned recommended), w)
    | Recommender.Returned (Some average_rating) =>
        Recommender.judge_review http_get emotion_classifier prefs
          (Recommender.title_row_of m) (originalTitle m) (startYear m)
          average_rating recommended w
    end.
Proof.
  unfold genre_gate, year_gate, dedup_gate, Recommender.consider.
  cbn [Recommender.title_row_of Recommender.row_genres
       Recommender.row_startYear Recommender.row_originalTitle].
  intros G Y D. apply negb_true_iff in G, D. rewrite G.
  destruct (categorize_year (startYear m)) as [band|]; [|discriminate].
  apply negb_true_iff in Y. rewrite Y, D.
  destruct (Recommender.rate ratings_dict (Recommender.title_row_of m))
    as [[average_rating|]|e]; reflexivity.
Qed.

End Uncaught.

(** X25.  A vote count that overflows ends the whole run.  When a row
    of the catalog that passes the genre, year, dedup and rating gates
    has a reviews page on which the scraper fails with [OverflowError],
    and fewer than three titles were accepted among the rows before it,
    the run fails with that error right after the request: the titles
    accepted before stay in the watch-later file, the rows that follow
    are not considered, and no closing message is printed. *)
Theorem recommend_overflow_aborts
  (http_get : string -> option (Z * list Scraper.review_container))
  (emotion_classifier : string -> list (string * float))
  (prefs : preferences) (before : list Recommender.title_row) (m : movie)
  (rest : list Recommender.title_row) (ratings : list rating) (w : world)
  (wl : list string) (wd : list watched_entry)
  (recommended : list string) (w1 : world) :
  fst (read_watch_later w) = Ok wl ->
  fst (read_watched w) = Ok wd ->
  Recommender.loop http_get emotion_classifier prefs
    (map (fun x => lower (Store.title x)) wd) (map lower wl)
    (Recommender.ratings_index (map Recommender.ratings_row_of ratings))
    before [] w
  = (Ok (Recommender.Returned recommended), w1) ->
  (List.length recommended < 3)%nat ->
  genre_gate prefs m = true ->
  year_gate prefs m = true ->
  dedup_gate (map (fun x => lower (Store.title x)) wd) (map lower wl) m
  = true ->
  rating_gate (ratings_index ratings) m <> None ->
  Scraper.fetch_most_supported_review http_get (movie_url m)
  = Scraper.Overflowed ->
  Recommender.recommend_based_on_preferences http_get emotion_classifier
    prefs (before ++ Recommender.title_row_of m :: rest)
    (map Recommender.ratings_row_of ratings) w
  = (Ok (Recommender.Uncaught Recommender.OverflowError),
     {| fs := fs w1; log := log w1 ++ [Fetch (movie_url m)] |}).
Proof.
  intros Hwl Hwd Hb L G Y D R O.
  apply (run_uncaught http_get emotion_classifier prefs before
           (Recommender.title_row_of m) rest _ w wl wd recommended w1 _ _
           Hwl Hwd Hb L).
  rewrite (consider_rated _ _ _ _ _ _ m recommended w1 G Y D).
  rewrite ratings_index_of, rate_of.
  destruct (rating_gate (ratings_index ratings) m) as [average_rating|];
    [|contradiction].
  unfold Recommender.judge_review, Recommender.fetch_most_supported_review,
    bind, emit, ret.
  cbn [Recommender.title_row_of Recommender.row_tconst
       Recommender.str_of_field].
  fold (movie_url m). rewrite O. reflexivity.
Qed.

Lemma recommend_overflow_aborts_witness :
  let run := Recommender.recommend_based_on_preferences Cases.huge_votes
               Samples.mostly_joy Samples.drama_joy_new
               (map Recommender.title_row_of Cases.two_dramas)
               (map Recommender.ratings_row_of Cases.good_ratings)
               Samples.fresh in
  fst run = Ok (Recommender.Uncaught Recommender.OverflowError)
  /\ watch_later_txt (fs (snd run)) = Some "Heat"
  /\ fetches (log (snd run)) = map movie_url Cases.two_dramas
  /\ writes (log (snd run)) = [WATCH_LATER_FILE].
Proof.
  intros run.
  pose (heat := Samples.film "tt1" "Heat" "2015" "Drama").
  pose (ran := Samples.film "tt2" "Ran" "2016" "Drama").
  pose (w1 := snd (Recommender.loop Cases.huge_votes Samples.mostly_joy
                     Samples.drama_joy_new [] []
                     (Recommender.ratings_index
                        (map Recommender.ratings_row_of Cases.good_ratings))
                     [Recommender.title_row_of heat] [] Samples.fresh)).
  assert (E : run
              = (Ok (Recommender.Uncaught Recommender.OverflowError),
                 {| fs := fs w1; log := log w1 ++ [Fetch (movie_url ran)] |})).
  { apply (recommend_overflow_aborts Cases.huge_votes Samples.mostly_joy
             Samples.drama_joy_new [Recommender.title_row_of heat] ran []
             Cases.good_ratings Samples.fresh [] [] ["Heat"] w1);
      try reflexivity.
    - simpl. lia.
    - discriminate. }
  rewrite E. vm_compute. repeat split.
Defined.

(** X26.  A line of the ratings table cut short ends the whole run.
    When a row of the catalog passes the genre, year and dedup gates and
    its ratings row has no average, or has an average that reads as a
    float but no vote count, and fewer than three titles were accepted
    among the rows before it, the run fails with the [TypeError] of
    [float(None)] or [int(None)], which the handler of [ValueError] does
    not catch: no page is requested for the row, the titles accepted
    before stay in the watch-later file, the rows that follow are not
    considered and no closing message is printed. *)
Theorem recommend_short_ratings_row
  (http_get : string -> option (Z * list Scraper.review_container))
  (emotion_classifier : string -> list (string * float))
  (prefs : preferences) (before : list Recommender.title_row) (m : movie)
  (rest : list Recommender.title_row)
  (ratings : list Recommender.ratings_row) (w : world)
  (wl : list string) (wd : list watched_entry)
  (recommended : list string) (w1 : world) (r : Recommender.ratings_row) :
  fst (read_watch_later w) = Ok wl ->
  fst (read_watched w) = Ok wd ->
  Recommender.loop http_get emotion_classifier prefs
    (map (fun x => lower (Store.title x)) wd) (map lower wl)
    (Recommender.ratings_index ratings) before [] w
  = (Ok (Recommender.Returned recommended), w1) ->
  (List.length recommended < 3)%nat ->
  genre_gate prefs m = true ->
  year_gate prefs m = true ->
  dedup_gate (map (fun x => lower (Store.title x)) wd) (map lower wl) m
  = true ->
  Recommender.table_get (Recommender.ratings_index ratings)
                        (Some (tconst m)) = Some r ->
  Recommender.row_averageRating r = None
  \/ (exists average_text,
        Recommender.row_averageRating r = Some average_text
        /\ py_float average_text <> None
        /\ Recommender.row_numVotes r = None) ->
  Recommender.recommend_based_on_preferences http_get emotion_classifier
    prefs (before ++ Recommender.title_row_of m :: rest) ratings w
  = (Ok (Recommender.Uncaught Recommender.TypeError), w1).
Proof.
  intros Hwl Hwd Hb L G Y D Hr Short.
  apply (run_uncaught http_get emotion_classifier prefs before
           (Recommender.title_row_of m) rest _ w wl wd recommended w1 _ _
           Hwl Hwd Hb L).
  rewrite (consider_rated _ _ _ _ _ _ m recommended w1 G Y D).
  unfold Recommender.rate.
  cbn [Recommender.title_row_of Recommender.row_tconst]. rewrite Hr.
  destruct Short as [A|[average_text [A [F V]]]]; rewrite A;
    [reflexivity|].
  destruct (py_float average_text); [|contradiction].
  rewrite V. reflexivity.
Qed.

Lemma recommend_short_ratings_row_witness :
  let run := Recommender.recommend_based_on_preferences Cases.pages
               Samples.mostly_joy Samples.drama_joy_new
               (map Recommender.title_row_of Cases.two_dramas)
               Cases.cut_ratings Samples.fresh in
  fst run = Ok (Recommender.Uncaught Recommender.TypeError)
  /\ watch_later_txt (fs (snd run)) = Some "Heat"
  /\ fetches (log (snd run))
     = [movie_url (Samples.film "tt1" "Heat" "2015" "Drama")].
Proof.
  intros run.
  pose (heat := Samples.film "tt1" "Heat" "2015" "Drama").
  pose (ran := Samples.film "tt2" "Ran" "2016" "Drama").
  pose (w1 := snd (Recommender.loop Cases.pages Samples.mostly_joy
                     Samples.drama_joy_new [] []
                     (Recommender.ratings_index Cases.cut_ratings)
                     [Recommender.title_row_of heat] [] Samples.fresh)).
  assert (E : run
              = (Ok (Recommender.Uncaught Recommender.TypeError), w1)).
  { apply (recommend_short_ratings_row Cases.pages Samples.mostly_joy
             Samples.drama_joy_new [Recommender.title_row_of heat] ran []
             Cases.cut_ratings Samples.fresh [] [] ["Heat"] w1
             {| Recommender.key_tconst := Some "tt2";
                Recommender.row_averageRating := Some "8.2";
                Recommender.row_numVotes := None |});
      try reflexivity.
    - simpl. lia.
    - right. exists "8.2". repeat split. discriminate. }
  rewrite E. vm_compute. repeat split.
Defined.

End RunFacts.

(* ================================================================== *)
(** * Integers written in decimal and read back *)
(* ================================================================== *)

Module DecimalFacts.
Import PyStr PyNum Journal Spec Props.

Lemma all_chars_has_char (p : ascii -> bool) (c : ascii) (s : string) :
  all_chars p s = true -> p c = false -> has_char c s = false.
Proof.
  intros H Hc. induction s as [|d s IH]; [reflexivity|].
  simpl in H. apply andb_true_iff in H. destruct H as [Hd Hs].
  simpl. rewrite (IH Hs), orb_false_r.
  destruct (Ascii.eqb_spec d c) as [->|_]; [congruence|reflexivity].
Qed.

Lemma all_chars_app (p : ascii -> bool) (a b : string) :
  all_chars p (a ++ b) = all_chars p a && all_chars p b.
Proof.
  induction a as [|c a IH]; simpl; [reflexivity|].
  rewrite IH, andb_assoc. reflexivity.
Qed.

(** ** The digits of a number *)

Lemma string_of_uint_digits (u : Decimal.uint) :
  all_chars is_digit (NilEmpty.string_of_uint u) = true.
Proof. induction u; simpl; try reflexivity; assumption. Qed.

Lemma digits_tail_uint (u : Decimal.uint) :
  forall acc n,
    digits_tail acc n (NilEmpty.string_of_uint u)
    = (uint_value acc u, (n + Decimal.nb_digits u)%nat, EmptyString).
Proof.
  induction u; intros acc n; simpl NilEmpty.string_of_uint;
    simpl uint_value; simpl Decimal.nb_digits;
    [simpl; rewrite Nat.add_0_r; reflexivity|..];
    (cbn [digits_tail]; cbv [is_digit code digit_val];
     simpl N_of_ascii; cbn [N.leb N.compare Pos.compare Pos.compare_cont
                            andb Z.of_N];
     rewrite IHu, Nat.add_succ_r; reflexivity).
Qed.

Lemma uint_value_acc (u : Decimal.uint) (acc : positive) :
  uint_value (Zpos acc) u = Zpos (Pos.of_uint_acc u acc).
Proof.
  revert acc. induction u; intros acc;
    cbn [uint_value Pos.of_uint_acc]; [reflexivity|..];
    rewrite <- IHu; f_equal; lia.
Qed.

Lemma uint_value_of_uint (u : Decimal.uint) :
  uint_value 0 u = Z.of_N (Pos.of_uint u).
Proof.
  induction u; simpl; try reflexivity; try exact IHu;
    apply uint_value_acc.
Qed.

Lemma digitpart_uint (u : Decimal.uint) :
  u <> Decimal.Nil ->
  digitpart (NilEmpty.string_of_uint u)
  = Some (uint_value 0 u, Decimal.nb_digits u, EmptyString).
Proof.
  destruct u; [contradiction|..]; intros _;
    simpl NilEmpty.string_of_uint; cbn [digitpart];
    cbv [is_digit code digit_val]; simpl N_of_ascii;
    cbn [N.leb N.compare Pos.compare Pos.compare_cont andb Z.of_N];
    rewrite digits_tail_uint; reflexivity.
Qed.

(** ** No blanks to skip *)

Lemma num_lstrip_none (s : string) :
  all_chars (fun c => negb (is_num_space c)) s = true -> num_lstrip s = s.
Proof.
  destruct s as [|c s]; [reflexivity|]. simpl.
  destruct (is_num_space c); [discriminate|reflexivity].
Qed.

Lemma num_rstrip_none (s : string) :
  all_chars (fun c => negb (is_num_space c)) s = true -> num_rstrip s = s.
Proof.
  induction s as [|c s IH]; [reflexivity|]. simpl.
  intros H. apply andb_true_iff in H. destruct H as [Hc Hs].
  rewrite (IH Hs). destruct s; [|reflexivity].
  destruct (is_num_space c); [discriminate|reflexivity].
Qed.

Lemma all_chars_weaken (p q : ascii -> bool) (s : string) :
  (forall c, p c = true -> q c = true) ->
  all_chars p s = true -> all_chars q s = true.
Proof.
  intros Hpq. induction s as [|c s IH]; [reflexivity|]. simpl.
  intros H. apply andb_true_iff in H. destruct H as [Hc Hs].
  rewrite (Hpq c Hc), (IH Hs). reflexivity.
Qed.

Lemma digit_not_num_space (c : ascii) :
  is_digit c = true -> negb (is_num_space c) = true.
Proof.
  unfold is_digit, is_num_space. destruct (code c) as [|p]; [discriminate|].
  intros H. apply andb_true_iff in H. destruct H as [H1 H2].
  apply N.leb_le in H1, H2.
  destruct (N.leb_spec 9 (N.pos p)); destruct (N.leb_spec (N.pos p) 13);
    destruct (N.eqb_spec (N.pos p) 32); destruct (N.eqb_spec (N.pos p) 133);
    destruct (N.eqb_spec (N.pos p) 160); simpl; try reflexivity; lia.
Qed.

Lemma digit_not_space (c : ascii) : is_digit c = true -> is_space c = false.
Proof.
  unfold is_digit, is_space. destruct (code c) as [|p]; [discriminate|].
  intros H. apply andb_true_iff in H. destruct H as [H1 H2].
  apply N.leb_le in H1, H2.
  destruct (N.leb_spec 9 (N.pos p)); destruct (N.leb_spec (N.pos p) 13);
    destruct (N.leb_spec 28 (N.pos p)); destruct (N.leb_spec (N.pos p) 32);
    destruct (N.eqb_spec (N.pos p) 133); destruct (N.eqb_spec (N.pos p) 160);
    simpl; try reflexivity; lia.
Qed.

Lemma num_strip_digits (s : string) :
  all_chars is_digit s = true -> num_strip s = s.
Proof.
  intros H.
  assert (N : all_chars (fun c => negb (is_num_space c)) s = true).
  { apply (all_chars_weaken is_digit); [apply digit_not_num_space|exact H]. }
  unfold num_strip. rewrite (num_lstrip_none s N). apply num_rstrip_none, N.
Qed.

(** ** [int(str(n))] *)

Lemma str_of_pos (p : positive) :
  str_of_int (Zpos p) = NilEmpty.string_of_uint (Pos.to_uint p).
Proof.
  unfold str_of_int. simpl.
  pose proof (Unsigned.to_uint_nonnil p) as N.
  destruct (Pos.to_uint p); [contradiction|..]; reflexivity.
Qed.

Lemma str_of_neg (p : positive) :
  str_of_int (Zneg p)
  = String "-" (NilEmpty.string_of_uint (Pos.to_uint p)).
Proof.
  unfold str_of_int. simpl. f_equal.
  pose proof (Unsigned.to_uint_nonnil p) as N.
  destruct (Pos.to_uint p); [contradiction|..]; reflexivity.
Qed.

Lemma digitpart_pos (p : positive) :
  digitpart (NilEmpty.string_of_uint (Pos.to_uint p))
  = Some (Zpos p, Decimal.nb_digits (Pos.to_uint p), EmptyString).
Proof.
  rewrite (digitpart_uint _ (Unsigned.to_uint_nonnil p)).
  rewrite uint_value_of_uint, DecimalPos.Unsigned.of_to. reflexivity.
Qed.

Lemma length_string_of_uint (u : Decimal.uint) :
  String.length (NilEmpty.string_of_uint u) = Decimal.nb_digits u.
Proof. induction u; simpl; try reflexivity; f_equal; assumption. Qed.

Lemma sign_of_digits (s : string) :
  all_chars is_digit s = true -> sign_of s = (false, s).
Proof.
  destruct s as [|c s]; [reflexivity|]. simpl. intros H.
  apply andb_true_iff in H. destruct H as [Hc _].
  destruct (Ascii.eqb_spec c "-") as [->|_]; [discriminate|].
  destruct (Ascii.eqb_spec c "+") as [->|_]; [discriminate|reflexivity].
Qed.

(** The decimal text of an integer reads back as that integer, when it
    is not longer than the digits that [int] reads. *)
Lemma py_int_str_of_int (n : Z) :
  Z.of_nat (String.length (str_of_int n)) <= int_max_str_digits ->
  py_int (str_of_int n) = Some n.
Proof.
  destruct n as [|p|p]; intros L.
  - reflexivity.
  - rewrite str_of_pos in *. rewrite length_string_of_uint in L.
    unfold py_int.
    pose proof (string_of_uint_digits (Pos.to_uint p)) as D.
    rewrite (num_strip_digits _ D), (sign_of_digits _ D), digitpart_pos.
    destruct (Z.ltb_spec int_max_str_digits
                (Z.of_nat (Decimal.nb_digits (Pos.to_uint p))));
      [lia|reflexivity].
  - rewrite str_of_neg in *. cbn [String.length] in L.
    rewrite length_string_of_uint in L. unfold py_int.
    pose proof (string_of_uint_digits (Pos.to_uint p)) as D.
    assert (S : num_strip
                  (String "-" (NilEmpty.string_of_uint (Pos.to_uint p)))
                = String "-" (NilEmpty.string_of_uint (Pos.to_uint p))).
    { assert (N : all_chars (fun c => negb (is_num_space c))
                    (String "-" (NilEmpty.string_of_uint (Pos.to_uint p)))
                  = true).
      { simpl.
        apply (all_chars_weaken is_digit);
          [apply digit_not_num_space|exact D]. }
      unfold num_strip. rewrite (num_lstrip_none _ N).
      apply num_rstrip_none, N. }
    rewrite S. cbn [sign_of]. simpl Ascii.eqb. cbv iota.
    rewrite digitpart_pos.
    destruct (Z.ltb_spec int_max_str_digits
                (Z.of_nat (Decimal.nb_digits (Pos.to_uint p))));
      [lia|reflexivity].
Qed.

(** A text of digits only that is longer than that is refused. *)
Lemma digits_tail_digits (s : string) :
  all_chars is_digit s = true ->
  forall acc n,
    exists v,
      digits_tail acc n s = (v, (n + String.length s)%nat, EmptyString).
Proof.
  induction s as [|c s IH]; intros D acc n.
  - exists acc. simpl. rewrite Nat.add_0_r. reflexivity.
  - simpl in D. apply andb_true_iff in D. destruct D as [Dc Ds].
    cbn [digits_tail String.length]. rewrite Dc.
    destruct (IH Ds (10 * acc + digit_val c) (S n)) as [v E].
    exists v. rewrite E, Nat.add_succ_r. reflexivity.
Qed.

Lemma py_int_too_long (s : string) :
  all_chars is_digit s = true ->
  int_max_str_digits < Z.of_nat (String.length s) ->
  py_int s = None.
Proof.
  intros D L. unfold py_int.
  rewrite (num_strip_digits _ D), (sign_of_digits _ D).
  destruct s as [|c s]; [reflexivity|].
  simpl in D. apply andb_true_iff in D. destruct D as [Dc Ds].
  cbn [digitpart]. rewrite Dc.
  destruct (digits_tail_digits s Ds (digit_val c) 1%nat) as [v E].
  rewrite E. cbn [String.length] in L.
  destruct (Z.ltb_spec int_max_str_digits
              (Z.of_nat (1 + String.length s))); [reflexivity|lia].
Qed.

(** The text of a positive integer: digits only, at least one. *)
Lemma str_of_int_digits (n : Z) :
  0 < n ->
  all_chars is_digit (str_of_int n) = true /\ truthy (str_of_int n) = true.
Proof.
  destruct n as [|p|p]; try lia. intros _. rewrite str_of_pos.
  split; [apply string_of_uint_digits|].
  pose proof (Unsigned.to_uint_nonnil p) as N.
  destruct (Pos.to_uint p); [contradiction|..]; reflexivity.
Qed.

End DecimalFacts.

(* ================================================================== *)
(** * The watched list written and read back *)
(* ================================================================== *)

Module JournalFacts.
Import PyStr PyNum Runtime Store Journal Spec Props StrFacts.

Local Notation "a +++ b" := (String.append a b)
  (at level 60, right associativity).

(** ** Newline translation and lines of a text that grows *)

Lemma universal_newlines_app (a b : string) (c : ascii) :
  Ascii.eqb c "010" = false ->
  universal_newlines (a +++ String c b)
  = universal_newlines a +++ universal_newlines (String c b).
Proof.
  intros Hc.
  assert (G : forall n a, (String.length a <= n)%nat ->
                universal_newlines (a +++ String c b)
                = universal_newlines a +++ universal_newlines (String c b)).
  { induction n as [|n IH]; intros [|x a'] L; simpl in L;
      try reflexivity; try lia.
    change (String x a' +++ String c b) with (String x (a' +++ String c b)).
    cbn [universal_newlines].
    destruct (Ascii.eqb x "013") eqn:Ex.
    - destruct a' as [|d a''].
      + change ("" +++ String c b) with (String c b). cbv iota.
        rewrite Hc. reflexivity.
      + change (String d a'' +++ String c b)
          with (String d (a'' +++ String c b)). cbv iota.
        destruct (Ascii.eqb d "010") eqn:Ed.
        * rewrite (IH a'') by (simpl in L; lia). reflexivity.
        * change (String d (a'' +++ String c b))
            with (String d a'' +++ String c b).
          rewrite (IH (String d a'')) by lia. reflexivity.
    - rewrite (IH a') by lia. reflexivity. }
  apply (G (String.length a)). lia.
Qed.

Lemma terminated_cons (x : ascii) (s : string) :
  terminated s -> truthy s = true -> terminated (String x s).
Proof.
  intros [->|[body ->]] T; [discriminate|].
  right. exists (String x body). reflexivity.
Qed.

Lemma terminated_universal_newlines (s : string) :
  terminated s -> terminated (universal_newlines s).
Proof.
  assert (G : forall n body, (String.length body <= n)%nat ->
                terminated (universal_newlines (body +++ LF))
                /\ truthy (universal_newlines (body +++ LF)) = true).
  { induction n as [|n IH]; intros [|x body] L; simpl in L; try lia;
      try (split; [right; exists ""; reflexivity|reflexivity]).
    change (String x body +++ LF) with (String x (body +++ LF)).
    cbn [universal_newlines].
    destruct (Ascii.eqb x "013").
    - destruct body as [|d body'].
      + split; [right; exists ""; reflexivity|reflexivity].
      + change (String d body' +++ LF) with (String d (body' +++ LF)).
        cbv iota. destruct (Ascii.eqb d "010").
        * destruct (IH body') as [T1 T2]; [simpl in L; lia|].
          split; [apply terminated_cons; assumption|reflexivity].
        * change (String d (body' +++ LF)) with (String d body' +++ LF).
          destruct (IH (String d body')) as [T1 T2]; [lia|].
          split; [apply terminated_cons; assumption|reflexivity].
    - destruct (IH body) as [T1 T2]; [lia|].
      split; [apply terminated_cons; assumption|reflexivity]. }
  intros [->|[body ->]]; [left; reflexivity|].
  apply (G (String.length body)). lia.
Qed.

Lemma lines_app (x y : string) :
  terminated x -> lines (x +++ y) = lines x ++ lines y.
Proof.
  intros [->|[body ->]]; [reflexivity|].
  assert (G : lines ((body +++ LF) +++ y) = lines (body +++ LF) ++ lines y
              /\ lines (body +++ LF) <> []).
  { induction body as [|c body [IH N]].
    - split; [reflexivity|discriminate].
    - change ((String c body +++ LF) +++ y)
        with (String c ((body +++ LF) +++ y)).
      change (String c body +++ LF) with (String c (body +++ LF)).
      cbn [lines]. destruct (Ascii.eqb c "010").
      + rewrite IH. split; [reflexivity|discriminate].
      + rewrite IH. destruct (lines (body +++ LF)) as [|l ls];
          [contradiction|]. split; [reflexivity|discriminate]. }
  apply G.
Qed.

(** ** Splitting at a separator *)

Lemma split_plain_at (sep : ascii) (a : string) :
  has_char sep a = false -> split sep a = [a].
Proof.
  induction a as [|c a IH]; simpl; [reflexivity|].
  intros H. apply orb_false_iff in H. destruct H as [Hc Ha].
  rewrite Hc, (IH Ha). reflexivity.
Qed.

Lemma split_app_at (sep : ascii) (a rest : string) :
  has_char sep a = false ->
  split sep (a +++ String sep rest) = a :: split sep rest.
Proof.
  induction a as [|c a IH]; simpl.
  - intros _. rewrite Ascii.eqb_refl. reflexivity.
  - intros H. apply orb_false_iff in H. destruct H as [Hc Ha].
    rewrite Hc, (IH Ha). reflexivity.
Qed.

Lemma split1_app_at (sep : ascii) (a rest : string) :
  has_char sep a = false ->
  split1 sep (a +++ String sep rest) = [a; rest].
Proof.
  induction a as [|c a IH]; simpl.
  - intros _. rewrite Ascii.eqb_refl. reflexivity.
  - intros H. apply orb_false_iff in H. destruct H as [Hc Ha].
    rewrite Hc, (IH Ha). reflexivity.
Qed.

Lemma split_length (sep : ascii) (s : string) :
  List.length (split sep s) = S (count_char sep s).
Proof.
  induction s as [|c s IH]; simpl; [reflexivity|].
  destruct (Ascii.eqb c sep); simpl; [rewrite IH; reflexivity|].
  destruct (split sep s) as [|x xs]; simpl in *; [discriminate|exact IH].
Qed.

(** ** Counting a character *)

Lemma count_char_app (c : ascii) (a b : string) :
  count_char c (a +++ b) = (count_char c a + count_char c b)%nat.
Proof.
  induction a as [|x a IH]; simpl; [reflexivity|]. rewrite IH. lia.
Qed.

Lemma count_char_none (c : ascii) (s : string) :
  has_char c s = false -> count_char c s = O.
Proof.
  induction s as [|x s IH]; simpl; [reflexivity|].
  intros H. apply orb_false_iff in H. destruct H as [Hx Hs].
  rewrite Hx, (IH Hs). reflexivity.
Qed.

Lemma count_char_some (c : ascii) (s : string) :
  has_char c s = true -> (1 <= count_char c s)%nat.
Proof.
  induction s as [|x s IH]; simpl; [discriminate|].
  destruct (Ascii.eqb x c); [lia|]. simpl. exact IH.
Qed.

Lemma count_char_lstrip (c : ascii) (s : string) :
  is_space c = false -> count_char c (lstrip s) = count_char c s.
Proof.
  intros Hc. induction s as [|x s IH]; simpl; [reflexivity|].
  destruct (is_space x) eqn:Ex; [|reflexivity].
  rewrite IH. destruct (Ascii.eqb_spec x c) as [->|_]; [congruence|].
  reflexivity.
Qed.

Lemma count_char_rstrip (c : ascii) (s : string) :
  is_space c = false -> count_char c (rstrip s) = count_char c s.
Proof.
  intros Hc. induction s as [|x s IH]; simpl; [reflexivity|].
  destruct (rstrip s) as [|y r] eqn:E.
  - simpl in IH. rewrite <- IH.
    destruct (is_space x) eqn:Ex; simpl; [|lia].
    destruct (Ascii.eqb_spec x c) as [->|_]; [congruence|reflexivity].
  - cbn [count_char] in *. rewrite IH. reflexivity.
Qed.

Lemma count_char_strip (c : ascii) (s : string) :
  is_space c = false -> count_char c (strip s) = count_char c s.
Proof.
  intros Hc. unfold strip.
  rewrite (count_char_rstrip c _ Hc). apply count_char_lstrip, Hc.
Qed.

(** ** One line of the file *)

Lemma watched_line_stem (n : Z) (title review status : string) :
  watched_line n title review status
  = watched_stem (str_of_int n) title review status +++ LF.
Proof.
  unfold watched_line, watched_stem. rewrite !append_assoc. reflexivity.
Qed.

Section Line.
Variable n : Z.
Variables title review status : string.
Hypothesis n_pos : 0 < n.

Let head := str_of_int n.
Let stem := watched_stem head title review status.

Lemma head_digits : all_chars is_digit head = true /\ truthy head = true.
Proof. apply DecimalFacts.str_of_int_digits, n_pos. Qed.

Lemma head_without (c : ascii) : is_digit c = false -> has_char c head = false.
Proof.
  intros Hc. apply (DecimalFacts.all_chars_has_char is_digit);
    [apply head_digits|exact Hc].
Qed.

Lemma head_lstrip : lstrip head = head.
Proof.
  destruct head_digits as [D T]. destruct head as [|c h]; [discriminate|].
  simpl in D. apply andb_true_iff in D. destruct D as [Dc _].
  simpl. rewrite (DecimalFacts.digit_not_space c Dc). reflexivity.
Qed.

Lemma stem_has_char (c : ascii) :
  has_char c stem
  = has_char c head || Ascii.eqb "." c || has_char c title
    || Ascii.eqb ":" c || has_char c review
    || Ascii.eqb ":" c || has_char c status.
Proof.
  unfold stem, watched_stem.
  rewrite !has_char_app, !has_char_cons, !orb_assoc. reflexivity.
Qed.

Lemma stem_count (c : ascii) :
  count_char c stem
  = (count_char c head + (if Ascii.eqb "." c then 1 else 0)
     + count_char c title + (if Ascii.eqb ":" c then 1 else 0)
     + count_char c review + (if Ascii.eqb ":" c then 1 else 0)
     + count_char c status)%nat.
Proof.
  unfold stem, watched_stem.
  rewrite !count_char_app. cbn [count_char]. lia.
Qed.

Lemma stem_lstrip (rest : string) : lstrip (stem +++ rest) = stem +++ rest.
Proof.
  unfold stem, watched_stem. rewrite append_assoc.
  apply lstrip_app; [apply head_digits|apply head_lstrip].
Qed.

(** The line is one line of the file when no field breaks it. *)
Lemma line_alone :
  has_char "010" title = false -> has_char "010" review = false ->
  has_char "010" status = false ->
  has_char "013" title = false -> has_char "013" review = false ->
  has_char "013" status = false ->
  lines (universal_newlines (stem +++ LF)) = [stem +++ LF].
Proof.
  intros L1 L2 L3 R1 R2 R3.
  assert (Hr : has_char "013" (stem +++ LF) = false).
  { rewrite has_char_app, stem_has_char, R1, R2, R3.
    rewrite (head_without "013" eq_refl). reflexivity. }
  rewrite (universal_newlines_id _ Hr).
  assert (Hl : has_char "010" stem = false).
  { rewrite stem_has_char, L1, L2, L3.
    rewrite (head_without "010" eq_refl). reflexivity. }
  apply (lines_cons stem "" Hl).
Qed.

(** The line parses into its four fields. *)
Lemma line_parsed :
  has_char ":" title = false -> has_char ":" review = false ->
  has_char ":" status = false -> strip status = status ->
  watched_of_line (stem +++ LF)
  = [{| number := head; Store.title := title; Store.review := review;
        Store.status := status |}].
Proof.
  intros C1 C2 C3 S.
  assert (E : strip (stem +++ LF) = stem).
  { unfold strip. rewrite stem_lstrip.
    change LF with (String "010" "").
    rewrite rstrip_space_end by reflexivity.
    assert (A : stem
                = (head +++ String "." title +++ String ":" review)
                  +++ String ":" status).
    { unfold stem, watched_stem. rewrite !append_assoc. reflexivity. }
    rewrite A. apply rstrip_app; [reflexivity|].
    apply strip_fixed in S. destruct S as [_ R].
    cbn [rstrip]. rewrite R. destruct status; reflexivity. }
  unfold watched_of_line. rewrite E.
  assert (T : truthy stem = true).
  { unfold stem, watched_stem. destruct head_digits as [_ T].
    destruct head; [discriminate|reflexivity]. }
  rewrite T.
  assert (Sp : split ":" stem = [head +++ String "." title; review; status]).
  { unfold stem, watched_stem.
    assert (A : head +++ String "." title +++ String ":" review
                +++ String ":" status
                = (head +++ String "." title)
                  +++ String ":" (review +++ String ":" status)).
    { rewrite !append_assoc. reflexivity. }
    rewrite A, split_app_at.
    - rewrite split_app_at by exact C2.
      rewrite split_plain_at by exact C3. reflexivity.
    - rewrite has_char_app, has_char_cons, C1.
      rewrite (head_without ":" eq_refl). reflexivity. }
  rewrite Sp.
  rewrite split1_app_at by (apply (head_without "." eq_refl)).
  reflexivity.
Qed.

(** A colon in a field leaves too many parts: the line is dropped. *)
Lemma line_dropped :
  has_char ":" title || has_char ":" review || has_char ":" status = true ->
  watched_of_line (stem +++ LF) = [].
Proof.
  intros C. unfold watched_of_line.
  destruct (truthy (strip (stem +++ LF))); [|reflexivity].
  pose proof (split_length ":" (strip (stem +++ LF))) as L.
  rewrite count_char_strip in L by reflexivity.
  rewrite count_char_app, stem_count in L. cbn [Ascii.eqb] in L.
  assert (G : (1 <= count_char ":" title + count_char ":" review
                    + count_char ":" status)%nat).
  { apply orb_true_iff in C. destruct C as [C|C];
      [apply orb_true_iff in C; destruct C as [C|C]|];
      apply count_char_some in C; lia. }
  destruct (split ":" (strip (stem +++ LF))) as [|p0 [|p1 [|p2 [|p3 ps]]]];
    try reflexivity.
  exfalso. simpl in L. lia.
Qed.

(** The entries of a file that got the line at its end. *)
Lemma entries_grow (old : string) :
  terminated old ->
  has_char "010" title = false -> has_char "010" review = false ->
  has_char "010" status = false ->
  has_char "013" title = false -> has_char "013" review = false ->
  has_char "013" status = false ->
  entries_of_text (old +++ stem +++ LF)
  = entries_of_text old ++ watched_of_line (stem +++ LF).
Proof.
  intros T L1 L2 L3 R1 R2 R3. unfold entries_of_text.
  assert (Shape : exists c rest,
             stem +++ LF = String c rest /\ Ascii.eqb c "010" = false).
  { unfold stem, watched_stem. destruct head_digits as [D Tr].
    destruct head as [|c h]; [discriminate|].
    simpl in D. apply andb_true_iff in D. destruct D as [Dc _].
    eexists c, _. split; [reflexivity|].
    destruct (Ascii.eqb_spec c "010") as [->|_]; [discriminate|reflexivity]. }
  destruct Shape as [c [rest [E Hc]]].
  rewrite E, (universal_newlines_app old rest c Hc), <- E.
  rewrite lines_app by (apply terminated_universal_newlines, T).
  rewrite flat_map_app, (line_alone L1 L2 L3 R1 R2 R3).
  simpl. rewrite app_nil_r. reflexivity.
Qed.

End Line.

Lemma read_watched_text (w : world) :
  read_watched w
  = (Ok match watched_txt (fs w) with
        | Some text => entries_of_text text
        | None => []
        end, w).
Proof.
  unfold read_watched, bind, path_exists, read_text, ret, file_get.
  destruct (watched_txt (fs w)) as [c|] eqn:E; cbv beta iota;
    [|reflexivity].
  rewrite E. reflexivity.
Qed.

(** The world after [append_watched], and what the file holds then. *)
Lemma append_watched_world (title review status : string) (w : world)
  (entries : list watched_entry) :
  fst (read_watched w) = Ok entries ->
  let old := match watched_txt (fs w) with
             | Some text => text
             | None => EmptyString
             end in
  let line := watched_line (Z.of_nat (List.length entries) + 1)
                           title review status in
  append_watched title review status w
  = (Ok tt, {| fs := file_set WATCHED_FILE (old +++ line) (fs w);
               log := log w ++ [Write WATCHED_FILE (old +++ line)] |})
  /\ entries = entries_of_text old.
Proof.
  rewrite read_watched_text. simpl fst. intros H. injection H as H.
  intros old line. split.
  - unfold append_watched, bind. rewrite read_watched_text, H.
    reflexivity.
  - rewrite <- H. unfold old. destruct (watched_txt (fs w)); reflexivity.
Qed.

Lemma old_terminated (w : world) :
  (forall text, watched_txt (fs w) = Some text -> terminated text) ->
  terminated match watched_txt (fs w) with
             | Some text => text
             | None => EmptyString
             end.
Proof.
  intros H. destruct (watched_txt (fs w)) as [text|];
    [apply H; reflexivity|left; reflexivity].
Qed.

(** X8.  Adding an entry to the watched list and reading the list back
    gives the old entries followed by the new one, numbered one more
    than the number of entries read before.  This holds when the file,
    if present, is empty or ends with a line feed, the three fields have
    no colon and no line break, and the status has no white space at
    its ends.  The file then ends with a line feed again, and the two
    other files are left as they were. *)
Theorem append_watched_then_read
  (title review status : string) (w : world)
  (entries : list watched_entry) :
  fst (read_watched w) = Ok entries ->
  (forall text, watched_txt (fs w) = Some text -> terminated text) ->
  plain_field title -> plain_field review -> plain_field status ->
  strip status = status ->
  exists w',
    append_watched title review status w = (Ok tt, w')
    /\ fst (read_watched w')
       = Ok (entries
             ++ [{| number := str_of_int (Z.of_nat (List.length entries) + 1);
                    Store.title := title;
                    Store.review := review;
                    Store.status := status |}])
    /\ (exists text, watched_txt (fs w') = Some text /\ terminated text)
    /\ preferences_txt (fs w') = preferences_txt (fs w)
    /\ watch_later_txt (fs w') = watch_later_txt (fs w).
Proof.
  intros Hr Ht [C1 [L1 R1]] [C2 [L2 R2]] [C3 [L3 R3]] S.
  destruct (append_watched_world title review status w entries Hr)
    as [E Eold].
  assert (Hn : 0 < Z.of_nat (List.length entries) + 1) by lia.
  eexists. split; [exact E|]. split; [|split; [|split; reflexivity]].
  - rewrite read_watched_text. simpl.
    rewrite watched_line_stem.
    rewrite (entries_grow _ title review status Hn _ (old_terminated w Ht)
               L1 L2 L3 R1 R2 R3).
    rewrite (line_parsed _ title review status Hn C1 C2 C3 S), <- Eold.
    reflexivity.
  - eexists. split; [reflexivity|]. right.
    rewrite watched_line_stem, <- append_assoc. eexists. reflexivity.
Qed.

Lemma append_watched_then_read_witness :
  exists w',
    append_watched "Ran" "A storm of colour"
      (determine_sentiment Cases.cheerful "A storm of colour")
      Cases.one_watched
    = (Ok tt, w')
    /\ fst (read_watched w')
       = Ok [Cases.heat_entry;
             {| number := "2"; Store.title := "Ran";
                Store.review := "A storm of colour";
                Store.status := "like" |}].
Proof.
  destruct (append_watched_then_read "Ran" "A storm of colour" "like"
              Cases.one_watched [Cases.heat_entry] eq_refl)
    as [w' [E [R _]]].
  - intros text H. injection H as <-. right.
    exists "1.Heat:Great film:like". reflexivity.
  - repeat split.
  - repeat split.
  - repeat split.
  - reflexivity.
  - exists w'. split; [exact E|exact R].
Defined.

(** X9.  An entry with a colon in its title, review or status is
    written at the end of the file but never read back: the list read
    afterwards is the list as it was.  The file, if present, is taken
    to be empty or to end with a line feed, and the fields to have no
    line break. *)
Theorem append_watched_colon_lost
  (title review status : string) (w : world)
  (entries : list watched_entry) :
  fst (read_watched w) = Ok entries ->
  (forall text, watched_txt (fs w) = Some text -> terminated text) ->
  Forall (fun x => has_char "010" x = false /\ has_char "013" x = false)
         [title; review; status] ->
  has_char ":" title || has_char ":" review || has_char ":" status = true ->
  exists w',
    append_watched title review status w = (Ok tt, w')
    /\ watched_txt (fs w')
       = Some (match watched_txt (fs w) with
               | Some text => text
               | None => EmptyString
               end
               +++ watched_line (Z.of_nat (List.length entries) + 1)
                                title review status)
    /\ fst (read_watched w') = Ok entries.
Proof.
  intros Hr Ht Hf C.
  inversion Hf as [|? ? [L1 R1] Hf1]; subst.
  inversion Hf1 as [|? ? [L2 R2] Hf2]; subst.
  inversion Hf2 as [|? ? [L3 R3] _]; subst.
  destruct (append_watched_world title review status w entries Hr)
    as [E Eold].
  assert (Hn : 0 < Z.of_nat (List.length entries) + 1) by lia.
  eexists. split; [exact E|]. split; [reflexivity|].
  rewrite read_watched_text. simpl.
  rewrite watched_line_stem.
  rewrite (entries_grow _ title review status Hn _ (old_terminated w Ht)
             L1 L2 L3 R1 R2 R3).
  rewrite (line_dropped _ title review status C), <- Eold.
  apply f_equal, app_nil_r.
Qed.

Lemma append_watched_colon_lost_witness :
  exists w',
    append_watched "Ran" "Kurosawa: late and great" "like" Cases.one_watched
    = (Ok tt, w')
    /\ watched_txt (fs w')
       = Some ("1.Heat:Great film:like" +++ LF
               +++ "2.Ran:Kurosawa: late and great:like" +++ LF)
    /\ fst (read_watched w') = Ok [Cases.heat_entry].
Proof.
  destruct (append_watched_colon_lost "Ran" "Kurosawa: late and great"
              "like" Cases.one_watched [Cases.heat_entry] eq_refl)
    as [w' [E [F R]]].
  - intros text H. injection H as <-. right.
    exists "1.Heat:Great film:like". reflexivity.
  - repeat constructor.
  - reflexivity.
  - exists w'. split; [exact E|]. split; [exact F|exact R].
Defined.

End JournalFacts.

(* ================================================================== *)
(** * Looking up a rating; recommending without preferences *)
(* ================================================================== *)

Module MenuFacts.
Import PyStr PyNum PyDict Runtime Store Engine Menu Spec Props.

(** ** The two lookups of a rating *)

Lemma ratings_index_snoc (ratings : list rating) (r : rating) :
  ratings_index (ratings ++ [r])
  = set (ratings_index ratings) (rating_tconst r) r.
Proof. unfold ratings_index. rewrite fold_left_app. reflexivity. Qed.

Lemma ratings_index_last (ratings : list rating) (tconst : string) :
  get (ratings_index ratings) tconst = first_rating (rev ratings) tconst.
Proof.
  induction ratings as [|r ratings IH] using rev_ind; [reflexivity|].
  rewrite ratings_index_snoc, DictFacts.get_set, rev_app_distr, IH.
  reflexivity.
Qed.

Lemma first_rating_found (ratings : list rating) (tconst : string)
  (r : rating) :
  NoDup (map rating_tconst ratings) ->
  In r ratings -> rating_tconst r = tconst ->
  first_rating ratings tconst = Some r.
Proof.
  unfold first_rating.
  induction ratings as [|r0 ratings IH]; simpl; [intros _ []|].
  intros N Hin Hk. inversion N as [|? ? N0 N1]; subst.
  destruct Hin as [->|Hin]; [rewrite String.eqb_refl; reflexivity|].
  destruct (String.eqb_spec (rating_tconst r0) (rating_tconst r)) as [E|_].
  - exfalso. apply N0. rewrite E. apply in_map, Hin.
  - apply IH; [exact N1|exact Hin|reflexivity].
Qed.

Lemma first_rating_some (ratings : list rating) (tconst : string)
  (r : rating) :
  first_rating ratings tconst = Some r ->
  In r ratings /\ rating_tconst r = tconst.
Proof.
  unfold first_rating. intros H. apply find_some in H.
  destruct H as [Hin E]. split; [exact Hin|].
  apply String.eqb_eq, E.
Qed.

(** X10.  The matching loop looks a rating up in a dictionary built from
    the table, the title search takes the first row of the table with
    the identifier: the dictionary holds, for each identifier, the last
    row that carries it.  The two lookups agree on a table that has at
    most one row for each identifier. *)
Theorem rating_lookups (ratings : list rating) (tconst : string) :
  get (ratings_index ratings) tconst = first_rating (rev ratings) tconst
  /\ (NoDup (map rating_tconst ratings) ->
      get (ratings_index ratings) tconst = first_rating ratings tconst).
Proof.
  split; [apply ratings_index_last|].
  intros N. rewrite ratings_index_last.
  destruct (first_rating ratings tconst) as [r|] eqn:E.
  - apply first_rating_some in E. destruct E as [Hin Hk].
    apply first_rating_found; [|apply in_rev in Hin; exact Hin|exact Hk].
    rewrite map_rev. apply NoDup_rev, N.
  - destruct (first_rating (rev ratings) tconst) as [r|] eqn:E';
      [|reflexivity].
    apply first_rating_some in E'. destruct E' as [Hin Hk].
    apply in_rev in Hin.
    rewrite (first_rating_found ratings tconst r N Hin Hk) in E.
    discriminate E.
Qed.

Lemma rating_lookups_witness :
  let ratings := [Samples.rated "tt1" "8.0" "100000";
                  Samples.rated "tt2" "7.0" "60000"] in
  NoDup (map rating_tconst ratings)
  /\ get (ratings_index ratings) "tt2"
     = Some (Samples.rated "tt2" "7.0" "60000")
  /\ first_rating ratings "tt2" = Some (Samples.rated "tt2" "7.0" "60000").
Proof.
  intros ratings.
  assert (N : NoDup (map rating_tconst ratings)).
  { repeat constructor; simpl; intuition discriminate. }
  split; [exact N|].
  rewrite (proj2 (rating_lookups ratings "tt2") N).
  split; reflexivity.
Defined.

(** ** [recommend_movie] *)

Lemma recommend_movie_unset
  (review_page : string -> option string)
  (emotion_classifier : string -> list (string * float))
  (full_titles : list movie) (ratings : list rating) (w : world) :
  read_preferences w
  = (Ok {| Genres := []; Emotions := []; Year := "" |}, w) ->
  recommend_movie review_page emotion_classifier full_titles ratings w
  = (Ok tt,
     {| fs := fs w;
        log := log w
               ++ [Print
                     "Preferences are not set. Please renew preferences first."]
     |}).
Proof.
  intros H. unfold recommend_movie, bind. rewrite H. reflexivity.
Qed.

(** X11.  Without a preferences file, and also right after the
    preferences were reset to empty values (which is how the renewal
    starts), [recommend_movie] does not run the recommender: it prints
    that the preferences are not set, fetches no page and leaves every
    file as it is. *)
Theorem recommend_movie_without_preferences
  (review_page : string -> option string)
  (emotion_classifier : string -> list (string * float))
  (full_titles : list movie) (ratings : list rating) (w : world) :
  let notice :=
    Print "Preferences are not set. Please renew preferences first." in
  (preferences_txt (fs w) = None ->
   recommend_movie review_page emotion_classifier full_titles ratings w
   = (Ok tt, {| fs := fs w; log := log w ++ [notice] |}))
  /\ (forall w1,
        write_preferences {| Genres := []; Emotions := []; Year := "" |} w
        = (Ok tt, w1) ->
        recommend_movie review_page emotion_classifier full_titles ratings w1
        = (Ok tt, {| fs := fs w1; log := log w1 ++ [notice] |})).
Proof.
  intros notice. split.
  - intros H. apply recommend_movie_unset.
    unfold read_preferences, bind, path_exists, read_text, ret, file_get.
    rewrite H. reflexivity.
  - intros w1 H. apply recommend_movie_unset.
    unfold write_preferences, write_text in H. injection H as <-.
    reflexivity.
Qed.

Lemma recommend_movie_without_preferences_witness :
  recommend_movie Samples.any_review Samples.mostly_joy Cases.two_dramas
                  Cases.good_ratings Samples.fresh
  = (Ok tt,
     {| fs := Samples.no_files;
        log := [Print
                  "Preferences are not set. Please renew preferences first."]
     |}).
Proof.
  apply (proj1 (recommend_movie_without_preferences
                  Samples.any_review Samples.mostly_joy Cases.two_dramas
                  Cases.good_ratings Samples.fresh)).
  reflexivity.
Defined.

End MenuFacts.

(* ================================================================== *)
(** * The most supported review of a page *)
(* ================================================================== *)

Module ScraperFacts.
Import PyStr PyNum Journal Scraper Spec Props.

(** ** The votes of one card *)

Lemma strip_no_space (s : string) :
  all_chars (fun c => negb (is_space c)) s = true -> strip s = s.
Proof.
  intros H. apply StrFacts.strip_of_fixed.
  - destruct s as [|c s]; [reflexivity|]. simpl in *.
    destruct (is_space c); [discriminate|reflexivity].
  - induction s as [|c s IH]; [reflexivity|]. simpl in *.
    apply andb_true_iff in H. destruct H as [Hc Hs].
    rewrite (IH Hs). destruct s; [|reflexivity].
    destruct (is_space c); [discriminate|reflexivity].
Qed.

Lemma str_of_int_chars (n : Z) :
  all_chars (fun c => is_digit c || Ascii.eqb c "-") (str_of_int n) = true.
Proof.
  assert (D : forall p,
             all_chars (fun c => is_digit c || Ascii.eqb c "-")
                       (NilEmpty.string_of_uint (Pos.to_uint p)) = true).
  { intros p. apply (DecimalFacts.all_chars_weaken is_digit).
    - intros c ->. reflexivity.
    - apply DecimalFacts.string_of_uint_digits. }
  destruct n as [|p|p].
  - reflexivity.
  - rewrite DecimalFacts.str_of_pos. apply D.
  - rewrite DecimalFacts.str_of_neg. simpl. apply D.
Qed.

Lemma digit_or_minus_not_space (c : ascii) :
  is_digit c || Ascii.eqb c "-" = true -> negb (is_space c) = true.
Proof.
  intros H. apply orb_true_iff in H. destruct H as [H|H].
  - rewrite (DecimalFacts.digit_not_space c H). reflexivity.
  - apply Ascii.eqb_eq in H. subst c. reflexivity.
Qed.

Lemma digit_or_minus_not_K (c : ascii) :
  is_digit c || Ascii.eqb c "-" = true -> Ascii.eqb c "K" = false.
Proof.
  intros H. destruct (Ascii.eqb_spec c "K") as [->|_]; [|reflexivity].
  discriminate H.
Qed.

Lemma has_char_none (c : ascii) (p : ascii -> bool) (s : string) :
  all_chars p s = true -> (forall d, p d = true -> Ascii.eqb d c = false) ->
  has_char c s = false.
Proof.
  intros H Hp. induction s as [|d s IH]; [reflexivity|].
  simpl in H. apply andb_true_iff in H. destruct H as [Hd Hs].
  simpl. rewrite (Hp d Hd), (IH Hs). reflexivity.
Qed.

(** X12.  The helpful votes of a review card: 0 when the card has no
    vote label; the number itself when the label is the decimal text of
    an integer, of at most 4300 characters; 0 when the label is more
    than 4300 digits, which [int] refuses; and the call fails, with the
    [OverflowError] that nothing in the scraper catches, exactly when
    the label holds a "K" and the number left once the "K"s are deleted,
    times 1000, is infinite. *)
Theorem extract_helpful_votes_cases (c : review_container) :
  (votes_label c = None -> extract_helpful_votes c = Returned 0)
  /\ (forall n, Z.of_nat (String.length (str_of_int n)) <= 4300 ->
                votes_label c = Some (str_of_int n) ->
                extract_helpful_votes c = Returned n)
  /\ (forall text, all_chars is_digit text = true ->
                   4300 < Z.of_nat (String.length text) ->
                   votes_label c = Some text ->
                   extract_helpful_votes c = Returned 0)
  /\ (extract_helpful_votes c = Overflowed <->
      exists text x s,
        votes_label c = Some text
        /\ has_char "K" (strip text) = true
        /\ py_float (remove_all "K" (strip text)) = Some x
        /\ float_mul x f1000 = S754_infinity s).
Proof.
  unfold extract_helpful_votes. split; [|split; [|split]].
  - intros ->. reflexivity.
  - intros n L ->.
    pose proof (str_of_int_chars n) as Ch.
    rewrite (strip_no_space (str_of_int n)).
    + rewrite (has_char_none "K" _ _ Ch digit_or_minus_not_K).
      rewrite (DecimalFacts.py_int_str_of_int n L). reflexivity.
    + apply (DecimalFacts.all_chars_weaken _ _ _ digit_or_minus_not_space Ch).
  - intros text D L ->.
    assert (Ch : all_chars (fun c => is_digit c || Ascii.eqb c "-") text
                 = true).
    { apply (DecimalFacts.all_chars_weaken is_digit); [|exact D].
      intros d ->. reflexivity. }
    rewrite (strip_no_space text).
    + rewrite (has_char_none "K" _ _ Ch digit_or_minus_not_K).
      rewrite (DecimalFacts.py_int_too_long text D L). reflexivity.
    + apply (DecimalFacts.all_chars_weaken _ _ _ digit_or_minus_not_space Ch).
  - split.
    + destruct (votes_label c) as [text|]; [|discriminate].
      destruct (has_char "K" (strip text)) eqn:K.
      * destruct (py_float (remove_all "K" (strip text))) as [x|] eqn:F;
          [|discriminate].
        destruct (float_mul x f1000) as [s|s| |s m e] eqn:M;
          try discriminate.
        intros _. exists text, x, s. repeat split; assumption.
      * destruct (py_int (strip text)); discriminate.
    + intros [text [x [s [-> [K [F M]]]]]]. rewrite K, F, M. reflexivity.
Qed.

Lemma extract_helpful_votes_cases_witness :
  let card := {| votes_label := Some "48"; rating_star := None;
                 title_heading := None; review_body := Some "Fine." |} in
  Z.of_nat (String.length (str_of_int 48)) <= 4300
  /\ extract_helpful_votes card = Returned 48.
Proof.
  intros card.
  assert (B : Z.of_nat (String.length (str_of_int 48)) <= 4300)
    by (vm_compute; discriminate).
  split; [exact B|].
  apply (proj1 (proj2 (extract_helpful_votes_cases card)) 48 B).
  reflexivity.
Defined.

(** ** The card with the most votes *)

Lemma votes_returned (c : review_container) (v : Z) :
  extract_helpful_votes c = Returned v -> votes c = v.
Proof. unfold votes. intros ->. reflexivity. Qed.

(** The loop either keeps what it had, every card having no more votes
    than the best so far, or ends on the first card with the most
    votes. *)
Lemma most_supported_result (review_containers : list review_container) :
  forall best max,
    (forall c, In c review_containers ->
               extract_helpful_votes c <> Overflowed) ->
    exists best' max',
      most_supported review_containers best max = Returned (best', max')
      /\ ((best' = best /\ max' = max
           /\ forall c, In c review_containers -> votes c <= max)
          \/ exists before c after,
               review_containers = before ++ c :: after
               /\ best' = Some c /\ max' = votes c /\ max < votes c
               /\ (forall c', In c' before -> votes c' < votes c)
               /\ (forall c', In c' after -> votes c' <= votes c)).
Proof.
  induction review_containers as [|c rest IH]; intros best max Hok.
  - exists best, max. split; [reflexivity|]. left.
    repeat split. intros c [].
  - simpl.
    destruct (extract_helpful_votes c) as [v|] eqn:E;
      [|exfalso; apply (Hok c); [left; reflexivity|exact E]].
    apply votes_returned in E.
    assert (Hrest : forall c0, In c0 rest ->
                      extract_helpful_votes c0 <> Overflowed).
    { intros c0 H0. apply Hok. right. exact H0. }
    destruct (Z.ltb_spec max v) as [Lt|Ge].
    + destruct (IH (Some c) v Hrest)
        as [best' [max' [R [[-> [-> All]]
           |[before [c2 [after [-> [-> [-> [Lt2 [B A]]]]]]]]]]]];
        rewrite R.
      * exists (Some c), v. split; [reflexivity|]. right.
        exists [], c, rest. rewrite E. repeat split; try assumption.
        -- intros c' [].
      * exists (Some c2), (votes c2). split; [reflexivity|]. right.
        exists (c :: before), c2, after. repeat split; try assumption.
        -- lia.
        -- intros c' [<-|H']; [lia|apply B, H'].
    + destruct (IH best max Hrest)
        as [best' [max' [R [[-> [-> All]]
           |[before [c2 [after [-> [-> [-> [Lt2 [B A]]]]]]]]]]]];
        rewrite R.
      * exists best, max. split; [reflexivity|]. left.
        repeat split. intros c' [<-|H']; [lia|apply All, H'].
      * exists (Some c2), (votes c2). split; [reflexivity|]. right.
        exists (c :: before), c2, after. repeat split; try assumption.
        intros c' [<-|H']; [lia|apply B, H'].
Qed.

Lemma most_supported_overflow (review_containers : list review_container) :
  forall best max,
    (exists c, In c review_containers
               /\ extract_helpful_votes c = Overflowed) ->
    most_supported review_containers best max = Overflowed.
Proof.
  induction review_containers as [|c rest IH]; intros best max [c0 [Hin E]].
  - destruct Hin.
  - simpl. destruct Hin as [->|Hin]; [rewrite E; reflexivity|].
    destruct (extract_helpful_votes c) as [v|]; [|reflexivity].
    destruct (max <? v); apply IH; exists c0; split; assumption.
Qed.

(** What the scraper returns from cards whose counts can be read. *)
Lemma scrape_result (review_containers : list review_container) :
  (forall c, In c review_containers ->
             extract_helpful_votes c <> Overflowed) ->
  exists r,
    scrape_most_supported_review review_containers = Returned r
    /\ match r with
       | None => forall c, In c review_containers -> votes c < 0
       | Some d =>
           exists before c after,
             review_containers = before ++ c :: after
             /\ helpful_votes d = votes c
             /\ 0 <= votes c
             /\ (forall c', In c' before -> votes c' < votes c)
             /\ (forall c', In c' after -> votes c' <= votes c)
             /\ full_review d = text_or "No review text" (review_body c)
             /\ rating d = text_or "No rating" (rating_star c)
             /\ title d = text_or "No title" (title_heading c)
       end.
Proof.
  intros Hok. unfold scrape_most_supported_review.
  destruct review_containers as [|c0 rest] eqn:Ec.
  { exists None. split; [reflexivity|]. intros c []. }
  rewrite <- Ec in *. clear Ec c0 rest.
  destruct (most_supported_result review_containers None (-1) Hok)
    as [best' [max' [R [[-> [-> All]]
       |[before [c [after [Ec [-> [-> [Lt [B A]]]]]]]]]]]];
    rewrite R.
  - exists None. split; [reflexivity|].
    intros c Hc. specialize (All c Hc). lia.
  - eexists (Some _). split; [reflexivity|].
    exists before, c, after. simpl.
    repeat split; try assumption. lia.
Qed.

(** X13.  The review scraped from a page whose vote counts can all be
    read is that of the first card with the greatest count, provided
    the count is not negative: every card before it has fewer votes,
    every card after it has no more; its text, rating and title are the
    stripped texts of the card, or the stand-in texts where the card has
    none.  No review is returned exactly when every card has a negative
    count, as on a page without cards.  A single card whose count
    overflows makes the whole call fail. *)
Theorem scrape_most_supported_review_first_best
  (review_containers : list review_container) :
  ((forall c, In c review_containers ->
              extract_helpful_votes c <> Overflowed) ->
   exists r,
     scrape_most_supported_review review_containers = Returned r
     /\ match r with
        | None => forall c, In c review_containers -> votes c < 0
        | Some d =>
            exists before c after,
              review_containers = before ++ c :: after
              /\ helpful_votes d = votes c
              /\ 0 <= votes c
              /\ (forall c', In c' before -> votes c' < votes c)
              /\ (forall c', In c' after -> votes c' <= votes c)
              /\ full_review d = text_or "No review text" (review_body c)
              /\ rating d = text_or "No rating" (rating_star c)
              /\ title d = text_or "No title" (title_heading c)
        end)
  /\ ((exists c, In c review_containers
                 /\ extract_helpful_votes c = Overflowed) ->
      scrape_most_supported_review review_containers = Overflowed).
Proof.
  split; [apply scrape_result|].
  intros H. unfold scrape_most_supported_review.
  destruct review_containers as [|c0 rest] eqn:Ec.
  { destruct H as [c [[] _]]. }
  rewrite <- Ec in *.
  rewrite (most_supported_overflow review_containers None (-1) H).
  reflexivity.
Qed.

Lemma scrape_most_supported_review_first_best_witness :
  exists d,
    scrape_most_supported_review Cases.page = Returned (Some d)
    /\ full_review d = "A joyful film."
    /\ helpful_votes d = 1500.
Proof.
  destruct (proj1 (scrape_most_supported_review_first_best Cases.page))
    as [r [E _]].
  - intros c [<-|[<-|[<-|[]]]]; vm_compute; discriminate.
  - destruct r as [d|]; [|vm_compute in E; discriminate E].
    exists d. split; [exact E|].
    vm_compute in E. injection E as <-. split; reflexivity.
Defined.

(** ** The review that the matching loop gets *)

(** X17.  What [fetch_most_supported_review] hands to the matching
    loop.  A failed request, or a status other than 200, gives no
    review, whatever the page holds.  With status 200 and vote counts
    that can all be read, a page with at least one card of non-negative
    count always gives a text: the stripped body of the first card with
    the most votes, and the stand-in "No review text", which is not
    empty, when that card has no body. *)
Theorem fetch_most_supported_review_text
  (http_get : string -> option (Z * list review_container))
  (movie_url : string) :
  (http_get movie_url = None ->
   fetch_most_supported_review http_get movie_url = Returned None)
  /\ (forall status_code review_containers,
        http_get movie_url = Some (status_code, review_containers) ->
        status_code <> 200 ->
        fetch_most_supported_review http_get movie_url = Returned None)
  /\ (forall review_containers c0,
        http_get movie_url = Some (200, review_containers) ->
        (forall c, In c review_containers ->
                   extract_helpful_votes c <> Overflowed) ->
        In c0 review_containers -> 0 <= votes c0 ->
        exists before c after,
          review_containers = before ++ c :: after
          /\ (forall c', In c' before -> votes c' < votes c)
          /\ (forall c', In c' after -> votes c' <= votes c)
          /\ fetch_most_supported_review http_get movie_url
             = Returned (Some (text_or "No review text" (review_body c)))
          /\ (review_body c = None ->
              fetch_most_supported_review http_get movie_url
              = Returned (Some "No review text"))).
Proof.
  unfold fetch_most_supported_review. split; [|split].
  - intros ->. reflexivity.
  - intros status_code review_containers -> Hs.
    destruct (Z.eqb_spec status_code 200); [contradiction|reflexivity].
  - intros review_containers c0 -> Hok Hin Hv. simpl.
    destruct (scrape_result review_containers Hok) as [r [E Hr]].
    rewrite E. destruct r as [d|].
    + destruct Hr as (before & c & after & Ec & _ & _ & B & A & F & _).
      exists before, c, after. rewrite F.
      repeat split; try assumption.
      intros ->. reflexivity.
    + specialize (Hr c0 Hin). lia.
Qed.

Lemma fetch_most_supported_review_text_witness :
  let http_get := fun _ : string => Some (200, Cases.page) in
  let url := "https://www.imdb.com/title/tt1/reviews" in
  exists c,
    In c Cases.page
    /\ fetch_most_supported_review http_get url
       = Returned (Some (text_or "No review text" (review_body c)))
    /\ fetch_most_supported_review http_get url
       = Returned (Some "A joyful film.").
Proof.
  intros http_get url.
  destruct (proj2 (proj2 (fetch_most_supported_review_text http_get url))
              Cases.page (Cases.card "12" "Fine.") eq_refl)
    as (before & c & after & Ec & _ & _ & F & _).
  - intros c [<-|[<-|[<-|[]]]]; vm_compute; discriminate.
  - left. reflexivity.
  - vm_compute. discriminate.
  - exists c. split; [|split; [exact F|reflexivity]].
    rewrite Ec. apply in_or_app. right. left. reflexivity.
Defined.

End ScraperFacts.

(* ================================================================== *)
(** * The three most frequent of a list *)
(* ================================================================== *)

Module CountFacts.
Import PyStr PyDict PySort Spec Props.
Import OrderFacts DictFacts TallyFacts RankingFacts DeriverFacts.

Section Counted.
Variable occs : list string.

Let counts : dict Z := tally Z.add 0 (map one occs).
Let top : list string := top_counted occs.

Lemma counts_nodup : NoDup (keys counts).
Proof. apply keys_tally_nodup. Qed.

Lemma counts_keys (g : string) : In g (keys counts) <-> In g occs.
Proof. unfold counts. rewrite keys_tally_in, keys_of_ones. reflexivity. Qed.

Lemma counts_value (g : string) (n : Z) :
  get counts g = Some n -> n = occurrences g occs.
Proof.
  intros H. apply get_tally in H. rewrite H. apply total_of_ones.
Qed.

Lemma counts_has (g : string) :
  In g occs -> get counts g = Some (occurrences g occs).
Proof.
  intros H. apply counts_keys in H.
  destruct (get counts g) as [n|] eqn:E.
  - rewrite (counts_value g n E). reflexivity.
  - apply get_none_iff in E. contradiction.
Qed.

Lemma top_counted_nodup : NoDup top.
Proof. apply top_nodup, counts_nodup. Qed.

Lemma top_counted_length : (List.length top <= 3)%nat.
Proof. apply top_length. Qed.

Lemma top_counted_in (g : string) : In g top -> In g occs.
Proof. intros H. apply counts_keys. apply (top_in_keys Z.ltb _ g H). Qed.

Lemma top_counted_order (g1 g2 : string) :
  In g1 occs -> In g2 occs ->
  precedes g1 g2 top \/ (In g1 top /\ ~ In g2 top) ->
  outranks occs g1 g2.
Proof.
  intros H1 H2 H.
  destruct (top_order Z.ltb (fun _ => True) ltb_irrefl ltb_trans
              ltb_negtrans _ counts_nodup (all_true _) g1 g2 _ _
              (counts_has g1 H1) (counts_has g2 H2) H)
    as [L|[L1 [L2 P]]].
  - left. apply Z.ltb_lt, L.
  - right. split.
    + apply Z.ltb_ge in L1, L2. lia.
    + apply keys_tally_order in P. rewrite keys_of_ones in P. exact P.
Qed.

Lemma top_counted_full (g : string) :
  In g occs -> ~ In g top -> List.length top = 3%nat.
Proof.
  intros H1 H2. apply (top_full Z.ltb _ g); [apply counts_keys, H1|exact H2].
Qed.

End Counted.

(** Occurrences across lists without repetition: the number of lists
    that hold the element. *)
Lemma occurrences_flat_map {A : Type} (f : A -> list string) (l : list A)
  (e : string) :
  (forall a, In a l -> NoDup (f a)) ->
  occurrences e (flat_map f l)
  = Z.of_nat (List.length (filter (fun a => mem e (f a)) l)).
Proof.
  unfold occurrences. intros N. apply f_equal.
  induction l as [|a l IH]; [reflexivity|].
  simpl. rewrite count_occ_app, IH by (intros b Hb; apply N; right; exact Hb).
  assert (Na : NoDup (f a)) by (apply N; left; reflexivity).
  destruct (mem e (f a)) eqn:M.
  - apply mem_true_iff in M.
    rewrite (proj1 (NoDup_count_occ' string_dec (f a)) Na e M). reflexivity.
  - assert (Hn : ~ In e (f a)).
    { intros H. apply mem_true_iff in H. congruence. }
    rewrite (proj1 (count_occ_not_In string_dec (f a) e) Hn). reflexivity.
Qed.

End CountFacts.

(* ================================================================== *)
(** * The preferences derived from a session *)
(* ================================================================== *)

Module RenewalFacts.
Import PyStr PyNum PyDict PySort Store Engine Deriver Renewal Journal.
Import Spec Props.
Import OrderFacts DictFacts TallyFacts RankingFacts.

(** ** Emotions *)

Section Emotions.
Variable emotion_classifier : string -> list (string * float).

Let analyze := analyze_emotions emotion_classifier.

Lemma analyze_emotions_nodup (text : string) : NoDup (analyze text).
Proof.
  unfold analyze. destruct (truthy (strip text)) eqn:T.
  - rewrite (EmotionFacts.analyze_emotions_top emotion_classifier text T).
    apply top_nodup, EmotionFacts.emotion_counts_nodup.
  - rewrite (EmotionFacts.analyze_emotions_blank emotion_classifier text T).
    constructor.
Qed.

Lemma analyze_emotions_lowered (text l : string) :
  In l (analyze text) -> lower l = l.
Proof.
  unfold analyze. destruct (truthy (strip text)) eqn:T.
  - rewrite (EmotionFacts.analyze_emotions_top emotion_classifier text T).
    intros H. apply (top_in_keys float_lt) in H.
    apply EmotionFacts.emotion_counts_keys in H.
    unfold lowered in H. rewrite map_map in H. apply in_map_iff in H.
    destruct H as [c [<- _]]. simpl. apply CharFacts.lower_idem.
  - rewrite (EmotionFacts.analyze_emotions_blank emotion_classifier text T).
    intros [].
Qed.

Lemma map_lower_analyze (text : string) :
  map lower (analyze text) = analyze text.
Proof.
  rewrite <- (map_id (analyze text)) at 2. apply map_ext_in.
  intros l Hl. apply analyze_emotions_lowered with (text := text), Hl.
Qed.

Lemma count_review_tally (d : dict Z) (m : session_entry) :
  count_review emotion_classifier d m
  = fold_left (tally_step Z.add 0)
              (map one (emotion_occurrences emotion_classifier [m])) d.
Proof.
  unfold count_review, emotion_occurrences. simpl. rewrite app_nil_r.
  fold analyze.
  revert d. induction (analyze (review m)) as [|x l IH]; intros d;
    [reflexivity|].
  simpl. apply IH.
Qed.

Lemma emotion_occurrences_cons (m : session_entry)
  (ms : list session_entry) :
  emotion_occurrences emotion_classifier (m :: ms)
  = emotion_occurrences emotion_classifier [m]
    ++ emotion_occurrences emotion_classifier ms.
Proof.
  unfold emotion_occurrences. simpl flat_map. rewrite app_nil_r.
  reflexivity.
Qed.

Lemma emotions_count_fold (new_movies : list session_entry) (d : dict Z) :
  fold_left (count_review emotion_classifier) new_movies d
  = fold_left (tally_step Z.add 0)
              (map one (emotion_occurrences emotion_classifier new_movies))
              d.
Proof.
  revert d. induction new_movies as [|m ms IH]; intros d; [reflexivity|].
  rewrite emotion_occurrences_cons, map_app, fold_left_app.
  rewrite <- count_review_tally. simpl fold_left at 1. apply IH.
Qed.

Lemma top_emotions_counted (new_movies : list session_entry) :
  top_emotions emotion_classifier new_movies
  = top_counted (emotion_occurrences emotion_classifier new_movies).
Proof.
  unfold top_emotions, top_counted, emotions_count.
  rewrite emotions_count_fold. reflexivity.
Qed.

End Emotions.

(** X14.  The emotions stored by the renewal: each review contributes
    its three strongest emotions once, so the count of an emotion is the
    number of reviews of the session that have it among their three
    strongest; the result holds at most three emotions, all different;
    an emotion that stands before another in it, or that is kept when
    another is left out, has the greater count, or the same count and
    was met first; and an emotion is left out only when three are
    kept. *)
Theorem top_emotions_ranked
  (emotion_classifier : string -> list (string * float))
  (new_movies : list session_entry) :
  let occs := emotion_occurrences emotion_classifier new_movies in
  let top := top_emotions emotion_classifier new_movies in
  (forall e,
     occurrences e occs
     = Z.of_nat
         (List.length
            (filter (fun m => mem e (analyze_emotions emotion_classifier
                                                      (review m)))
                    new_movies)))
  /\ NoDup top
  /\ (List.length top <= 3)%nat
  /\ (forall e, In e top -> In e occs)
  /\ (forall e1 e2, precedes e1 e2 top -> outranks occs e1 e2)
  /\ (forall e1 e2, In e1 top -> In e2 occs -> ~ In e2 top ->
                    outranks occs e1 e2)
  /\ (forall e, In e occs -> ~ In e top -> List.length top = 3%nat).
Proof.
  intros occs top. unfold top. rewrite top_emotions_counted. fold occs.
  split; [|split; [|split; [|split; [|split; [|split]]]]].
  - intros e. unfold occs, emotion_occurrences.
    rewrite (flat_map_ext _ (fun m => analyze_emotions emotion_classifier
                                        (review m)))
      by (intros m; apply map_lower_analyze).
    apply CountFacts.occurrences_flat_map.
    intros m _. apply analyze_emotions_nodup.
  - apply CountFacts.top_counted_nodup.
  - apply CountFacts.top_counted_length.
  - apply CountFacts.top_counted_in.
  - intros e1 e2 H. destruct (precedes_in _ _ _ H) as [H1 H2].
    apply CountFacts.top_counted_order;
      [apply CountFacts.top_counted_in, H1
      |apply CountFacts.top_counted_in, H2|left; exact H].
  - intros e1 e2 H1 H2 H3.
    apply CountFacts.top_counted_order;
      [apply CountFacts.top_counted_in, H1|exact H2
      |right; split; assumption].
  - apply CountFacts.top_counted_full.
Qed.

Lemma top_emotions_ranked_witness :
  top_emotions Cases.by_mood Cases.moods = ["fear"; "sadness"; "joy"]
  /\ occurrences "fear" (emotion_occurrences Cases.by_mood Cases.moods) = 3
  /\ outranks (emotion_occurrences Cases.by_mood Cases.moods)
              "joy" "surprise".
Proof.
  destruct (top_emotions_ranked Cases.by_mood Cases.moods)
    as (Count & _ & _ & _ & _ & Kept & _).
  assert (E : top_emotions Cases.by_mood Cases.moods
              = ["fear"; "sadness"; "joy"]) by (vm_compute; reflexivity).
  split; [exact E|]. split.
  - rewrite Count. vm_compute. reflexivity.
  - apply Kept.
    + rewrite E. simpl. tauto.
    + vm_compute. tauto.
    + rewrite E. simpl. intros [H|[H|[H|[]]]]; discriminate H.
Defined.

(** ** Genres and the record as a whole *)

Lemma top_genres_counted (new_movies : list session_entry) :
  top_genres new_movies = top_counted (genre_occurrences new_movies).
Proof.
  unfold top_genres, top_counted.
  rewrite DeriverFacts.genres_count_tally. reflexivity.
Qed.

Lemma genre_occurrences_claimed (new_movies : list session_entry)
  (g : string) :
  In g (genre_occurrences new_movies) -> claimed_item g.
Proof.
  unfold genre_occurrences. intros H. apply in_flat_map in H.
  destruct H as [m [_ H]].
  destruct (truthy (genres m)); [|destruct H].
  apply filter_In in H. destruct H as [H T].
  apply in_map_iff in H. destruct H as [part [<- Hp]].
  split; [exact T|]. split.
  - apply ShelfFacts.has_char_strip.
    pose proof (ShelfFacts.split_parts "," (genres m)) as [_ C].
    rewrite Forall_forall in C. apply C, Hp.
  - apply ShelfFacts.strip_idem.
Qed.

Lemma year_category_of_band (average_year : float) :
  In (year_category_of average_year)
     ["old"; "middle"; "new"; "very new"; "unknown"].
Proof.
  unfold year_category_of.
  destruct (float_le average_year (int_const 1999)); [simpl; tauto|].
  destruct (float_le (int_const 2000) average_year
            && float_le average_year (int_const 2009)); [simpl; tauto|].
  destruct (float_le (int_const 2010) average_year
            && float_le average_year (int_const 2019)); [simpl; tauto|].
  destruct (float_le (int_const 2020) average_year
            && float_le average_year (int_const 2024)); simpl; tauto.
Qed.

(** X15.  The preferences that a renewal derives from its session:
    at most three genres and at most three emotions, without
    repetition; every genre is non-empty, has no comma and no white
    space at its ends, as the preferences file needs it; and the year
    is one of the four bands or "unknown", never empty. *)
Theorem derived_preferences_shape
  (emotion_classifier : string -> list (string * float))
  (new_movies : list session_entry) (p : preferences) :
  derived_preferences emotion_classifier new_movies = Some p ->
  (List.length (Genres p) <= 3)%nat /\ NoDup (Genres p)
  /\ Forall claimed_item (Genres p)
  /\ (List.length (Emotions p) <= 3)%nat /\ NoDup (Emotions p)
  /\ In (Year p) ["old"; "middle"; "new"; "very new"; "unknown"]
  /\ truthy (Year p) = true.
Proof.
  unfold derived_preferences.
  destruct (derived_year new_movies) as [y|] eqn:Ey; [|discriminate].
  intros H. injection H as <-. simpl.
  assert (Hy : In y ["old"; "middle"; "new"; "very new"; "unknown"]).
  { unfold derived_year in Ey.
    destruct (new_years new_movies) as [|y0 ys].
    - injection Ey as <-. simpl. tauto.
    - destruct (true_div (sum (y0 :: ys))
                         (Pos.of_succ_nat (List.length ys)));
        [|discriminate].
      injection Ey as <-. apply year_category_of_band. }
  rewrite top_genres_counted, top_emotions_counted.
  split; [apply CountFacts.top_counted_length|].
  split; [apply CountFacts.top_counted_nodup|].
  split.
  { apply Forall_forall. intros g Hg.
    apply (genre_occurrences_claimed new_movies).
    apply CountFacts.top_counted_in, Hg. }
  split; [apply CountFacts.top_counted_length|].
  split; [apply CountFacts.top_counted_nodup|].
  split; [exact Hy|].
  simpl in Hy. destruct Hy as [<-|[<-|[<-|[<-|[<-|[]]]]]]; reflexivity.
Qed.

Lemma derived_preferences_shape_witness :
  derived_preferences Cases.by_mood Cases.moods
  = Some {| Genres := ["Drama"; "Animation"; "Comedy"];
            Emotions := ["fear"; "sadness"; "joy"];
            Year := "old" |}
  /\ Forall claimed_item ["Drama"; "Animation"; "Comedy"].
Proof.
  assert (E : derived_preferences Cases.by_mood Cases.moods
              = Some {| Genres := ["Drama"; "Animation"; "Comedy"];
                        Emotions := ["fear"; "sadness"; "joy"];
                        Year := "old" |}) by (vm_compute; reflexivity).
  split; [exact E|].
  apply (derived_preferences_shape Cases.by_mood Cases.moods _ E).
Defined.

(** ** The year *)

Lemma in_range (lo y : Z) (n : nat) :
  lo <= y < lo + Z.of_nat n -> In y (range lo n).
Proof.
  intros H. unfold range. apply in_map_iff.
  exists (Z.to_nat (y - lo)). split; [lia|].
  apply in_seq. lia.
Qed.

Lemma one_year_checked :
  forallb (fun y => average_in_band y 0 (band_of y)) (range 1 3000) = true.
Proof. vm_compute. reflexivity. Qed.

Lemma two_years_checked :
  forallb (fun y => average_in_band (y + (y + 1)) 1 (band_of_pair y))
          (range 1 2999)
  = true.
Proof. vm_compute. reflexivity. Qed.

Lemma years_short :
  forallb (fun y => Z.of_nat (String.length (str_of_int y)) <=? 4300)
          (range 1 3000)
  = true.
Proof. vm_compute. reflexivity. Qed.

Lemma new_years_of (m : session_entry) (y : Z) :
  1 <= y <= 3000 -> startYear m = str_of_int y -> new_years [m] = [y].
Proof.
  intros Hy E. unfold new_years. simpl. rewrite E.
  destruct (DecimalFacts.str_of_int_digits y) as [_ T]; [lia|].
  rewrite T, DecimalFacts.py_int_str_of_int; [reflexivity|].
  pose proof years_short as C. rewrite forallb_forall in C.
  apply Z.leb_le. apply (C y). apply in_range. simpl. lia.
Qed.

Lemma derived_year_of (new_movies : list session_entry) (y : Z)
  (ys : list Z) (band : string) :
  new_years new_movies = y :: ys ->
  average_in_band (sum (y :: ys)) (List.length ys) band = true ->
  derived_year new_movies = Some band.
Proof.
  unfold derived_year, average_in_band. intros ->.
  destruct (true_div (sum (y :: ys)) (Pos.of_succ_nat (List.length ys)));
    [|discriminate].
  intros H. apply String.eqb_eq in H. rewrite H. reflexivity.
Qed.

(** X16.  The year band stored by the renewal.  Without a movie whose
    start year reads as an integer it is "new".  For a session of one
    movie of year [y] it is the band of [y], "unknown" after 2024.  For
    a session of two movies of the consecutive years [y] and [y] + 1 it
    is their band when they share one and "unknown" when they do not:
    the average lies between two bands (1999.5, 2009.5, 2019.5) or
    beyond the last.  Years from 1 to 3000. *)
Theorem derived_year_bands :
  (forall new_movies,
     new_years new_movies = [] -> derived_year new_movies = Some "new")
  /\ (forall y m,
        1 <= y <= 3000 -> startYear m = str_of_int y ->
        derived_year [m] = Some (band_of y))
  /\ (forall y m1 m2,
        1 <= y < 3000 ->
        startYear m1 = str_of_int y -> startYear m2 = str_of_int (y + 1) ->
        derived_year [m1; m2] = Some (band_of_pair y)).
Proof.
  split; [|split].
  - intros new_movies H. unfold derived_year. rewrite H. reflexivity.
  - intros y m Hy E.
    apply (derived_year_of [m] y []); [apply new_years_of; [lia|exact E]|].
    pose proof one_year_checked as C. rewrite forallb_forall in C.
    apply (C y). apply in_range. simpl. lia.
  - intros y m1 m2 Hy E1 E2.
    apply (derived_year_of [m1; m2] y [y + 1]).
    + change [m1; m2] with ([m1] ++ [m2]).
      unfold new_years. rewrite flat_map_app.
      fold (new_years [m1]). fold (new_years [m2]).
      rewrite (new_years_of m1 y), (new_years_of m2 (y + 1));
        [reflexivity|lia|exact E2|lia|exact E1].
    + pose proof two_years_checked as C. rewrite forallb_forall in C.
      apply (C y). apply in_range. simpl. lia.
Qed.

Lemma derived_year_bands_witness :
  derived_year [of_year 2015] = Some "new"
  /\ derived_year [of_year 2031] = Some "unknown"
  /\ derived_year [of_year 1999; of_year 2000] = Some "unknown"
  /\ derived_year [of_year 2003; of_year 2004] = Some "middle".
Proof.
  destruct derived_year_bands as [_ [One Two]].
  split; [|split; [|split]].
  - apply (One 2015 (of_year 2015)); [lia|reflexivity].
  - apply (One 2031 (of_year 2031)); [lia|reflexivity].
  - apply (Two 1999 (of_year 1999) (of_year 2000)); [lia|reflexivity..].
  - apply (Two 2003 (of_year 2003) (of_year 2004)); [lia|reflexivity..].
Defined.

End RenewalFacts.

(* ================================================================== *)
(** * Running at the console *)
(* ================================================================== *)

Module ConsoleFacts.
Import PyStr Runtime Console Props.

(** ** Loops never want for fuel *)

Lemma tame_ret {A : Type} (a : A) : tame (ret a).
Proof. intros c. simpl. split; [lia|discriminate]. Qed.

Lemma tame_halt {A : Type} (s : stop) : s <> OutOfFuel -> tame (@halt A s).
Proof. intros H c. simpl. split; [lia|congruence]. Qed.

Lemma tame_bind {A B : Type} (m : I A) (k : A -> I B) :
  tame m -> (forall a, tame (k a)) -> tame (bind m k).
Proof.
  intros Hm Hk c. unfold bind. specialize (Hm c).
  destruct (m c) as [[a|s] c'] eqn:E; simpl in Hm.
  - specialize (Hk a c'). destruct Hk as [L N]. split; [lia|exact N].
  - simpl. destruct Hm as [L N]. split; [exact L|].
    intros H. apply N. injection H as ->. reflexivity.
Qed.

Lemma tame_lift {A : Type} (m : M A) : tame (lift m).
Proof.
  intros c. unfold lift.
  destruct (m {| fs := disk c; log := [] |}) as [[a|e] w]; simpl;
    split; try lia; discriminate.
Qed.

Lemma tame_print (msg : string) : tame (print msg).
Proof. apply tame_lift. Qed.

Lemma tame_input (prompt : string) : tame (input prompt).
Proof.
  intros c. unfold input. destruct (stdin c) as [|line rest]; simpl;
    split; try lia; discriminate.
Qed.

Lemma tame_for_each {A : Type} (l : list A) (body : A -> I unit) :
  (forall x, tame (body x)) -> tame (for_each l body).
Proof.
  intros H. induction l as [|x l IH]; simpl; [apply tame_ret|].
  apply tame_bind; [apply H|intros _; exact IH].
Qed.

(** A body that starts by reading a line has read one when it goes on. *)
Lemma reads_input {S R : Type} (prompt : string) (k : string -> I (S + R)) :
  (forall line, tame (k line)) -> reads (bind (input prompt) k).
Proof.
  intros Hk c s'. unfold bind, input.
  destruct (stdin c) as [|line rest] eqn:E; simpl; [discriminate|].
  intros _.
  match goal with
  | |- context [k line ?c0] => destruct (Hk line c0) as [L _]
  end.
  simpl in L. lia.
Qed.

Lemma reads_after {S R A : Type} (m : I A) (k : A -> I (S + R)) :
  tame m -> (forall a, reads (k a)) -> reads (bind m k).
Proof.
  intros Hm Hk c s'. unfold bind. specialize (Hm c).
  destruct (m c) as [[a|s] c'] eqn:E; simpl in *; [|discriminate].
  intros H. specialize (Hk a c' s' H). lia.
Qed.

Lemma tame_while {S R : Type} (body : S -> I (S + R)) :
  (forall s, tame (body s)) -> (forall s, reads (body s)) ->
  forall fuel s c,
    (List.length (stdin c) < fuel)%nat ->
    (List.length (stdin (snd (while fuel body s c)))
     <= List.length (stdin c))%nat
    /\ fst (while fuel body s c) <> Stopped OutOfFuel.
Proof.
  intros Ht Hr. induction fuel as [|fuel IH]; intros s c L; [lia|].
  simpl. unfold bind.
  destruct (Ht s c) as [Lb Nb]. pose proof (Hr s c) as Rb.
  destruct (body s c) as [[[s'|x]|st] c'] eqn:E; simpl in *.
  - specialize (Rb s' eq_refl).
    destruct (IH s' c') as [L' N']; [lia|]. split; [lia|exact N'].
  - split; [lia|discriminate].
  - split; [lia|]. intros H. apply Nb. injection H as ->. reflexivity.
Qed.

Lemma tame_loop {S R : Type} (body : S -> I (S + R)) (s : S) :
  (forall s, tame (body s)) -> (forall s, reads (body s)) ->
  tame (loop body s).
Proof.
  intros Ht Hr c. unfold loop. apply tame_while; [exact Ht|exact Hr|lia].
Qed.

(** ** Functions that write nothing *)

Lemma keeps_ret {A : Type} (a : A) : keeps_files (ret a).
Proof. intros c. reflexivity. Qed.

Lemma keeps_halt {A : Type} (s : stop) : keeps_files (@halt A s).
Proof. intros c. reflexivity. Qed.

Lemma keeps_bind {A B : Type} (m : I A) (k : A -> I B) :
  keeps_files m -> (forall a, keeps_files (k a)) -> keeps_files (bind m k).
Proof.
  intros Hm Hk c. unfold bind. specialize (Hm c).
  destruct (m c) as [[a|s] c'] eqn:E; simpl in *.
  - rewrite (Hk a c'). exact Hm.
  - exact Hm.
Qed.

Lemma keeps_lift {A : Type} (m : M A) : reads_only m -> keeps_files (lift m).
Proof.
  intros H c. unfold lift. specialize (H {| fs := disk c; log := [] |}).
  destruct (m {| fs := disk c; log := [] |}) as [[a|e] w]; simpl in *;
    exact H.
Qed.

Lemma keeps_print (msg : string) : keeps_files (print msg).
Proof. intros c. reflexivity. Qed.

Lemma keeps_input (prompt : string) : keeps_files (input prompt).
Proof. intros c. unfold input. destruct (stdin c); reflexivity. Qed.

Lemma keeps_while {S R : Type} (body : S -> I (S + R)) :
  (forall s, keeps_files (body s)) ->
  forall fuel s, keeps_files (while fuel body s).
Proof.
  intros Hb. induction fuel as [|fuel IH]; intros s; simpl.
  - apply keeps_halt.
  - apply keeps_bind; [apply Hb|].
    intros [s'|x]; [apply IH|apply keeps_ret].
Qed.

Lemma keeps_loop {S R : Type} (body : S -> I (S + R)) (s : S) :
  (forall s, keeps_files (body s)) -> keeps_files (loop body s).
Proof. intros Hb c. unfold loop. apply keeps_while, Hb. Qed.

(** ** Results, files and input left, whatever is shown *)

Lemma yields_ret {A : Type} (a : A) (c : console) :
  yields (ret a) c a (disk c) (stdin c).
Proof.
  exists []. unfold ret. rewrite app_nil_r. destruct c; reflexivity.
Qed.

Lemma yields_bind {A B : Type} (m : I A) (k : A -> I B) (c : console)
  (a : A) (d : files) (rest : list string)
  (b : B) (d' : files) (rest' : list string) :
  yields m c a d rest ->
  (forall c', stdin c' = rest -> disk c' = d -> yields (k a) c' b d' rest') ->
  yields (bind m k) c b d' rest'.
Proof.
  intros [s1 E1] Hk.
  destruct (Hk {| stdin := rest; disk := d; screen := screen c ++ s1 |}
               eq_refl eq_refl) as [s2 E2].
  exists (s1 ++ s2). unfold bind. rewrite E1, E2. simpl.
  rewrite app_assoc. reflexivity.
Qed.

Lemma yields_lift {A : Type} (m : M A) (c : console) (a : A) (w : world) :
  m {| fs := disk c; log := [] |} = (Ok a, w) ->
  yields (lift m) c a (fs w) (stdin c).
Proof.
  intros E. eexists. unfold lift. rewrite E. reflexivity.
Qed.

Lemma yields_print (msg : string) (c : console) :
  yields (print msg) c tt (disk c) (stdin c).
Proof. eexists. reflexivity. Qed.

Lemma yields_input (prompt line : string) (rest : list string)
  (c : console) :
  stdin c = line :: rest -> yields (input prompt) c line (disk c) rest.
Proof.
  intros E. eexists. unfold input. rewrite E. reflexivity.
Qed.

(** One more turn of a loop, and its last turn. *)
Lemma yields_while_turn {S R : Type} (body : S -> I (S + R)) (s s' : S)
  (fuel : nat) (c : console) (d : files) (rest : list string)
  (x : R) (d' : files) (rest' : list string) :
  yields (body s) c (inl s') d rest ->
  (forall c', stdin c' = rest -> disk c' = d ->
              yields (while fuel body s') c' x d' rest') ->
  yields (while (Datatypes.S fuel) body s) c x d' rest'.
Proof.
  intros Hb Hk. simpl. apply (yields_bind _ _ c (inl s') d rest); assumption.
Qed.

Lemma yields_while_last {S R : Type} (body : S -> I (S + R)) (s : S)
  (fuel : nat) (c : console) (d : files) (rest : list string) (x : R) :
  yields (body s) c (inr x) d rest ->
  yields (while (Datatypes.S fuel) body s) c x d rest.
Proof.
  intros Hb. simpl. apply (yields_bind _ _ c (inr x) d rest); [exact Hb|].
  intros c' <- <-. apply yields_ret.
Qed.

Lemma yields_loop {S R : Type} (body : S -> I (S + R)) (s : S)
  (c : console) (lines : list string) (x : R) (d : files)
  (rest : list string) :
  stdin c = lines ->
  yields (while (Datatypes.S (List.length lines)) body s) c x d rest ->
  yields (loop body s) c x d rest.
Proof. intros <- H. exact H. Qed.

(** What a run that yields leaves behind. *)
Lemma yields_console {A : Type} (m : I A) (c : console) (a : A)
  (d : files) (rest : list string) :
  yields m c a d rest ->
  exists c', m c = (Done a, c') /\ stdin c' = rest /\ disk c' = d.
Proof. intros [s E]. eexists. split; [exact E|]. split; reflexivity. Qed.

(** ** Functions that only add to the watched file *)

Lemma extends_refl (d : files) : extends d d.
Proof. exists EmptyString. symmetry. apply StrFacts.append_nil_r. Qed.

Lemma extends_trans (d1 d2 d3 : files) :
  extends d1 d2 -> extends d2 d3 -> extends d1 d3.
Proof.
  intros [s1 E1] [s2 E2]. exists (s1 ++ s2)%string.
  rewrite E2, E1. apply StrFacts.append_assoc.
Qed.

Lemma keeps_appends {A : Type} (m : I A) : keeps_files m -> appends_only m.
Proof. intros H c. rewrite (H c). apply extends_refl. Qed.

Lemma appends_bind {A B : Type} (m : I A) (k : A -> I B) :
  appends_only m -> (forall a, appends_only (k a)) ->
  appends_only (bind m k).
Proof.
  intros Hm Hk c. unfold bind. specialize (Hm c).
  destruct (m c) as [[a|s] c'] eqn:E; simpl in *.
  - apply (extends_trans _ _ _ Hm), Hk.
  - exact Hm.
Qed.

Lemma appends_lift {A : Type} (m : M A) : grows m -> appends_only (lift m).
Proof.
  intros H c. unfold lift. specialize (H {| fs := disk c; log := [] |}).
  destruct (m {| fs := disk c; log := [] |}) as [[a|e] w]; simpl in *;
    exact H.
Qed.

Lemma appends_while {S R : Type} (body : S -> I (S + R)) :
  (forall s, appends_only (body s)) ->
  forall fuel s, appends_only (while fuel body s).
Proof.
  intros Hb. induction fuel as [|fuel IH]; intros s; simpl.
  - apply keeps_appends, keeps_halt.
  - apply appends_bind; [apply Hb|].
    intros [s'|x]; [apply IH|apply keeps_appends, keeps_ret].
Qed.

Lemma appends_loop {S R : Type} (body : S -> I (S + R)) (s : S) :
  (forall s, appends_only (body s)) -> appends_only (loop body s).
Proof. intros Hb c. unfold loop. apply appends_while, Hb. Qed.

Lemma keeps_for_each {A : Type} (l : list A) (body : A -> I unit) :
  (forall x, keeps_files (body x)) -> keeps_files (for_each l body).
Proof.
  intros Hb. induction l as [|x l IH]; simpl; [apply keeps_ret|].
  apply keeps_bind; [apply Hb|intros _; exact IH].
Qed.

End ConsoleFacts.

(* ================================================================== *)
(** * The interactive functions *)
(* ================================================================== *)

Module ShellFacts.
Import PyStr PyNum PyDict Runtime Store Engine Journal Renewal Menu.
Import Console Shell Spec Props ConsoleFacts.

(** ** The renewal stopped at once *)

Lemma read_preferences_text (w : world) :
  read_preferences w
  = (Ok match preferences_txt (fs w) with
        | Some text =>
            fold_left preferences_line (lines (universal_newlines text))
                      no_preferences
        | None => no_preferences
        end, w).
Proof.
  unfold read_preferences, Runtime.bind, path_exists, read_text,
    Runtime.ret, file_get.
  destruct (preferences_txt (fs w)) as [text|] eqn:E; cbv beta iota;
    [|reflexivity].
  rewrite E. reflexivity.
Qed.

(** X18.  The renewal resets the stored preferences before it asks
    anything.  When the first line typed is "stop", in any case and
    with any white space around it, the function ends after printing
    that the preferences remain unchanged, but the preferences file now
    holds empty preferences, whatever it held before; nothing else was
    written and the lines that follow are still to be read. *)
Theorem renew_preferences_stop_first
  (emotion_classifier : string -> list (string * float))
  (polarity : string -> float) (float_repr : float -> string)
  (full_titles : list movie) (c : console)
  (line : string) (rest : list string) :
  stdin c = line :: rest ->
  lower (strip line) = "stop" ->
  renew_preferences emotion_classifier polarity float_repr full_titles c
  = (Done tt,
     {| stdin := rest;
        disk := file_set PREFERENCES_FILE
                         (preferences_text no_preferences) (disk c);
        screen :=
          screen c
          ++ [Out (Write PREFERENCES_FILE
                         (preferences_text no_preferences));
              Out (Print (LF ++ "Renewing preferences...")%string);
              Out (Print
                     "Enter your favorite movies and reviews. Type 'stop' when you're done.");
              Ask "Enter your favorite movie title (or type 'stop' to finish): ";
              Out (Print
                     "No new movies were entered. Preferences remain unchanged.")]
     |})
  /\ fst (read_preferences
            {| fs := file_set PREFERENCES_FILE
                              (preferences_text no_preferences) (disk c);
               log := [] |})
     = Ok no_preferences.
Proof.
  intros E H. split; [|reflexivity].
  unfold renew_preferences.
  unfold bind at 1. unfold lift at 1, write_preferences, write_text.
  cbn [fs log map app stdin disk screen].
  unfold bind at 1. unfold print at 1, lift at 1, Runtime.print, emit.
  cbn [fs log map app stdin disk screen].
  unfold bind at 1. unfold print at 1, lift at 1, Runtime.print, emit.
  cbn [fs log map app stdin disk screen].
  unfold bind at 1. unfold loop. cbn [stdin]. rewrite E.
  cbn [List.length while]. unfold bind at 1.
  unfold ask_movie. unfold bind at 1. unfold input.
  cbn [stdin disk screen tl]. rewrite H, String.eqb_refl.
  unfold ret, print, lift, Runtime.print, emit.
  cbn [fs log map app stdin disk screen].
  rewrite <- !app_assoc. reflexivity.
Qed.

Lemma renew_preferences_stop_first_witness :
  let c := Cases.typed [" Stop "; "1"] Cases.with_preferences in
  let c' := snd (renew_preferences Samples.mostly_joy Cases.cheerful
                                   Cases.no_repr Cases.two_dramas c) in
  fst (read_preferences {| fs := disk c; log := [] |})
  = Ok Samples.drama_joy_new
  /\ fst (read_preferences {| fs := disk c'; log := [] |})
     = Ok no_preferences
  /\ stdin c' = ["1"].
Proof.
  intros c c'.
  destruct (renew_preferences_stop_first Samples.mostly_joy Cases.cheerful
              Cases.no_repr Cases.two_dramas c " Stop " ["1"]
              eq_refl eq_refl) as [E R].
  split; [reflexivity|]. unfold c'. rewrite E. cbn [snd disk stdin].
  split; [exact R|reflexivity].
Defined.

(** ** A session with one movie *)



Section Session.
Variable emotion_classifier : string -> list (string * float).
Variable polarity : string -> float.
Variable float_repr : float -> string.
Variable full_titles : list movie.




End Session.


(** ** One turn more than there are lines is enough *)

Ltac tame_step :=
  match goal with
  | |- tame (ret _) => apply tame_ret
  | |- tame (print _) => apply tame_print
  | |- tame (input _) => apply tame_input
  | |- tame (lift _) => apply tame_lift
  | |- tame (halt _) => apply tame_halt; discriminate
  | |- tame (bind _ _) => apply tame_bind; [|intros ?]
  | |- tame (if ?b then _ else _) => destruct b
  | |- tame (match ?x with _ => _ end) => destruct x
  | H : _ |- tame _ => solve [apply H]
  end.

Lemma tame_list_matches (ms : list movie) :
  forall idx, tame (list_matches idx ms).
Proof.
  induction ms as [|m ms IH]; intros idx; simpl; [apply tame_ret|].
  apply tame_bind; [apply tame_print|intros _; apply IH].
Qed.

Lemma tame_list_titles (l : list string) :
  forall idx, tame (list_titles idx l).
Proof.
  induction l as [|t l IH]; intros idx; simpl; [apply tame_ret|].
  apply tame_bind; [apply tame_print|intros _; apply IH].
Qed.

Lemma tame_select_movie (prompt : string) (ms : list movie) :
  tame (select_movie prompt ms).
Proof.
  unfold select_movie. apply tame_loop; intros _.
  - repeat tame_step.
  - apply reads_input. intros line. repeat tame_step.
Qed.

Lemma tame_choose_movie (prompt title_input : string) (first : movie)
  (others : list movie) :
  tame (choose_movie prompt title_input first others).
Proof.
  unfold choose_movie. destruct others; [apply tame_ret|].
  repeat tame_step; [apply tame_list_matches|apply tame_select_movie].
Qed.

Lemma tame_collect_years (ms : list Deriver.session_entry) :
  forall acc, tame (collect_years ms acc).
Proof.
  induction ms as [|m ms IH]; intros acc; simpl; [apply tame_ret|].
  destruct (truthy (Deriver.startYear m)); [|apply IH].
  destruct (py_int (Deriver.startYear m)); [apply IH|].
  apply tame_bind; [apply tame_print|intros _; apply IH].
Qed.

Lemma tame_read_tsv {A : Type} (file_path : string)
  (table : option (list A)) :
  tame (read_tsv file_path table).
Proof. unfold read_tsv. repeat tame_step. Qed.

Section Tame.
Variable emotion_classifier : string -> list (string * float).
Variable polarity : string -> float.
Variable float_repr : float -> string.
Variable review_page : string -> option string.
Variable titles_table : option (list movie).
Variable ratings_table : option (list rating).

Lemma tame_assign_year (years : list Z) : tame (assign_year float_repr years).
Proof. unfold assign_year. repeat tame_step. Qed.

Lemma tame_ask_movie (full_titles : list movie)
  (new_movies : list Deriver.session_entry) :
  tame (ask_movie polarity full_titles new_movies)
  /\ reads (ask_movie polarity full_titles new_movies).
Proof.
  unfold ask_movie. split.
  - repeat tame_step; apply tame_choose_movie.
  - apply reads_input. intros line. cbv zeta.
    repeat tame_step; apply tame_choose_movie.
Qed.

Lemma tame_renew_preferences (full_titles : list movie) :
  tame (renew_preferences emotion_classifier polarity float_repr full_titles).
Proof.
  unfold renew_preferences. cbv zeta.
  repeat tame_step;
    try apply tame_collect_years; try apply tame_assign_year.
  apply tame_loop; intros s; apply tame_ask_movie.
Qed.

Lemma tame_search_by_title (full_titles : list movie)
  (ratings : list rating) :
  tame (search_by_title float_repr review_page full_titles ratings).
Proof.
  unfold search_by_title. cbv zeta. repeat tame_step.
  all: try apply tame_choose_movie.
  all: repeat tame_step.
Qed.

Lemma tame_add_watched : tame (add_watched polarity tt)
                         /\ reads (add_watched polarity tt).
Proof.
  unfold add_watched. split.
  - repeat tame_step.
  - apply reads_input. intros line. cbv zeta. repeat tame_step.
Qed.

Lemma tame_view_watched_list : tame (view_watched_list polarity).
Proof.
  unfold view_watched_list. cbv zeta. repeat tame_step.
  all: try (apply tame_for_each; intros x; apply tame_print).
  all: apply tame_loop; intros []; apply tame_add_watched.
Qed.

Lemma tame_delete_or_move (removed : string) :
  tame (delete_or_move polarity removed tt)
  /\ reads (delete_or_move polarity removed tt).
Proof.
  unfold delete_or_move. split.
  - repeat tame_step.
  - apply reads_input. intros line. cbv zeta. repeat tame_step.
Qed.

Lemma tame_manage_watch_later :
  tame (manage_watch_later polarity tt)
  /\ reads (manage_watch_later polarity tt).
Proof.
  assert (L : forall removed, tame (loop (delete_or_move polarity removed) tt)).
  { intros removed. apply tame_loop; intros []; apply tame_delete_or_move. }
  unfold manage_watch_later. split.
  - repeat tame_step; apply L.
  - do 4 (apply reads_after; [apply tame_print|intros _]).
    apply reads_input. intros line. cbv zeta. repeat tame_step; apply L.
Qed.

Lemma tame_view_watch_later_list : tame (view_watch_later_list polarity).
Proof.
  unfold view_watch_later_list. repeat tame_step.
  all: try apply tame_list_titles.
  all: apply tame_loop; intros []; apply tame_manage_watch_later.
Qed.

Lemma tame_handle_recommendation :
  tame (handle_recommendation emotion_classifier polarity float_repr
                              review_page titles_table ratings_table).
Proof.
  assert (R : tame (recommend_movie emotion_classifier review_page
                                    titles_table ratings_table)).
  { unfold recommend_movie. repeat tame_step; apply tame_read_tsv. }
  assert (N : tame (renew_preferences_menu emotion_classifier polarity
                                           float_repr titles_table)).
  { unfold renew_preferences_menu.
    apply tame_bind; [apply tame_read_tsv|].
    intros full_titles. apply tame_renew_preferences. }
  unfold handle_recommendation, display_recommendation_menu.
  apply tame_loop; intros _.
  - repeat tame_step; assumption.
  - apply reads_after; [repeat tame_step|intros _].
    apply reads_input. intros line. cbv zeta. repeat tame_step; assumption.
Qed.

(** The program never wants for another turn of a loop: on a finite
    input it ends by [sys.exit()], by an exception, or by the
    [EOFError] of an input that has run out. *)
Lemma tame_main :
  tame (main emotion_classifier polarity float_repr review_page
             titles_table ratings_table).
Proof.
  assert (S4 : tame (search_by_title_option float_repr review_page
                                            titles_table ratings_table)).
  { unfold search_by_title_option.
    apply tame_bind; [apply tame_read_tsv|]. intros full_titles.
    apply tame_bind; [apply tame_read_tsv|]. intros ratings.
    apply tame_search_by_title. }
  pose proof tame_handle_recommendation as S1.
  pose proof tame_view_watched_list as S2.
  pose proof tame_view_watch_later_list as S3.
  unfold main, display_main_menu.
  apply tame_loop; intros _.
  - repeat tame_step.
  - apply reads_after; [repeat tame_step|intros _].
    apply reads_input. intros line. cbv zeta. repeat tame_step.
Qed.

End Tame.

(** ** Moving a title from the watch-later list to the watched list *)

Lemma remove_watch_later_world (index : Z) (w : world) (l : list string) :
  fst (read_watch_later w) = Ok l ->
  0 <= index < Z.of_nat (List.length l) ->
  exists t,
    nth_error l (Z.to_nat index) = Some t
    /\ remove_watch_later index w
       = (Ok (Some t),
          {| fs := file_set WATCH_LATER_FILE
                     (join "," (firstn (Z.to_nat index) l
                                ++ skipn (S (Z.to_nat index)) l))
                     (fs w);
             log := log w
                    ++ [Write WATCH_LATER_FILE
                          (join "," (firstn (Z.to_nat index) l
                                     ++ skipn (S (Z.to_nat index)) l))] |}).
Proof.
  intros Hl Hin.
  apply WatchLaterFacts.read_watch_later_as in Hl.
  destruct (WatchLaterFacts.pop_in_range l index Hin) as [t [Ht Hpop]].
  exists t. split; [exact Ht|].
  unfold remove_watch_later, Runtime.bind. rewrite Hl.
  rewrite (proj2 (WatchLaterFacts.in_range_test index (List.length l)) Hin).
  unfold Runtime.lift. rewrite Hpop. reflexivity.
Qed.

Lemma list_titles_yields (l : list string) :
  forall idx c, yields (list_titles idx l) c tt (disk c) (stdin c).
Proof.
  induction l as [|t l IH]; intros idx c; simpl; [apply yields_ret|].
  eapply yields_bind; [apply yields_print|]. intros c' <- <-. apply IH.
Qed.

Lemma stored_without (l : list string) (i : nat) :
  Forall stored_title l ->
  Forall stored_title (firstn i l ++ skipn (S i) l).
Proof.
  intros St. rewrite Forall_forall in *. intros x Hx.
  apply in_app_or in Hx. destruct Hx as [Hx|Hx]; apply St.
  - rewrite <- (firstn_skipn i l). apply in_or_app. left. exact Hx.
  - rewrite <- (firstn_skipn (S i) l). apply in_or_app. right. exact Hx.
Qed.

Section Shelf.
Variable polarity : string -> float.

Lemma sentiment_plain (review : string) :
  plain_field (determine_sentiment polarity review)
  /\ strip (determine_sentiment polarity review)
     = determine_sentiment polarity review.
Proof.
  unfold determine_sentiment.
  destruct (float_le f0_1 (polarity review)); repeat split.
Qed.

Lemma delete_or_move_moved (removed : string) (c : console)
  (action_line review_line : string) (rest : list string)
  (entries : list watched_entry) :
  stdin c = action_line :: review_line :: rest ->
  lower (strip action_line) = "move" ->
  truthy (strip review_line) = true ->
  fst (read_watched {| fs := disk c; log := [] |}) = Ok entries ->
  yields (delete_or_move polarity removed tt) c (inr tt)
    (file_set WATCHED_FILE
       (match watched_txt (disk c) with
        | Some text => text
        | None => EmptyString
        end
        ++ watched_line (Z.of_nat (List.length entries) + 1)
                        removed (strip review_line)
                        (determine_sentiment polarity (strip review_line)))
       (disk c))
    rest.
Proof.
  intros E Ha Hr He. unfold delete_or_move.
  eapply yields_bind; [apply (yields_input _ action_line _), E|].
  intros c1 E1 D1. cbv zeta. rewrite Ha. cbn [String.eqb Ascii.eqb Bool.eqb].
  eapply yields_bind; [apply (yields_input _ review_line rest), E1|].
  intros c2 E2 D2. rewrite Hr. cbn [negb].
  assert (Hw : fst (read_watched {| fs := disk c2; log := [] |})
               = Ok entries).
  { rewrite D2, D1. exact He. }
  destruct (JournalFacts.append_watched_world removed (strip review_line)
              (determine_sentiment polarity (strip review_line))
              {| fs := disk c2; log := [] |} entries Hw) as [Ea _].
  cbn [fs log] in Ea.
  eapply yields_bind; [apply (yields_lift _ _ _ _ Ea)|].
  intros c3 E3 D3.
  eapply yields_bind; [apply yields_print|]. intros c4 E4 D4.
  replace rest with (stdin c4) by (rewrite E4, E3; exact E2).
  match goal with
  | |- yields _ _ _ ?d _ => replace d with (disk c4)
  end.
  - apply yields_ret.
  - rewrite D4, D3. cbn [fs]. rewrite D2, D1. reflexivity.
Qed.

Lemma manage_watch_later_moved (c : console)
  (option_line number_line action_line review_line : string)
  (rest : list string) (l : list string) (n : Z) (t : string)
  (entries : list watched_entry) :
  stdin c = option_line :: number_line :: action_line :: review_line
            :: rest ->
  strip option_line = "2" ->
  py_int (strip number_line) = Some n ->
  1 <= n <= Z.of_nat (List.length l) ->
  lower (strip action_line) = "move" ->
  truthy (strip review_line) = true ->
  fst (read_watch_later {| fs := disk c; log := [] |}) = Ok l ->
  nth_error l (Z.to_nat (n - 1)) = Some t ->
  fst (read_watched {| fs := disk c; log := [] |}) = Ok entries ->
  yields (manage_watch_later polarity tt) c (inl tt)
         (moved (disk c) l (Z.to_nat (n - 1)) entries t (strip review_line)
                (determine_sentiment polarity (strip review_line)))
         rest.
Proof.
  intros E Ho Hn Hin Ha Hr Hl Ht He. unfold manage_watch_later.
  eapply yields_bind; [apply yields_print|]. intros c1 E1 D1.
  eapply yields_bind; [apply yields_print|]. intros c2 E2 D2.
  eapply yields_bind; [apply yields_print|]. intros c3 E3 D3.
  eapply yields_bind; [apply yields_print|]. intros c4 E4 D4.
  assert (In4 : stdin c4 = option_line :: number_line :: action_line
                           :: review_line :: rest).
  { rewrite E4, E3, E2, E1. exact E. }
  assert (Dk4 : disk c4 = disk c).
  { rewrite D4, D3, D2, D1. reflexivity. }
  eapply yields_bind; [apply (yields_input _ option_line _), In4|].
  intros c5 E5 D5. cbv zeta. rewrite Ho.
  cbn [String.eqb Ascii.eqb Bool.eqb].
  assert (Dk5 : disk c5 = disk c) by (rewrite D5; exact Dk4).
  assert (Hl5 : read_watch_later {| fs := disk c5; log := [] |}
                = (Ok l, {| fs := disk c5; log := [] |})).
  { apply WatchLaterFacts.read_watch_later_as. rewrite Dk5. exact Hl. }
  eapply yields_bind; [apply (yields_lift _ _ _ _ Hl5)|].
  cbn [fs]. intros c6 E6 D6.
  assert (Dk6 : disk c6 = disk c) by (rewrite D6; exact Dk5).
  destruct l as [|t0 l0]; [simpl in Hin; lia|].
  set (l := t0 :: l0) in Hin, Hl, Ht, Hl5 |- *.
  eapply yields_bind.
  { apply (yields_input _ number_line (action_line :: review_line :: rest)).
    rewrite E6. exact E5. }
  intros c7 E7 D7. rewrite Hn. cbv zeta.
  assert (Hi : 0 <= n - 1 < Z.of_nat (List.length l)) by lia.
  rewrite (proj2 (WatchLaterFacts.in_range_test (n - 1) (List.length l)) Hi).
  assert (Dk7 : disk c7 = disk c) by (rewrite D7; exact Dk6).
  assert (Hl7 : fst (read_watch_later {| fs := disk c7; log := [] |})
                = Ok l) by (rewrite Dk7; exact Hl).
  destruct (remove_watch_later_world (n - 1) {| fs := disk c7; log := [] |}
              l Hl7 Hi) as [t' [Ht' Er]].
  rewrite Ht in Ht'. injection Ht' as <-.
  cbn [fs log] in Er.
  eapply yields_bind; [apply (yields_lift _ _ _ _ Er)|].
  cbn [fs]. intros c8 E8 D8.
  assert (St : stored_title t).
  { pose proof (ShelfFacts.read_watch_later_stored _ _ Hl) as F.
    rewrite Forall_forall in F. apply F.
    apply (nth_error_In _ _ Ht). }
  destruct t as [|a s]; [destruct St as [[T _] _]; discriminate|].
  eapply yields_bind; [apply yields_print|]. intros c9 E9 D9.
  assert (In9 : stdin c9 = action_line :: review_line :: rest).
  { rewrite E9, E8. exact E7. }
  assert (He9 : fst (read_watched {| fs := disk c9; log := [] |})
                = Ok entries).
  { rewrite D9, D8, Dk7. rewrite JournalFacts.read_watched_text in *.
    exact He. }
  eapply yields_bind.
  { apply (yields_loop _ _ _ _ _ _ _ In9).
    apply yields_while_last.
    apply (delete_or_move_moved (String a s) c9 action_line review_line
             rest entries In9 Ha Hr He9). }
  intros c10 E10 D10.
  replace rest with (stdin c10) by exact E10.
  match goal with
  | |- yields _ _ _ ?d _ => replace d with (disk c10)
  end.
  - apply yields_ret.
  - rewrite D10, D9, D8, Dk7. reflexivity.
Qed.

Lemma watch_later_title_moved (c : console)
  (option_line number_line action_line review_line back_line : string)
  (rest : list string) (l : list string) (n : Z) (t : string)
  (entries : list watched_entry) :
  stdin c = option_line :: number_line :: action_line :: review_line
            :: back_line :: rest ->
  strip option_line = "2" ->
  py_int (strip number_line) = Some n ->
  1 <= n <= Z.of_nat (List.length l) ->
  lower (strip action_line) = "move" ->
  truthy (strip review_line) = true ->
  strip back_line = "3" ->
  fst (read_watch_later {| fs := disk c; log := [] |}) = Ok l ->
  nth_error l (Z.to_nat (n - 1)) = Some t ->
  fst (read_watched {| fs := disk c; log := [] |}) = Ok entries ->
  yields (view_watch_later_list polarity) c tt
         (moved (disk c) l (Z.to_nat (n - 1)) entries t (strip review_line)
                (determine_sentiment polarity (strip review_line)))
         rest.
Proof.
  intros E Ho Hn Hin Ha Hr Hb Hl Ht He. unfold view_watch_later_list.
  assert (Hl0 : read_watch_later {| fs := disk c; log := [] |}
                = (Ok l, {| fs := disk c; log := [] |})).
  { apply WatchLaterFacts.read_watch_later_as, Hl. }
  eapply yields_bind; [apply (yields_lift _ _ _ _ Hl0)|].
  cbn [fs]. intros c1 E1 D1.
  eapply (yields_bind _ _ c1 tt (disk c1) (stdin c1)).
  { destruct l as [|t0 l0]; [apply yields_print|].
    eapply yields_bind; [apply yields_print|]. intros c' <- <-.
    apply list_titles_yields. }
  intros c2 E2 D2.
  assert (In2 : stdin c2 = option_line :: number_line :: action_line
                           :: review_line :: back_line :: rest).
  { rewrite E2, E1. exact E. }
  assert (Dk2 : disk c2 = disk c) by (rewrite D2, D1; reflexivity).
  apply (yields_loop _ _ _ _ _ _ _ In2).
  eapply yields_while_turn.
  - apply (manage_watch_later_moved c2 option_line number_line action_line
             review_line (back_line :: rest) l n t entries In2 Ho Hn Hin
             Ha Hr); try rewrite Dk2; assumption.
  - intros c3 E3 D3. apply yields_while_last.
    unfold manage_watch_later.
    eapply yields_bind; [apply yields_print|]. intros c4 E4 D4.
    eapply yields_bind; [apply yields_print|]. intros c5 E5 D5.
    eapply yields_bind; [apply yields_print|]. intros c6 E6 D6.
    eapply yields_bind; [apply yields_print|]. intros c7 E7 D7.
    eapply yields_bind.
    { apply (yields_input _ back_line rest).
      rewrite E7, E6, E5, E4. exact E3. }
    intros c8 E8 D8. cbv zeta. rewrite Hb.
    cbn [String.eqb Ascii.eqb Bool.eqb].
    replace rest with (stdin c8) by exact E8.
    match goal with
    | |- yields _ _ _ ?d _ => replace d with (disk c8)
    end.
    + apply yields_ret.
    + rewrite D8, D7, D6, D5, D4, D3, Dk2. reflexivity.
Qed.

(** X20.  Moving a title from the watch-later list to the watched
    list.  The lines typed are "2", the number of a title of the list,
    "move", a review and "3".  The function returns after reading the
    five lines; the watch-later list read afterwards is the old one
    without the title at that number; the preferences file is not
    touched.  The watched list read afterwards has the old entries
    followed by the moved title with the review and its status, but
    only if neither the title nor the review has a colon: with a colon
    in one of them the watched list reads as before, and the title is
    in neither list.  The watched file, if present, is taken to be
    empty or to end with a line feed, and the title and the review to
    have no line break. *)
Theorem view_watch_later_list_move
  (c : console)
  (option_line number_line action_line review_line back_line : string)
  (rest : list string) (l : list string) (n : Z) (t : string)
  (entries : list watched_entry) :
  stdin c = option_line :: number_line :: action_line :: review_line
            :: back_line :: rest ->
  strip option_line = "2" ->
  py_int (strip number_line) = Some n ->
  1 <= n <= Z.of_nat (List.length l) ->
  lower (strip action_line) = "move" ->
  truthy (strip review_line) = true ->
  strip back_line = "3" ->
  fst (read_watch_later {| fs := disk c; log := [] |}) = Ok l ->
  nth_error l (Z.to_nat (n - 1)) = Some t ->
  fst (read_watched {| fs := disk c; log := [] |}) = Ok entries ->
  (forall text, watched_txt (disk c) = Some text -> terminated text) ->
  has_char "010" t = false ->
  has_char "010" review_line = false ->
  has_char "013" review_line = false ->
  exists c',
    view_watch_later_list polarity c = (Done tt, c')
    /\ stdin c' = rest
    /\ fst (read_watch_later {| fs := disk c'; log := [] |})
       = Ok (firstn (Z.to_nat (n - 1)) l ++ skipn (S (Z.to_nat (n - 1))) l)
    /\ fst (read_watched {| fs := disk c'; log := [] |})
       = Ok (entries
             ++ if has_char ":" t || has_char ":" (strip review_line)
                then []
                else [{| number :=
                           str_of_int (Z.of_nat (List.length entries) + 1);
                         Store.title := t;
                         Store.review := strip review_line;
                         Store.status :=
                           determine_sentiment polarity
                                               (strip review_line) |}])
    /\ preferences_txt (disk c') = preferences_txt (disk c).
Proof.
  intros E Ho Hn Hin Ha Hr Hb Hl Ht He Hterm Lt Lr Rr.
  destruct (yields_console _ _ _ _ _
              (watch_later_title_moved c option_line number_line
                 action_line review_line back_line rest l n t entries
                 E Ho Hn Hin Ha Hr Hb Hl Ht He))
    as [c' [Ec [Es Ed]]].
  exists c'. split; [exact Ec|]. split; [exact Es|].
  rewrite Ed. unfold moved.
  pose proof (ShelfFacts.read_watch_later_stored _ _ Hl) as St.
  assert (Stt : stored_title t).
  { rewrite Forall_forall in St. apply St, (nth_error_In _ _ Ht). }
  destruct Stt as [_ Rt].
  split; [|split; [|reflexivity]].
  - rewrite ShelfFacts.read_watch_later_text. cbn [fs fst file_set watch_later_txt].
    rewrite (ShelfFacts.titles_of_joined _ (stored_without l _ St)).
    reflexivity.
  - rewrite JournalFacts.read_watched_text in *.
    cbn [fs fst file_set watched_txt] in *.
    injection He as He.
    destruct (sentiment_plain (strip review_line)) as [[C3 [L3 R3]] S3].
    assert (Hpos : 0 < Z.of_nat (List.length entries) + 1) by lia.
    assert (Told : terminated match watched_txt (disk c) with
                              | Some text => text
                              | None => EmptyString
                              end).
    { destruct (watched_txt (disk c)) as [text|];
        [apply Hterm; reflexivity|left; reflexivity]. }
    assert (Eold : entries_of_text match watched_txt (disk c) with
                                   | Some text => text
                                   | None => EmptyString
                                   end = entries).
    { rewrite <- He. destruct (watched_txt (disk c)); reflexivity. }
    rewrite JournalFacts.watched_line_stem.
    rewrite (JournalFacts.entries_grow _ t (strip review_line)
               (determine_sentiment polarity (strip review_line)) Hpos _ Told
               Lt (ShelfFacts.has_char_strip _ _ Lr) L3
               Rt (ShelfFacts.has_char_strip _ _ Rr) R3).
    rewrite Eold.
    destruct (has_char ":" t || has_char ":" (strip review_line)) eqn:C.
    + rewrite (JournalFacts.line_dropped _ t (strip review_line)
                 (determine_sentiment polarity (strip review_line))).
      * reflexivity.
      * rewrite C. reflexivity.
    + apply orb_false_iff in C. destruct C as [C1 C2].
      rewrite (JournalFacts.line_parsed _ t (strip review_line)
                 (determine_sentiment polarity (strip review_line))
                 Hpos C1 C2 C3 S3).
      reflexivity.
Qed.

End Shelf.

Lemma view_watch_later_list_move_witness :
  let c := Cases.typed ["2"; "3"; "move"; "A feast"; "3"] Cases.shelf in
  let lost := Cases.typed ["2"; "2"; "Move"; "The first one"; "3"]
                          Cases.shelf in
  (exists c',
      view_watch_later_list Cases.cheerful c = (Done tt, c')
      /\ fst (read_watch_later {| fs := disk c'; log := [] |})
         = Ok ["Alien"; "Star Wars: A New Hope"]
      /\ fst (read_watched {| fs := disk c'; log := [] |})
         = Ok [Cases.heat_entry;
               {| number := "2"; Store.title := "Ran";
                  Store.review := "A feast"; Store.status := "like" |}])
  /\ (exists c',
         view_watch_later_list Cases.cheerful lost = (Done tt, c')
         /\ fst (read_watch_later {| fs := disk c'; log := [] |})
            = Ok ["Alien"; "Ran"]
         /\ fst (read_watched {| fs := disk c'; log := [] |})
            = Ok [Cases.heat_entry]).
Proof.
  intros c lost. split.
  - destruct (view_watch_later_list_move Cases.cheerful c
                "2" "3" "move" "A feast" "3" []
                ["Alien"; "Star Wars: A New Hope"; "Ran"] 3 "Ran"
                [Cases.heat_entry])
      as [c' [E [_ [Hl [Hw _]]]]]; try reflexivity.
    + simpl. lia.
    + intros text H. injection H as <-. right.
      exists "1.Heat:Great film:like". reflexivity.
    + exists c'. split; [exact E|]. split; [exact Hl|exact Hw].
  - destruct (view_watch_later_list_move Cases.cheerful lost
                "2" "2" "Move" "The first one" "3" []
                ["Alien"; "Star Wars: A New Hope"; "Ran"] 2
                "Star Wars: A New Hope" [Cases.heat_entry])
      as [c' [E [_ [Hl [Hw _]]]]]; try reflexivity.
    + simpl. lia.
    + intros text H. injection H as <-. right.
      exists "1.Heat:Great film:like". reflexivity.
    + exists c'. split; [exact E|]. split; [exact Hl|exact Hw].
Defined.

(** ** The main loop *)

Lemma goes_on_ret {S R : Type} (s : S) : goes_on (ret (@inl S R s)).
Proof. intros c r. discriminate. Qed.

Lemma goes_on_halt {S R : Type} (s : stop) : goes_on (@halt (S + R) s).
Proof. intros c r. discriminate. Qed.

Lemma goes_on_bind {A S R : Type} (m : I A) (k : A -> I (S + R)) :
  (forall a, goes_on (k a)) -> goes_on (bind m k).
Proof.
  intros Hk c r. unfold bind.
  destruct (m c) as [[a|s] c']; [apply Hk|discriminate].
Qed.

Lemma while_goes_on {S R : Type} (body : S -> I (S + R)) :
  (forall s, goes_on (body s)) ->
  forall fuel s c r, fst (while fuel body s c) <> Done r.
Proof.
  intros Hb. induction fuel as [|fuel IH]; intros s c r; simpl.
  - discriminate.
  - unfold bind. specialize (Hb s c).
    destruct (body s c) as [[[s'|x]|st] c']; simpl in *.
    + apply IH.
    + exfalso. apply (Hb x). reflexivity.
    + discriminate.
Qed.

Lemma while_stopped {S R : Type} (body : S -> I (S + R)) (s : S)
  (fuel : nat) (c c' : console) (st : stop) :
  body s c = (Stopped st, c') ->
  while (Datatypes.S fuel) body s c = (@Stopped R st, c').
Proof. intros H. simpl. unfold bind. rewrite H. reflexivity. Qed.

Section Main.
Variable emotion_classifier : string -> list (string * float).
Variable polarity : string -> float.
Variable float_repr : float -> string.
Variable review_page : string -> option string.
Variable titles_table : option (list movie).
Variable ratings_table : option (list rating).

(** X21.  The program never returns from [main] and never goes round a
    loop without reading a line: whatever is typed and whatever the
    files hold, it stops, by [sys.exit()], by an exception, or by the
    [EOFError] of an input that has run out. *)
Theorem main_ends (c : console) :
  exists s,
    fst (main emotion_classifier polarity float_repr review_page
              titles_table ratings_table c)
    = Stopped s
    /\ s <> OutOfFuel.
Proof.
  pose proof (tame_main emotion_classifier polarity float_repr review_page
                        titles_table ratings_table c) as [_ T].
  destruct (main emotion_classifier polarity float_repr review_page
                 titles_table ratings_table c) as [[[]|s] c'] eqn:E.
  - exfalso. unfold main, loop in E.
    match type of E with
    | while ?f ?b tt c = _ =>
        apply (while_goes_on b) with (fuel := f) (s := tt) (c := c) (r := tt)
    end.
    + intros []. apply goes_on_bind. intros _. apply goes_on_bind.
      intros line. cbv zeta.
      repeat match goal with
             | |- goes_on (if ?b then _ else _) => destruct b
             | |- goes_on (bind _ _) => apply goes_on_bind; intros ?
             end;
        first [apply goes_on_ret|apply goes_on_halt].
    + rewrite E. reflexivity.
  - exists s. split; [reflexivity|]. intros ->. apply T. reflexivity.
Qed.

(** X22.  At the main menu the line "5", or "quit" in any case, with
    any white space around it, ends the program by [sys.exit()] after
    the goodbye message: the menu and the message are all that is
    shown, no file is changed and no further line is read. *)
Theorem main_quit (c : console) (line : string) (rest : list string) :
  stdin c = line :: rest ->
  strip line = "5" \/ lower (strip line) = "quit" ->
  main emotion_classifier polarity float_repr review_page
       titles_table ratings_table c
  = (Stopped SystemExit,
     {| stdin := rest;
        disk := disk c;
        screen :=
          screen c
          ++ [Out (Print (LF ++ "Welcome to Movie Match")%string);
              Out (Print "1. Recommend a movie");
              Out (Print "2. View a watched list");
              Out (Print "3. View a watch later list");
              Out (Print "4. Search by title");
              Out (Print "5. Quit");
              Ask "Choose an option: ";
              Out (Print "Exiting Movie Match. Goodbye!")] |}).
Proof.
  intros E H.
  assert (N : forall k : string,
             k <> strip line -> String.eqb (strip line) k = false).
  { intros k Hk. destruct (String.eqb_spec (strip line) k) as [e|_];
      [exfalso; apply Hk; symmetry; exact e|reflexivity]. }
  assert (Q : String.eqb (strip line) "5"
              || String.eqb (lower (strip line)) "quit" = true).
  { destruct H as [H|H]; rewrite H; [reflexivity|apply orb_true_r]. }
  assert (D : forall k : string,
             In k ["1"; "2"; "3"; "4"]%string -> k <> strip line).
  { intros k Hk Ek. rewrite <- Ek in H.
    simpl in Hk.
    destruct Hk as [<-|[<-|[<-|[<-|[]]]]];
      destruct H as [H|H]; discriminate H. }
  unfold main, loop. apply while_stopped.
  assert (M : display_main_menu c
              = (Done tt,
                 {| stdin := stdin c; disk := disk c;
                    screen :=
                      screen c
                      ++ [Out (Print (LF ++ "Welcome to Movie Match")%string);
                          Out (Print "1. Recommend a movie");
                          Out (Print "2. View a watched list");
                          Out (Print "3. View a watch later list");
                          Out (Print "4. Search by title");
                          Out (Print "5. Quit")] |})).
  { unfold display_main_menu, bind, print, lift, Runtime.print, emit.
    cbn [fs log map app stdin disk screen].
    rewrite <- !app_assoc. reflexivity. }
  unfold bind at 1. rewrite M.
  unfold bind at 1. unfold input at 1. cbn [stdin disk screen tl].
  rewrite E. cbv zeta.
  rewrite (N "1"), (N "2"), (N "3"), (N "4") by (apply D; simpl; tauto).
  rewrite Q.
  unfold bind, print, lift, Runtime.print, emit, halt.
  cbn [fs log map app stdin disk screen].
  rewrite <- !app_assoc. reflexivity.
Qed.

End Main.

Lemma main_quit_witness :
  let c := Cases.typed [" QUIT "; "1"] Cases.shelf in
  main Samples.mostly_joy Cases.cheerful Cases.no_repr (fun _ => None)
       None None c
  = (Stopped SystemExit,
     {| stdin := ["1"];
        disk := Cases.shelf;
        screen :=
          [Out (Print (LF ++ "Welcome to Movie Match")%string);
           Out (Print "1. Recommend a movie");
           Out (Print "2. View a watched list");
           Out (Print "3. View a watch later list");
           Out (Print "4. Search by title");
           Out (Print "5. Quit");
           Ask "Choose an option: ";
           Out (Print "Exiting Movie Match. Goodbye!")] |}).
Proof.
  intros c.
  apply (main_quit Samples.mostly_joy Cases.cheerful Cases.no_repr
                   (fun _ => None) None None c " QUIT " ["1"] eq_refl).
  right. reflexivity.
Defined.

(** ** The search changes no file *)

Ltac keeps_step :=
  match goal with
  | |- keeps_files (ret _) => apply keeps_ret
  | |- keeps_files (print _) => apply keeps_print
  | |- keeps_files (input _) => apply keeps_input
  | |- keeps_files (halt _) => apply keeps_halt
  | |- keeps_files (bind _ _) => apply keeps_bind; [|intros ?]
  | |- keeps_files (if ?b then _ else _) => destruct b
  | |- keeps_files (match ?x with _ => _ end) => destruct x
  | H : _ |- keeps_files _ => solve [apply H]
  end.

Lemma keeps_list_matches (ms : list movie) :
  forall idx, keeps_files (list_matches idx ms).
Proof.
  induction ms as [|m ms IH]; intros idx; simpl; [apply keeps_ret|].
  apply keeps_bind; [apply keeps_print|intros _; apply IH].
Qed.

Lemma keeps_choose_movie (prompt title_input : string) (first : movie)
  (others : list movie) :
  keeps_files (choose_movie prompt title_input first others).
Proof.
  unfold choose_movie. destruct others; [apply keeps_ret|].
  apply keeps_bind; [apply keeps_print|intros _].
  apply keeps_bind; [apply keeps_list_matches|intros _].
  unfold select_movie. apply keeps_loop. intros _. repeat keeps_step.
Qed.

Lemma keeps_read_tsv {A : Type} (file_path : string)
  (table : option (list A)) :
  keeps_files (read_tsv file_path table).
Proof. unfold read_tsv. repeat keeps_step. Qed.

Lemma keeps_search_by_title_option
  (float_repr : float -> string) (review_page : string -> option string)
  (titles_table : option (list movie))
  (ratings_table : option (list rating)) :
  keeps_files (search_by_title_option float_repr review_page titles_table
                                      ratings_table).
Proof.
  assert (F : forall url,
             keeps_files (lift (fetch_most_supported_review review_page
                                                            url))).
  { intros url. apply keeps_lift. intros w. reflexivity. }
  unfold search_by_title_option.
  apply keeps_bind; [apply keeps_read_tsv|]. intros full_titles.
  apply keeps_bind; [apply keeps_read_tsv|]. intros ratings.
  unfold search_by_title.
  apply keeps_bind; [apply keeps_input|]. intros line. cbv zeta.
  destruct (negb (truthy (lower (strip line)))); [apply keeps_print|].
  destruct (matching_movies full_titles (lower (strip line)))
    as [|first others]; [apply keeps_print|].
  apply keeps_bind; [apply keeps_choose_movie|]. intros selected_movie.
  destruct (first_rating ratings (tconst selected_movie)) as [rating|];
    [|apply keeps_print].
  destruct (py_float (averageRating rating)) as [average_rating|];
    [|apply keeps_print].
  destruct (py_int (numVotes rating)) as [num_votes|]; [|apply keeps_print].
  apply keeps_bind; [apply F|]. intros review.
  destruct review as [[|a s]|]; repeat keeps_step.
Qed.

(** X23.  The search by title changes none of the three files,
    whatever is typed, whatever the tables hold and whatever the review
    page gives, and also when it stops for want of input. *)
Theorem search_by_title_option_keeps_files
  (float_repr : float -> string) (review_page : string -> option string)
  (titles_table : option (list movie))
  (ratings_table : option (list rating)) (c : console) :
  disk (snd (search_by_title_option float_repr review_page titles_table
                                    ratings_table c))
  = disk c.
Proof. apply keeps_search_by_title_option. Qed.

(** ** The watched file only grows *)

Lemma same_watched_extends (d d' : files) :
  watched_txt d' = watched_txt d -> extends d d'.
Proof.
  intros H. exists EmptyString. rewrite H. symmetry.
  apply StrFacts.append_nil_r.
Qed.

Lemma grows_write_preferences (p : preferences) :
  grows (write_preferences p).
Proof. intros w. apply same_watched_extends. reflexivity. Qed.

Lemma grows_read_watched : grows read_watched.
Proof.
  intros w. destruct (EngineFacts.read_watched_pure w) as [l E].
  rewrite E. apply extends_refl.
Qed.

Lemma grows_read_watch_later : grows read_watch_later.
Proof.
  intros w. destruct (WatchLaterFacts.read_watch_later_pure w) as [l E].
  rewrite E. apply extends_refl.
Qed.

Lemma grows_append_watched (title review status : string) :
  grows (append_watched title review status).
Proof.
  intros w. destruct (EngineFacts.read_watched_pure w) as [entries E].
  destruct (JournalFacts.append_watched_world title review status w entries)
    as [Ea _]; [rewrite E; reflexivity|].
  rewrite Ea. eexists. reflexivity.
Qed.

Lemma grows_append_watch_later (t : string) : grows (append_watch_later t).
Proof.
  intros w. destruct (WatchLaterFacts.read_watch_later_pure w) as [l E].
  rewrite (ShelfFacts.append_watch_later_world t w l)
    by (rewrite E; reflexivity).
  apply same_watched_extends. reflexivity.
Qed.

Lemma grows_remove_watch_later (index : Z) :
  grows (remove_watch_later index).
Proof.
  intros w. destruct (WatchLaterFacts.read_watch_later_pure w) as [l E].
  unfold remove_watch_later, Runtime.bind. rewrite E.
  destruct ((0 <=? index) && (index <? Z.of_nat (List.length l)));
    [|apply same_watched_extends; reflexivity].
  unfold Runtime.lift.
  destruct (pop l index) as [[removed rest]|e];
    apply same_watched_extends; reflexivity.
Qed.

Lemma grows_recommend_movie
  (review_page : string -> option string)
  (emotion_classifier : string -> list (string * float))
  (full_titles : list movie) (ratings : list rating) :
  grows (Menu.recommend_movie review_page emotion_classifier full_titles
                              ratings).
Proof.
  intros w. unfold Menu.recommend_movie, Runtime.bind.
  rewrite read_preferences_text.
  match goal with
  | |- context [if ?b then _ else _] => destruct b
  end; [apply same_watched_extends; reflexivity|].
  match goal with
  | |- context [recommend_based_on_preferences _ _ ?p _ _ _] =>
      destruct (RunFacts.run_outcome review_page emotion_classifier p
                  full_titles ratings w)
        as (wl & wd & added & files' & events & _ & _ & E & _ & _ & _
            & Fw & _)
  end.
  rewrite E. apply same_watched_extends. exact Fw.
Qed.

Ltac appends_step :=
  match goal with
  | |- appends_only (ret _) => apply keeps_appends, keeps_ret
  | |- appends_only (print _) => apply keeps_appends, keeps_print
  | |- appends_only (input _) => apply keeps_appends, keeps_input
  | |- appends_only (halt _) => apply keeps_appends, keeps_halt
  | |- appends_only (read_tsv _ _) => apply keeps_appends, keeps_read_tsv
  | |- appends_only (choose_movie _ _ _ _) =>
      apply keeps_appends, keeps_choose_movie
  | |- appends_only (lift _) =>
      apply appends_lift;
      first [ apply grows_write_preferences | apply grows_read_watched
            | apply grows_read_watch_later | apply grows_append_watched
            | apply grows_append_watch_later
            | apply grows_remove_watch_later
            | apply grows_recommend_movie ]
  | |- appends_only (bind _ _) => apply appends_bind; [|intros ?]
  | |- appends_only (if ?b then _ else _) => destruct b
  | |- appends_only (match ?x with _ => _ end) => destruct x
  | H : _ |- appends_only _ => solve [apply H]
  end.

Lemma keeps_collect_years (ms : list Deriver.session_entry) :
  forall acc, keeps_files (collect_years ms acc).
Proof.
  induction ms as [|m ms IH]; intros acc; simpl; [apply keeps_ret|].
  destruct (truthy (Deriver.startYear m)); [|apply IH].
  destruct (py_int (Deriver.startYear m)); [apply IH|].
  apply keeps_bind; [apply keeps_print|intros _; apply IH].
Qed.

Lemma keeps_list_titles (l : list string) :
  forall idx, keeps_files (list_titles idx l).
Proof.
  induction l as [|t l IH]; intros idx; simpl; [apply keeps_ret|].
  apply keeps_bind; [apply keeps_print|intros _; apply IH].
Qed.

Section Grows.
Variable emotion_classifier : string -> list (string * float).
Variable polarity : string -> float.
Variable float_repr : float -> string.
Variable review_page : string -> option string.
Variable titles_table : option (list movie).
Variable ratings_table : option (list rating).

Lemma appends_renew_preferences (full_titles : list movie) :
  appends_only
    (renew_preferences emotion_classifier polarity float_repr full_titles).
Proof.
  assert (Y : forall years, appends_only (assign_year float_repr years)).
  { intros years. unfold assign_year. repeat appends_step. }
  assert (C : forall ms acc, appends_only (collect_years ms acc)).
  { intros ms acc. apply keeps_appends, keeps_collect_years. }
  assert (L : forall s,
             appends_only (loop (ask_movie polarity full_titles) s)).
  { intros s. apply appends_loop. intros s'. unfold ask_movie.
    apply appends_bind; [repeat appends_step|]. intros line. cbv zeta.
    repeat appends_step. }
  unfold renew_preferences. cbv zeta. repeat appends_step.
Qed.

Lemma appends_view_watched_list : appends_only (view_watched_list polarity).
Proof.
  assert (L : appends_only (loop (add_watched polarity) tt)).
  { apply appends_loop. intros []. unfold add_watched.
    apply appends_bind; [repeat appends_step|]. intros line. cbv zeta.
    repeat appends_step. }
  assert (F : forall watched : list watched_entry,
             appends_only
               (for_each watched
                  (fun movie =>
                     print (number movie ++ ". " ++ Store.title movie ++ ": "
                            ++ Store.review movie ++ " ("
                            ++ Store.status movie ++ ")")%string))).
  { intros watched. apply keeps_appends, keeps_for_each.
    intros x. apply keeps_print. }
  unfold view_watched_list.
  apply appends_bind; [repeat appends_step|]. intros watched.
  apply appends_bind.
  { destruct watched; [repeat appends_step|].
    apply appends_bind; [repeat appends_step|]. intros _. apply F. }
  intros _. apply appends_bind; [repeat appends_step|]. intros line.
  cbv zeta. repeat appends_step.
Qed.

Lemma appends_view_watch_later_list :
  appends_only (view_watch_later_list polarity).
Proof.
  assert (D : forall removed,
             appends_only (loop (delete_or_move polarity removed) tt)).
  { intros removed. apply appends_loop. intros []. unfold delete_or_move.
    apply appends_bind; [repeat appends_step|]. intros line. cbv zeta.
    repeat appends_step. }
  assert (T : forall idx l, appends_only (list_titles idx l)).
  { intros idx l. apply keeps_appends, keeps_list_titles. }
  unfold view_watch_later_list.
  apply appends_bind; [repeat appends_step|]. intros watch_later.
  apply appends_bind; [destruct watch_later; repeat appends_step|].
  intros _. apply appends_loop. intros []. unfold manage_watch_later.
  do 4 (apply appends_bind; [repeat appends_step|]; intros _).
  apply appends_bind; [repeat appends_step|]. intros line. cbv zeta.
  repeat appends_step.
Qed.

Lemma appends_handle_recommendation :
  appends_only (handle_recommendation emotion_classifier polarity float_repr
                  review_page titles_table ratings_table).
Proof.
  assert (R : appends_only (recommend_movie emotion_classifier review_page
                              titles_table ratings_table)).
  { unfold recommend_movie. repeat appends_step. }
  assert (N : appends_only (renew_preferences_menu emotion_classifier
                              polarity float_repr titles_table)).
  { unfold renew_preferences_menu.
    apply appends_bind; [repeat appends_step|]. intros full_titles.
    apply appends_renew_preferences. }
  unfold handle_recommendation, display_recommendation_menu.
  apply appends_loop. intros _.
  apply appends_bind; [repeat appends_step|]. intros _.
  apply appends_bind; [repeat appends_step|]. intros line. cbv zeta.
  repeat appends_step.
Qed.

(** X24.  The program never takes anything out of the watched file:
    whatever is typed at the menus and however the run stops, the file
    holds afterwards the text that it held before, followed by what was
    added at its end. *)
Theorem main_keeps_watched (c : console) :
  exists suffix,
    held (watched_txt
            (disk (snd (main emotion_classifier polarity float_repr
                             review_page titles_table ratings_table c))))
    = (held (watched_txt (disk c)) ++ suffix)%string.
Proof.
  revert c.
  change (appends_only (main emotion_classifier polarity float_repr
                             review_page titles_table ratings_table)).
  pose proof appends_handle_recommendation as S1.
  pose proof appends_view_watched_list as S2.
  pose proof appends_view_watch_later_list as S3.
  pose proof (keeps_appends _
                (keeps_search_by_title_option float_repr review_page
                   titles_table ratings_table)) as S4.
  unfold main, display_main_menu.
  apply appends_loop. intros _.
  apply appends_bind; [repeat appends_step|]. intros _.
  apply appends_bind; [repeat appends_step|]. intros line. cbv zeta.
  repeat appends_step.
Qed.

End Grows.

End ShellFacts.
